(** * Gemma3 vision encoder: a shallow embedding and its verified properties

    The development follows
    [keras_hub/src/models/gemma3/gemma3_vision_encoder.py].  It has two
    halves.

    - _Construction_: the [__init__] / [build] / [get_config] /
      [compute_output_shape] methods of the six classes, over Python
      integers ([Z], with [//] raising [ZeroDivisionError] on a zero
      divisor) in a small error monad.
    - _Forward pass_: the [call] methods of the six classes, over
      tensors represented as nested lists of real numbers.

    Conventions.  Keras itself is not part of the repository.  Its
    layers ([Dense], [Conv2D], [LayerNormalization], [Dropout], ...)
    appear as plain configuration records, and its tensor operations
    ([ops.matmul], [ops.softmax], [ops.reshape], ...) are written out
    from their documented meaning.  Floating-point numbers are idealised
    as real numbers, so rounding, overflow and NaN are outside the
    model.  The constructors of the Keras layers check their arguments
    (a [Dense] without units, a [Conv2D] with an empty kernel, the name
    of a precision that Keras does not know raise [ValueError]); these
    checks are not followed, so the statements about construction stay
    within positive sizes and known precisions. *)

From Stdlib Require Import ZArith List String Bool Lia.
From Stdlib Require Import QArith Qreals Reals Lra.
From Stdlib Require Import DecimalString.
Import ListNotations.

Set Implicit Arguments.

(* ================================================================== *)
(** * Python primitives *)
(* ================================================================== *)

Module Py.

(** The exceptions that the modelled code can raise.  [ShapeError]
    stands for the shape errors of the numeric engine.  [Unmodelled]
    is not an exception: it marks an input on which the model makes
    no statement about the code. *)
Inductive error : Type :=
| ZeroDivisionError
| ValueError (msg : string)
| TypeError
| IndexError
| AttributeError
| ShapeError
| Unmodelled.

Inductive result (A : Type) : Type :=
| Ok (a : A)
| Raise (e : error).

Arguments Ok {A} a.
Arguments Raise {A} e.

Definition bind {A B : Type} (m : result A) (k : A -> result B) : result B :=
  match m with
  | Ok a => k a
  | Raise e => Raise e
  end.

Definition is_ok {A : Type} (m : result A) : bool :=
  match m with Ok _ => true | Raise _ => false end.

(** [for x in xs: acc = f(acc, x)], stopping at the first exception. *)
Fixpoint mapM {A B : Type} (f : A -> result B) (xs : list A) : result (list B) :=
  match xs with
  | [] => Ok []
  | x :: xs' =>
      bind (f x) (fun y => bind (mapM f xs') (fun ys => Ok (y :: ys)))
  end.

(** [a // b] on Python integers: floor division, which is [Z.div],
    except that a zero divisor raises. *)
Definition floordiv (a b : Z) : result Z :=
  if (b =? 0)%Z then Raise ZeroDivisionError else Ok (a / b)%Z.

(** [a ** 2] on Python integers. *)
Definition sq (a : Z) : Z := (a ^ 2)%Z.

(** [str(z)] for an integer, as used by f-strings. *)
Definition str (z : Z) : string := NilZero.string_of_int (Z.to_int z).

(** [range(n)]: empty when [n <= 0]. *)
Definition range (n : Z) : list Z := map Z.of_nat (seq 0 (Z.to_nat n)).

(** [xs[i]] on a list or tuple: a negative index counts from the
    end, and an index out of range raises [IndexError]. *)
Definition index {A : Type} (xs : list A) (i : Z) : result A :=
  let n := Z.of_nat (List.length xs) in
  let j := if (i <? 0)%Z then (n + i)%Z else i in
  if (j <? 0)%Z then Raise IndexError
  else match nth_error xs (Z.to_nat j) with
       | Some a => Ok a
       | None => Raise IndexError
       end.

(** A dimension that must be an integer: arithmetic on [None]
    raises [TypeError]. *)
Definition as_int (d : option Z) : result Z :=
  match d with Some z => Ok z | None => Raise TypeError end.

End Py.

Import Py.

Declare Scope py_scope.
Delimit Scope py_scope with py.
Notation "x <- m ;; k" := (Py.bind m (fun x => k))
  (at level 61, m at next level, right associativity) : py_scope.
Open Scope py_scope.

(* ================================================================== *)
(** * Configuration values and dtypes *)
(* ================================================================== *)

(** The [dtype] argument of a layer: absent, a string, or a
    [DTypePolicy] object (identified by its name). *)
Inductive Dtype : Type :=
| DNone
| DStr (s : string)
| DPolicy (policy_name : string).

(** [dtype == "bfloat16"] in Python.  A string compares by contents.
    [None] is not equal to a string, and neither is a [DTypePolicy]
    object: its [__eq__] answers [False] for an operand that is not a
    policy. *)
Definition dtype_eq_str (d : Dtype) (s : string) : bool :=
  match d with
  | DStr s' => String.eqb s' s
  | DNone | DPolicy _ => false
  end.

(** [keras.dtype_policies.get(dtype)], the policy a layer stores as
    [self.dtype_policy].  [global] is the name of the process-wide
    policy, used when no dtype is given. *)
Definition dtype_policies_get (global : string) (d : Dtype) : Dtype :=
  match d with
  | DNone => DPolicy global
  | DStr s => DPolicy s
  | DPolicy s => DPolicy s
  end.

(** The name of the precision a layer built with [d] works in. *)
Definition dtype_name (global : string) (d : Dtype) : string :=
  match d with
  | DNone => global
  | DStr s => s
  | DPolicy s => s
  end.

(** Keras looks the name of a precision up and raises [ValueError] for
    a name it does not know.  That lookup is not part of the module and
    is not followed here: [dtype_policies_get] and the constructors
    below take every name.  These are the names of the floating-point
    precisions, all of which Keras knows. *)
Definition float_dtype_names : list string :=
  ["float16"; "bfloat16"; "float32"; "float64"]%string.

(** A [dtype] argument that Keras accepts: none, or the name of a
    floating-point precision, given as a string or as a policy
    object. *)
Definition known_dtype (d : Dtype) : bool :=
  match d with
  | DNone => true
  | DStr s | DPolicy s => existsb (String.eqb s) float_dtype_names
  end.

(** Keras initializers, as far as the module names them. *)
Inductive Initializer : Type :=
| GlorotUniform
| RandomNormal (mean stddev : Q).

(** Values stored in a configuration dictionary. *)
Inductive ConfigValue : Type :=
| VInt (z : Z)
| VFloat (q : Q)
| VStr (s : string)
| VBool (b : bool)
| VDtype (d : Dtype)
| VInit (i : Initializer).

(** A Python [dict] with string keys, in insertion order. *)
Definition Config : Type := list (string * ConfigValue).

Fixpoint dict_get (c : Config) (k : string) : option ConfigValue :=
  match c with
  | [] => None
  | (k', v) :: c' => if String.eqb k' k then Some v else dict_get c' k
  end.

(** [c[k] = v]: overwrite in place when the key is present, append
    otherwise. *)
Fixpoint dict_set (c : Config) (k : string) (v : ConfigValue) : Config :=
  match c with
  | [] => [(k, v)]
  | (k', v') :: c' =>
      if String.eqb k' k then (k', v) :: c' else (k', v') :: dict_set c' k v
  end.

(** [c.update(d)]. *)
Definition dict_update (c d : Config) : Config :=
  fold_left (fun acc kv => dict_set acc (fst kv) (snd kv)) d c.

Definition dict_keys (c : Config) : list string := map fst c.

(** The result of a Python function that may fall off its end: a
    function without [return] yields [None]. *)
Inductive PyReturn (A : Type) : Type :=
| Returned (a : A)
| PyNone.

Arguments Returned {A} a.
Arguments PyNone {A}.

(** [super().get_config()] of a Keras layer: what the base class
    records, namely the layer's name, its trainable flag and its
    dtype policy. *)
Definition Layer_get_config (global : string) (name : string) (d : Dtype) : Config :=
  [ ("name"%string, VStr name);
    ("trainable"%string, VBool true);
    ("dtype"%string, VDtype (dtype_policies_get global d)) ].

(** [super().get_config()] of a [keras.Model] whose constructor is not
    functional-like: what the base layer records, namely the name, the
    trainable flag and the dtype policy of the model. *)
Definition Model_get_config (name : string) (policy : Dtype) : Config :=
  [ ("name"%string, VStr name);
    ("trainable"%string, VBool true);
    ("dtype"%string, VDtype policy) ].

(* ================================================================== *)
(** * Keras layers used as collaborators (configuration only) *)
(* ================================================================== *)

Record Conv2D : Type := {
  conv_filters : Z;
  conv_kernel_size : Z;
  conv_strides : Z;
  conv_padding : string;
  conv_dtype : Dtype;
  conv_name : string
}.

Record Embedding : Type := {
  emb_input_dim : Z;
  emb_output_dim : Z;
  emb_dtype : Dtype;
  emb_name : string
}.

Record Dense : Type := {
  dense_units : Z;
  dense_use_bias : bool;
  dense_kernel_initializer : Initializer;
  dense_dtype : Dtype;
  dense_name : string
}.

Record Dropout : Type := {
  dropout_rate : Q;
  dropout_dtype : Dtype;
  dropout_name : string
}.

Record LayerNormalization : Type := {
  ln_epsilon : Q;
  ln_dtype : Dtype;
  ln_name : string
}.

Record RMSNormalization : Type := {
  rms_epsilon : Q;
  rms_dtype : Dtype;
  rms_name : string
}.

Record AveragePooling2D : Type := {
  ap_pool_size : Z;
  ap_strides : Z;
  ap_padding : string;
  ap_dtype : Dtype;
  ap_name : string
}.

(** The default [layer_norm_epsilon=1e-6]. *)
Definition default_layer_norm_epsilon : Q := 1 # 1000000.

(** The default [pool_size=14] of the encoder. *)
Definition default_pool_size : Z := 14.

(** A static shape: [None] marks an unknown dimension. *)
Definition Shape : Type := list (option Z).

(* ================================================================== *)
(** * [Gemma3VisionEmbedding] *)
(* ================================================================== *)

Record Gemma3VisionEmbedding : Type := {
  ve_name : string;
  ve_dtype : Dtype;
  ve_hidden_dim : Z;
  ve_image_size : Z;
  ve_patch_size : Z;
  ve_num_channels : Z;
  ve_patch_embedding : Conv2D;
  ve_num_patches : Z;
  ve_num_positions : Z;
  ve_position_embedding : Embedding;
  ve_position_ids : list (list Z)
}.

(** [Gemma3VisionEmbedding.__init__], with [num_channels=3].  There is
    no divisibility test: the grid width is the floor quotient. *)
Definition Gemma3VisionEmbedding_init
    (image_size patch_size hidden_dim : Z) (dtype : Dtype) (name : string)
  : result Gemma3VisionEmbedding :=
  let patch_embedding :=
    {| conv_filters := hidden_dim;
       conv_kernel_size := patch_size;
       conv_strides := patch_size;
       conv_padding := "valid";
       conv_dtype := dtype;
       conv_name := "embedding_conv" |} in
  width <- Py.floordiv image_size patch_size ;;
  let num_patches := Py.sq width in
  let num_positions := num_patches in
  Ok {| ve_name := name;
        ve_dtype := dtype;
        ve_hidden_dim := hidden_dim;
        ve_image_size := image_size;
        ve_patch_size := patch_size;
        ve_num_channels := 3;
        ve_patch_embedding := patch_embedding;
        ve_num_patches := num_patches;
        ve_num_positions := num_positions;
        ve_position_embedding :=
          {| emb_input_dim := num_positions;
             emb_output_dim := hidden_dim;
             emb_dtype := dtype;
             emb_name := "position_embedding" |};
        ve_position_ids := [Py.range num_positions] |}.

(** [Gemma3VisionEmbedding.compute_output_shape]. *)
Definition Gemma3VisionEmbedding_compute_output_shape
    (L : Gemma3VisionEmbedding) (input_shape : Shape) : result Shape :=
  d0 <- Py.index input_shape 0 ;;
  Ok [d0; Some (ve_num_patches L); Some (ve_hidden_dim L)].

(* ================================================================== *)
(** * [Gemma3VisionAttention]: construction *)
(* ================================================================== *)

Record Gemma3VisionAttention : Type := {
  at_name : string;
  at_dtype : Dtype;
  at_hidden_dim : Z;
  at_num_heads : Z;
  at_dropout : Q;
  at_head_dim : Z;
  at_dropout_layer : Dropout;
  at_query_proj : Dense;
  at_key_proj : Dense;
  at_value_proj : Dense;
  at_out_proj : Dense
}.

(** The message of the [ValueError] raised by the constructor. *)
Definition divisibility_message (hidden_dim num_heads : Z) : string :=
  ("hidden_dim must be divisible by num_heads (got `hidden_dim`" ++
   ": " ++ Py.str hidden_dim ++ " and `num_heads`:" ++
   " " ++ Py.str num_heads ++ ").")%string.

Definition attention_dense (hidden_dim : Z) (dtype : Dtype) (name : string) : Dense :=
  {| dense_units := hidden_dim;
     dense_use_bias := true;
     dense_kernel_initializer := GlorotUniform;
     dense_dtype := dtype;
     dense_name := name |}.

(** [Gemma3VisionAttention.__init__].  After the divisibility test the
    constructor evaluates [self.scale = self.head_dim**-0.5], which
    raises [ZeroDivisionError] when [head_dim] is zero; the value of
    [scale] is never read by [call], so only that effect is kept. *)
Definition Gemma3VisionAttention_init
    (hidden_dim num_heads : Z) (dropout : Q) (dtype : Dtype) (name : string)
  : result Gemma3VisionAttention :=
  head_dim <- Py.floordiv hidden_dim num_heads ;;
  if negb (head_dim * num_heads =? hidden_dim)%Z then
    Raise (ValueError (divisibility_message hidden_dim num_heads))
  else if (head_dim =? 0)%Z then
    Raise ZeroDivisionError
  else
    Ok {| at_name := name;
          at_dtype := dtype;
          at_hidden_dim := hidden_dim;
          at_num_heads := num_heads;
          at_dropout := dropout;
          at_head_dim := head_dim;
          at_dropout_layer :=
            {| dropout_rate := dropout;
               dropout_dtype := dtype;
               dropout_name := "dropout" |};
          at_query_proj := attention_dense hidden_dim dtype "query_proj";
          at_key_proj := attention_dense hidden_dim dtype "key_proj";
          at_value_proj := attention_dense hidden_dim dtype "value_proj";
          at_out_proj := attention_dense hidden_dim dtype "out_proj" |}.

(** [Gemma3VisionAttention.get_config]. *)
Definition Gemma3VisionAttention_get_config
    (global : string) (L : Gemma3VisionAttention) : PyReturn Config :=
  let config := Layer_get_config global (at_name L) (at_dtype L) in
  let config :=
    dict_update config
      [ ("hidden_dim"%string, VInt (at_hidden_dim L));
        ("num_heads"%string, VInt (at_num_heads L));
        ("dropout"%string, VFloat (at_dropout L)) ] in
  Returned config.

(* ================================================================== *)
(** * [Gemma3VisionEncoderLayer]: construction *)
(* ================================================================== *)

(** The sublayers that [build] creates. *)
Record EncoderLayerSublayers : Type := {
  el_attn : Gemma3VisionAttention;
  el_layer_norm_1 : LayerNormalization;
  el_mlp_dense_1 : Dense;
  el_mlp_dense_2 : Dense;
  el_layer_norm_2 : LayerNormalization
}.

Record Gemma3VisionEncoderLayer : Type := {
  el_name : string;
  el_dtype : Dtype;
  el_num_heads : Z;
  el_intermediate_dim : Z;
  el_layer_norm_epsilon : Q;
  el_built : option EncoderLayerSublayers
}.

(** [Gemma3VisionEncoderLayer.__init__]. *)
Definition Gemma3VisionEncoderLayer_init
    (num_heads intermediate_dim : Z) (layer_norm_epsilon : Q)
    (dtype : Dtype) (name : string) : Gemma3VisionEncoderLayer :=
  {| el_name := name;
     el_dtype := dtype;
     el_num_heads := num_heads;
     el_intermediate_dim := intermediate_dim;
     el_layer_norm_epsilon := layer_norm_epsilon;
     el_built := None |}.

(** [Gemma3VisionEncoderLayer.build].  The attention layer is created
    here, with the default [dropout=0.0], so this is where a hidden
    width that the heads do not divide is detected. *)
Definition Gemma3VisionEncoderLayer_build
    (global : string) (L : Gemma3VisionEncoderLayer) (input_shape : Shape)
  : result Gemma3VisionEncoderLayer :=
  last_dim <- Py.index input_shape (-1) ;;
  hidden_dim <- Py.as_int last_dim ;;
  let dtype_policy := dtype_policies_get global (el_dtype L) in
  attn <- Gemma3VisionAttention_init hidden_dim (el_num_heads L) 0
            dtype_policy "multi_head_attention" ;;
  let sub :=
    {| el_attn := attn;
       el_layer_norm_1 :=
         {| ln_epsilon := el_layer_norm_epsilon L;
            ln_dtype := dtype_policy;
            ln_name := "layer_norm_1" |};
       el_mlp_dense_1 :=
         {| dense_units := el_intermediate_dim L;
            dense_use_bias := true;
            dense_kernel_initializer := GlorotUniform;
            dense_dtype := dtype_policy;
            dense_name := "mlp_dense_1" |};
       el_mlp_dense_2 :=
         {| dense_units := hidden_dim;
            dense_use_bias := true;
            dense_kernel_initializer := GlorotUniform;
            dense_dtype := dtype_policy;
            dense_name := "mlp_dense_2" |};
       el_layer_norm_2 :=
         {| ln_epsilon := el_layer_norm_epsilon L;
            ln_dtype := dtype_policy;
            ln_name := "layer_norm_2" |} |} in
  Ok {| el_name := el_name L;
        el_dtype := el_dtype L;
        el_num_heads := el_num_heads L;
        el_intermediate_dim := el_intermediate_dim L;
        el_layer_norm_epsilon := el_layer_norm_epsilon L;
        el_built := Some sub |}.

(** [Gemma3VisionEncoderLayer.compute_output_shape]. *)
Definition Gemma3VisionEncoderLayer_compute_output_shape
    (L : Gemma3VisionEncoderLayer) (inputs_shape : Shape) : Shape :=
  inputs_shape.

(** [Gemma3VisionEncoderLayer.get_config]. *)
Definition Gemma3VisionEncoderLayer_get_config
    (global : string) (L : Gemma3VisionEncoderLayer) : PyReturn Config :=
  let config := Layer_get_config global (el_name L) (el_dtype L) in
  let config :=
    dict_update config
      [ ("num_heads"%string, VInt (el_num_heads L));
        ("intermediate_dim"%string, VInt (el_intermediate_dim L));
        ("layer_norm_epsilon"%string, VFloat (el_layer_norm_epsilon L)) ] in
  Returned config.

(* ================================================================== *)
(** * [Gemma3VisionEncoderBlock]: construction *)
(* ================================================================== *)

Record Gemma3VisionEncoderBlock : Type := {
  eb_name : string;
  eb_dtype : Dtype;
  eb_patch_size : Z;
  eb_image_size : Z;
  eb_hidden_dim : Z;
  eb_num_layers : Z;
  eb_num_heads : Z;
  eb_intermediate_dim : Z;
  eb_layer_norm_epsilon : Q;
  eb_encoder_layer_norm : LayerNormalization;
  eb_vision_embeddings : Gemma3VisionEmbedding;
  eb_resblocks : list Gemma3VisionEncoderLayer
}.

(** [Gemma3VisionEncoderBlock.__init__].  The residual blocks are
    created with their own default [layer_norm_epsilon]: the
    constructor does not hand its argument down to them. *)
Definition Gemma3VisionEncoderBlock_init
    (patch_size image_size hidden_dim num_layers num_heads intermediate_dim : Z)
    (layer_norm_epsilon : Q) (dtype : Dtype) (name : string)
  : result Gemma3VisionEncoderBlock :=
  let encoder_layer_norm :=
    {| ln_epsilon := layer_norm_epsilon;
       ln_dtype := dtype;
       ln_name := "encoder_layer_norm" |} in
  vision_embeddings <-
    Gemma3VisionEmbedding_init image_size patch_size hidden_dim dtype
      "encoder_embeddings" ;;
  let resblocks :=
    map (fun i =>
           Gemma3VisionEncoderLayer_init num_heads intermediate_dim
             default_layer_norm_epsilon dtype
             ("encoder_block_" ++ Py.str i)%string)
        (Py.range num_layers) in
  Ok {| eb_name := name;
        eb_dtype := dtype;
        eb_patch_size := patch_size;
        eb_image_size := image_size;
        eb_hidden_dim := hidden_dim;
        eb_num_layers := num_layers;
        eb_num_heads := num_heads;
        eb_intermediate_dim := intermediate_dim;
        eb_layer_norm_epsilon := layer_norm_epsilon;
        eb_encoder_layer_norm := encoder_layer_norm;
        eb_vision_embeddings := vision_embeddings;
        eb_resblocks := resblocks |}.

(** [Gemma3VisionEncoderBlock.build]: every residual block is built
    for the shape [[None, None, hidden_dim]].  Building the embedding
    and the final normalization only creates their weights and leaves
    the configuration as it is. *)
Definition Gemma3VisionEncoderBlock_build
    (global : string) (L : Gemma3VisionEncoderBlock) (inputs_shape : Shape)
  : result Gemma3VisionEncoderBlock :=
  resblocks <-
    Py.mapM (fun block =>
               Gemma3VisionEncoderLayer_build global block
                 [None; None; Some (eb_hidden_dim L)])
            (eb_resblocks L) ;;
  Ok {| eb_name := eb_name L;
        eb_dtype := eb_dtype L;
        eb_patch_size := eb_patch_size L;
        eb_image_size := eb_image_size L;
        eb_hidden_dim := eb_hidden_dim L;
        eb_num_layers := eb_num_layers L;
        eb_num_heads := eb_num_heads L;
        eb_intermediate_dim := eb_intermediate_dim L;
        eb_layer_norm_epsilon := eb_layer_norm_epsilon L;
        eb_encoder_layer_norm := eb_encoder_layer_norm L;
        eb_vision_embeddings := eb_vision_embeddings L;
        eb_resblocks := resblocks |}.

(** [Gemma3VisionEncoderBlock.compute_output_shape], for a shape that
    is present. *)
Definition Gemma3VisionEncoderBlock_compute_output_shape
    (L : Gemma3VisionEncoderBlock) (inputs_shape : Shape) : result Shape :=
  d2 <- Py.index inputs_shape 2 ;;
  side <- Py.as_int d2 ;;
  width <- Py.floordiv side (eb_patch_size L) ;;
  Ok [None; Some (Py.sq width); Some (eb_hidden_dim L)].

(** [Gemma3VisionEncoderBlock.get_config]. *)
Definition Gemma3VisionEncoderBlock_get_config
    (global : string) (L : Gemma3VisionEncoderBlock) : PyReturn Config :=
  let config := Layer_get_config global (eb_name L) (eb_dtype L) in
  let config :=
    dict_update config
      [ ("hidden_dim"%string, VInt (eb_hidden_dim L));
        ("num_layers"%string, VInt (eb_num_layers L));
        ("num_heads"%string, VInt (eb_num_heads L));
        ("intermediate_dim"%string, VInt (eb_intermediate_dim L));
        ("patch_size"%string, VInt (eb_patch_size L));
        ("image_size"%string, VInt (eb_image_size L));
        ("layer_norm_epsilon"%string, VFloat (eb_layer_norm_epsilon L)) ] in
  Returned config.

(* ================================================================== *)
(** * [Gemma3VisionAveragePooling]: construction *)
(* ================================================================== *)

Record Gemma3VisionAveragePooling : Type := {
  pl_name : string;
  pl_dtype : Dtype;
  pl_width : Z;
  pl_reduced_width : Z;
  pl_image_size : Z;
  pl_patch_size : Z;
  pl_pool_size : Z;
  pl_average_pooling : option AveragePooling2D
}.

(** [Gemma3VisionAveragePooling.__init__]: two floor quotients, no
    divisibility test. *)
Definition Gemma3VisionAveragePooling_init
    (image_size patch_size pool_size : Z) (dtype : Dtype) (name : string)
  : result Gemma3VisionAveragePooling :=
  width <- Py.floordiv image_size patch_size ;;
  reduced_width <- Py.floordiv width pool_size ;;
  Ok {| pl_name := name;
        pl_dtype := dtype;
        pl_width := width;
        pl_reduced_width := reduced_width;
        pl_image_size := image_size;
        pl_patch_size := patch_size;
        pl_pool_size := pool_size;
        pl_average_pooling := None |}.

(** [Gemma3VisionAveragePooling.build]. *)
Definition Gemma3VisionAveragePooling_build
    (global : string) (L : Gemma3VisionAveragePooling)
  : Gemma3VisionAveragePooling :=
  {| pl_name := pl_name L;
     pl_dtype := pl_dtype L;
     pl_width := pl_width L;
     pl_reduced_width := pl_reduced_width L;
     pl_image_size := pl_image_size L;
     pl_patch_size := pl_patch_size L;
     pl_pool_size := pl_pool_size L;
     pl_average_pooling :=
       Some {| ap_pool_size := pl_pool_size L;
               ap_strides := pl_pool_size L;
               ap_padding := "valid";
               ap_dtype := dtype_policies_get global (pl_dtype L);
               ap_name := "average_pooling" |} |}.

(** [Gemma3VisionAveragePooling.compute_output_shape]: the number of
    tokens that leave the pooling stage is [reduced_width] squared. *)
Definition Gemma3VisionAveragePooling_compute_output_shape
    (L : Gemma3VisionAveragePooling) (input_shape : Shape) : result Shape :=
  d0 <- Py.index input_shape 0 ;;
  dl <- Py.index input_shape (-1) ;;
  Ok [d0; Some (pl_reduced_width L * pl_reduced_width L)%Z; dl].

(** [Gemma3VisionAveragePooling.get_config]. *)
Definition Gemma3VisionAveragePooling_get_config
    (global : string) (L : Gemma3VisionAveragePooling) : PyReturn Config :=
  let config := Layer_get_config global (pl_name L) (pl_dtype L) in
  let config :=
    dict_update config
      [ ("image_size"%string, VInt (pl_image_size L));
        ("patch_size"%string, VInt (pl_patch_size L));
        ("pool_size"%string, VInt (pl_pool_size L)) ] in
  Returned config.

(* ================================================================== *)
(** * [Gemma3VisionOutput]: construction *)
(* ================================================================== *)

Record OutputSublayers : Type := {
  vo_vision_soft_embedding_norm : RMSNormalization;
  vo_vision_input_projection : Dense
}.

Record Gemma3VisionOutput : Type := {
  vo_name : string;
  vo_dtype : Dtype;
  vo_layer_norm_epsilon : Q;
  vo_output_dim : Z;
  vo_kernel_initializer : Initializer;
  vo_built : option OutputSublayers
}.

(** [Gemma3VisionOutput.__init__]; the defaults of the two optional
    arguments are [default_layer_norm_epsilon] and [GlorotUniform]. *)
Definition Gemma3VisionOutput_init
    (output_dim : Z) (layer_norm_epsilon : Q) (kernel_initializer : Initializer)
    (dtype : Dtype) (name : string) : Gemma3VisionOutput :=
  {| vo_name := name;
     vo_dtype := dtype;
     vo_layer_norm_epsilon := layer_norm_epsilon;
     vo_output_dim := output_dim;
     vo_kernel_initializer := kernel_initializer;
     vo_built := None |}.

(** [Gemma3VisionOutput.build]. *)
Definition Gemma3VisionOutput_build
    (global : string) (L : Gemma3VisionOutput) : Gemma3VisionOutput :=
  let dtype_policy := dtype_policies_get global (vo_dtype L) in
  {| vo_name := vo_name L;
     vo_dtype := vo_dtype L;
     vo_layer_norm_epsilon := vo_layer_norm_epsilon L;
     vo_output_dim := vo_output_dim L;
     vo_kernel_initializer := vo_kernel_initializer L;
     vo_built :=
       Some {| vo_vision_soft_embedding_norm :=
                 {| rms_epsilon := vo_layer_norm_epsilon L;
                    rms_dtype := dtype_policy;
                    rms_name := "vision_soft_embedding_norm" |};
               vo_vision_input_projection :=
                 {| dense_units := vo_output_dim L;
                    dense_use_bias := false;
                    dense_kernel_initializer := vo_kernel_initializer L;
                    dense_dtype := dtype_policy;
                    dense_name := "vision_input_projection" |} |} |}.

(** [Gemma3VisionOutput.get_config].  The dictionary is assembled and
    updated like in the sibling classes, but the method ends without a
    [return] statement, so the caller receives [None]. *)
Definition Gemma3VisionOutput_get_config
    (global : string) (L : Gemma3VisionOutput) : PyReturn Config :=
  let config := Layer_get_config global (vo_name L) (vo_dtype L) in
  let config :=
    dict_update config
      [ ("output_dim"%string, VInt (vo_output_dim L));
        ("layer_norm_epsilon"%string, VFloat (vo_layer_norm_epsilon L));
        ("kernel_initializer"%string, VInit (vo_kernel_initializer L)) ] in
  let _ := config in
  PyNone.

(** [Gemma3VisionOutput.compute_output_shape]:
    [input_shape[:-1] + (self.output_dim,)]. *)
Definition Gemma3VisionOutput_compute_output_shape
    (L : Gemma3VisionOutput) (input_shape : Shape) : Shape :=
  (removelast input_shape ++ [Some (vo_output_dim L)])%list.

(* ================================================================== *)
(** * [Gemma3VisionEncoder]: construction *)
(* ================================================================== *)

Record Gemma3VisionEncoder : Type := {
  enc_name : string;
  enc_image_encoder : Gemma3VisionEncoderBlock;
  enc_pooling : Gemma3VisionAveragePooling;
  enc_vision_output_encoder : Gemma3VisionOutput;
  enc_output_shape : Shape;
  enc_image_size : Z;
  enc_patch_size : Z;
  enc_num_heads : Z;
  enc_hidden_dim : Z;
  enc_num_layers : Z;
  enc_intermediate_dim : Z;
  enc_output_dim : Z;
  enc_pool_size : Z;
  enc_layer_norm_epsilon : Q;
  enc_num_vision_tokens_per_image : Z;
  enc_dtype_policy : Dtype
}.

(** The first statement of [Gemma3VisionEncoder.__init__]:
    [if dtype == "bfloat16": dtype = "float32"]. *)
Definition override_dtype (dtype : Dtype) : Dtype :=
  if dtype_eq_str dtype "bfloat16" then DStr "float32" else dtype.

(** [Gemma3VisionEncoder.__init__].  Applying a layer to the symbolic
    input builds it and derives the shape of its result with the
    layer's [compute_output_shape]. *)
Definition Gemma3VisionEncoder_init
    (global : string)
    (image_size patch_size num_heads hidden_dim num_layers
       intermediate_dim output_dim pool_size : Z)
    (layer_norm_epsilon : Q) (dtype : Dtype) (name : string)
  : result Gemma3VisionEncoder :=
  let dtype := override_dtype dtype in
  let image_input : Shape :=
    [None; None; Some image_size; Some image_size; Some 3%Z] in
  image_encoder <-
    Gemma3VisionEncoderBlock_init patch_size image_size hidden_dim num_layers
      num_heads intermediate_dim default_layer_norm_epsilon dtype
      "image_encoder" ;;
  image_encoder <- Gemma3VisionEncoderBlock_build global image_encoder image_input ;;
  x <- Gemma3VisionEncoderBlock_compute_output_shape image_encoder image_input ;;
  pooling <-
    Gemma3VisionAveragePooling_init image_size patch_size pool_size dtype
      "pooling" ;;
  let pooling := Gemma3VisionAveragePooling_build global pooling in
  x <- Gemma3VisionAveragePooling_compute_output_shape pooling x ;;
  let vision_output_encoder :=
    Gemma3VisionOutput_build global
      (Gemma3VisionOutput_init output_dim layer_norm_epsilon
         (RandomNormal 0 (1 # 100)) dtype "vision_output_encoder") in
  let outputs := Gemma3VisionOutput_compute_output_shape vision_output_encoder x in
  width <- Py.floordiv image_size patch_size ;;
  num_vision_tokens_per_image <- Py.floordiv (Py.sq width) (Py.sq pool_size) ;;
  Ok {| enc_name := name;
        enc_image_encoder := image_encoder;
        enc_pooling := pooling;
        enc_vision_output_encoder := vision_output_encoder;
        enc_output_shape := outputs;
        enc_image_size := image_size;
        enc_patch_size := patch_size;
        enc_num_heads := num_heads;
        enc_hidden_dim := hidden_dim;
        enc_num_layers := num_layers;
        enc_intermediate_dim := intermediate_dim;
        enc_output_dim := output_dim;
        enc_pool_size := pool_size;
        enc_layer_norm_epsilon := layer_norm_epsilon;
        enc_num_vision_tokens_per_image := num_vision_tokens_per_image;
        enc_dtype_policy := dtype_policies_get global dtype |}.

(** [Gemma3VisionEncoder.get_config]. *)
Definition Gemma3VisionEncoder_get_config
    (L : Gemma3VisionEncoder) : PyReturn Config :=
  let config := Model_get_config (enc_name L) (enc_dtype_policy L) in
  let config :=
    dict_update config
      [ ("num_heads"%string, VInt (enc_num_heads L));
        ("hidden_dim"%string, VInt (enc_hidden_dim L));
        ("num_layers"%string, VInt (enc_num_layers L));
        ("intermediate_dim"%string, VInt (enc_intermediate_dim L));
        ("output_dim"%string, VInt (enc_output_dim L));
        ("pool_size"%string, VInt (enc_pool_size L));
        ("image_size"%string, VInt (enc_image_size L));
        ("patch_size"%string, VInt (enc_patch_size L));
        ("layer_norm_epsilon"%string, VFloat (enc_layer_norm_epsilon L)) ] in
  Returned config.

(** The number of tokens per image in the encoder's output: the
    middle entry of the shape [(batch, tokens, output_dim)]. *)
Definition output_token_count (L : Gemma3VisionEncoder) : option Z :=
  match enc_output_shape L with
  | [_; tokens; _] => tokens
  | _ => None
  end.

(** ** The dtypes of all sublayers *)

Definition attention_dtypes (a : Gemma3VisionAttention) : list Dtype :=
  [ at_dtype a; dropout_dtype (at_dropout_layer a);
    dense_dtype (at_query_proj a); dense_dtype (at_key_proj a);
    dense_dtype (at_value_proj a); dense_dtype (at_out_proj a) ].

Definition encoder_layer_dtypes (l : Gemma3VisionEncoderLayer) : list Dtype :=
  el_dtype l ::
  match el_built l with
  | None => []
  | Some s =>
      attention_dtypes (el_attn s) ++
      [ ln_dtype (el_layer_norm_1 s); dense_dtype (el_mlp_dense_1 s);
        dense_dtype (el_mlp_dense_2 s); ln_dtype (el_layer_norm_2 s) ]
  end.

Definition embedding_dtypes (e : Gemma3VisionEmbedding) : list Dtype :=
  [ ve_dtype e; conv_dtype (ve_patch_embedding e);
    emb_dtype (ve_position_embedding e) ].

Definition encoder_block_dtypes (b : Gemma3VisionEncoderBlock) : list Dtype :=
  eb_dtype b :: ln_dtype (eb_encoder_layer_norm b) ::
  embedding_dtypes (eb_vision_embeddings b) ++
  flat_map encoder_layer_dtypes (eb_resblocks b).

Definition pooling_dtypes (p : Gemma3VisionAveragePooling) : list Dtype :=
  pl_dtype p ::
  match pl_average_pooling p with
  | None => []
  | Some a => [ap_dtype a]
  end.

Definition output_dtypes (o : Gemma3VisionOutput) : list Dtype :=
  vo_dtype o ::
  match vo_built o with
  | None => []
  | Some s =>
      [ rms_dtype (vo_vision_soft_embedding_norm s);
        dense_dtype (vo_vision_input_projection s) ]
  end.

(** Every dtype that some sublayer of the encoder was constructed
    with, the encoder's own policy included. *)
Definition sublayer_dtypes (L : Gemma3VisionEncoder) : list Dtype :=
  enc_dtype_policy L ::
  encoder_block_dtypes (enc_image_encoder L) ++
  pooling_dtypes (enc_pooling L) ++
  output_dtypes (enc_vision_output_encoder L).

(** All dtypes of a list name the precision [s]. *)
Definition all_named (global : string) (s : string) (ds : list Dtype) : Prop :=
  Forall (fun d => dtype_name global d = s) ds.

(* ================================================================== *)
(** * Tensors and the operations of the numeric engine *)
(* ================================================================== *)

(** A tensor of rank [k] is a [k]-fold nested list of reals, outermost
    axis first.  A nested list does not record the extent of an axis
    that lies below an empty one, so the operations that need such an
    extent take it as an argument; the caller always knows it from the
    shapes at hand. *)
Abbreviation Vec := (list R) (only parsing).
Abbreviation Tensor2 := (list (list R)) (only parsing).
Abbreviation Tensor3 := (list (list (list R))) (only parsing).
Abbreviation Tensor4 := (list (list (list (list R)))) (only parsing).

Module Ops.
Section Ops.

Local Open Scope R_scope.

(** ** Shapes *)

Definition is_shape1 (d : nat) (v : Vec) : bool :=
  Nat.eqb (List.length v) d.

Definition is_shape2 (a d : nat) (m : Tensor2) : bool :=
  Nat.eqb (List.length m) a && forallb (is_shape1 d) m.

Definition is_shape3 (n a d : nat) (t : Tensor3) : bool :=
  Nat.eqb (List.length t) n && forallb (is_shape2 a d) t.

Definition is_shape4 (n a b d : nat) (t : Tensor4) : bool :=
  Nat.eqb (List.length t) n && forallb (is_shape3 a b d) t.

(** [ops.shape(x)[0]] and [ops.shape(x)[1]]. *)
Definition dim0 {A : Type} (x : list A) : nat := List.length x.
Definition dim1 {A : Type} (x : list (list A)) : nat := List.length (hd [] x).
Definition dim2 {A : Type} (x : list (list (list A))) : nat := dim1 (hd [] x).
Definition dim3 {A : Type} (x : list (list (list (list A)))) : nat :=
  dim2 (hd [] x).

(** ** Element-wise helpers *)

Definition mapi {A B : Type} (f : nat -> A -> B) (l : list A) : list B :=
  map (fun p => f (fst p) (snd p)) (combine (seq 0 (List.length l)) l).

Definition map2 {A B C : Type} (f : A -> B -> C) (l : list A) (l' : list B)
  : list C :=
  map (fun p => f (fst p) (snd p)) (combine l l').

Definition map3d (f : R -> R) (t : Tensor3) : Tensor3 := map (map (map f)) t.
Definition map4d (f : R -> R) (t : Tensor4) : Tensor4 := map (map3d f) t.

Definition sum (v : Vec) : R := fold_right Rplus 0 v.

Definition dot (u v : Vec) : R := sum (map2 Rmult u v).

(** [x + y] for two rank-3 tensors of one shape. *)
Definition add3 (x y : Tensor3) : Tensor3 := map2 (map2 (map2 Rplus)) x y.

(** ** [ops.reshape]: row-major flattening and regrouping *)

Definition flatten2 (m : Tensor2) : list R := List.concat m.
Definition flatten3 (t : Tensor3) : list R := List.concat (map flatten2 t).
Definition flatten4 (t : Tensor4) : list R := List.concat (map flatten3 t).

(** The first [n] consecutive blocks of [k] entries of [l]. *)
Fixpoint chunks {A : Type} (n k : nat) (l : list A) : list (list A) :=
  match n with
  | O => []
  | S n' => firstn k l :: chunks n' k (skipn k l)
  end.

Definition unflatten3 (n a d : nat) (data : list R) : Tensor3 :=
  map (chunks a d) (chunks n (a * d) data).

Definition unflatten4 (n a b d : nat) (data : list R) : Tensor4 :=
  map (unflatten3 a b d) (chunks n (a * (b * d)) data).

(** [ops.reshape(t, (n, a, b, d))] for a rank-3 [t]; the engine
    refuses a target with a different number of entries. *)
Definition reshape_3_to_4 (t : Tensor3) (n a b d : nat) : result Tensor4 :=
  let data := flatten3 t in
  if Nat.eqb (List.length data) (n * (a * (b * d)))
  then Ok (unflatten4 n a b d data)
  else Raise ShapeError.

(** [ops.reshape(t, (n, a, d))] for a rank-4 [t]. *)
Definition reshape_4_to_3 (t : Tensor4) (n a d : nat) : result Tensor3 :=
  let data := flatten4 t in
  if Nat.eqb (List.length data) (n * (a * d))
  then Ok (unflatten3 n a d data)
  else Raise ShapeError.

(** ** [ops.transpose] *)

(** Swap the two axes of a matrix with [cols] columns. *)
Definition transpose2 {A : Type} (dflt : A) (cols : nat) (m : list (list A))
  : list (list A) :=
  map (fun j => map (fun row => nth j row dflt) m) (seq 0 cols).

(** [ops.transpose(t, axes=[0, 2, 1, 3])], where [b] is the extent
    of axis 2 of [t]. *)
Definition transpose_0213 (b : nat) (t : Tensor4) : Tensor4 :=
  map (transpose2 [] b) t.

(** [ops.transpose(t, axes=[0, 1, 3, 2])], where [d] is the extent
    of axis 3 of [t]. *)
Definition transpose_0132 (d : nat) (t : Tensor4) : Tensor4 :=
  map (map (transpose2 0 d)) t.

(** ** [ops.matmul] *)

Definition column (j : nat) (m : Tensor2) : Vec :=
  map (fun row => nth j row 0) m.

(** The product of two matrices, the second with [p] columns. *)
Definition matmul2 (p : nat) (a b : Tensor2) : Tensor2 :=
  map (fun row => map (fun j => dot row (column j b)) (seq 0 p)) a.

(** [ops.matmul] on rank-4 tensors with equal leading axes: the
    matrix product over the last two axes. *)
Definition matmul4 (p : nat) (a b : Tensor4) : Tensor4 :=
  map2 (map2 (matmul2 p)) a b.

(** ** [ops.divide], [ops.add] with broadcasting, [ops.softmax] *)

Definition divide4 (t : Tensor4) (c : R) : Tensor4 :=
  map4d (fun s => s / c) t.

(** Broadcasting along one axis: an axis of extent one is repeated. *)
Definition bnth {A : Type} (dflt : A) (l : list A) (i : nat) : A :=
  if Nat.eqb (List.length l) 1 then nth 0 l dflt else nth i l dflt.

Definition bdim (m target : nat) : bool :=
  Nat.eqb m 1 || Nat.eqb m target.

(** The mask is a rank-4 tensor each of whose extents is one or the
    matching extent of the scores [(n, h, s, s')], so that adding it
    leaves the shape of the scores unchanged. *)
Definition mask_fits (n h s s' : nat) (mask : Tensor4) : bool :=
  is_shape4 (dim0 mask) (dim1 mask) (dim2 mask) (dim3 mask) mask &&
  bdim (dim0 mask) n && bdim (dim1 mask) h &&
  bdim (dim2 mask) s && bdim (dim3 mask) s'.

Definition mask_at (mask : Tensor4) (n h i j : nat) : R :=
  bnth 0 (bnth [] (bnth [] (bnth [] mask n) h) i) j.

(** [ops.add(scores, mask)] for a mask that fits. *)
Definition add_mask (scores mask : Tensor4) : Tensor4 :=
  mapi (fun n => mapi (fun h => mapi (fun i => mapi (fun j s =>
    s + mask_at mask n h i j)))) scores.

(** [ops.softmax(v, axis=-1)] on one row. *)
Definition softmax (v : Vec) : Vec :=
  let e := map exp v in
  map (fun t => t / sum e) e.

Definition softmax4 (t : Tensor4) : Tensor4 := map (map (map softmax)) t.

(** [keras.activations.gelu(x, approximate=True)]. *)
Definition gelu_tanh (x : R) : R :=
  (1 / 2) * x *
  (1 + tanh (sqrt (2 / PI) * (x + (44715 / 1000000) * (x * x * x)))).

End Ops.
End Ops.

Import Ops.

(* ================================================================== *)
(** * Learned parameters and the calls of the Keras layers *)
(* ================================================================== *)

(** The kernel of a [Dense] layer has one row per input feature and
    one column per unit. *)
Record DenseW : Type := {
  kernel : Tensor2;
  bias : Vec
}.

Record LayerNormW : Type := {
  gamma : Vec;
  beta : Vec
}.

Record AttentionW : Type := {
  w_query_proj : DenseW;
  w_key_proj : DenseW;
  w_value_proj : DenseW;
  w_out_proj : DenseW
}.

Record EncoderLayerW : Type := {
  w_attn : AttentionW;
  w_layer_norm_1 : LayerNormW;
  w_mlp_dense_1 : DenseW;
  w_mlp_dense_2 : DenseW;
  w_layer_norm_2 : LayerNormW
}.

(** The outcome of the random draws of a dropout layer: whether the
    entry at a given index is kept. *)
Definition KeepMask : Type := nat -> nat -> nat -> nat -> bool.

Section LayerCalls.

Local Open Scope R_scope.

(** [Dense.call] on one feature vector: [x . kernel + bias]. *)
Definition Dense_call_vec (d : Dense) (w : DenseW) (x : Vec) : Vec :=
  map (fun j =>
         let y := dot x (column j (kernel w)) in
         if dense_use_bias d then y + nth j (bias w) 0 else y)
      (seq 0 (Z.to_nat (dense_units d))).

(** [Dense.call] on a rank-3 tensor acts on the last axis. *)
Definition Dense_call (d : Dense) (w : DenseW) (x : Tensor3) : Tensor3 :=
  map (map (Dense_call_vec d w)) x.

Definition mean (v : Vec) : R := sum v / INR (List.length v).

Definition variance (v : Vec) : R :=
  let m := mean v in
  mean (map (fun a => (a - m) * (a - m)) v).

(** [LayerNormalization.call] on one feature vector (the last axis). *)
Definition LayerNormalization_call_vec
    (l : LayerNormalization) (w : LayerNormW) (x : Vec) : Vec :=
  let m := mean x in
  let v := variance x in
  mapi (fun i a =>
          (a - m) / sqrt (v + Q2R (ln_epsilon l)) * nth i (gamma w) 0
          + nth i (beta w) 0) x.

Definition LayerNormalization_call
    (l : LayerNormalization) (w : LayerNormW) (x : Tensor3) : Tensor3 :=
  map (map (LayerNormalization_call_vec l w)) x.

(** [Dropout.call]: the identity unless the layer is in training
    mode with a positive rate; then a dropped entry becomes zero and
    a kept one is scaled by [1 / (1 - rate)]. *)
Definition Dropout_call
    (l : Dropout) (keep : KeepMask) (inputs : Tensor4) (training : bool)
  : Tensor4 :=
  if training && negb (Qle_bool (dropout_rate l) 0) then
    mapi (fun n => mapi (fun h => mapi (fun i => mapi (fun j p =>
      if keep n h i j then p / (1 - Q2R (dropout_rate l)) else 0)))) inputs
  else inputs.

(* ================================================================ *)
(** * [Gemma3VisionAttention]: forward pass *)
(* ================================================================ *)

(** [Gemma3VisionAttention._transpose_for_scores]:
    [(batch, seq, hidden)] to [(batch, heads, seq, head_dim)]. *)
Definition transpose_for_scores
    (L : Gemma3VisionAttention) (tensor : Tensor3) (batch_size : nat)
  : result Tensor4 :=
  let num_heads := Z.to_nat (at_num_heads L) in
  let head_dim := Z.to_nat (at_head_dim L) in
  let seq_len := dim1 tensor in
  tensor <- reshape_3_to_4 tensor batch_size seq_len num_heads head_dim ;;
  Ok (transpose_0213 num_heads tensor).

(** [Gemma3VisionAttention.call].  The dense projections were built
    for inputs of width [hidden_dim], so any other input is refused.
    The mask is a rank-4 tensor; it is covered when each of its
    extents is one or the matching extent of the scores.  For any
    other mask the engine either raises or broadcasts the scores up to
    the mask, depending on the extents; the model does not follow
    these cases and answers [Unmodelled]. *)
Definition Gemma3VisionAttention_call
    (L : Gemma3VisionAttention) (W : AttentionW)
    (x : Tensor3) (attention_mask : option Tensor4)
    (training : bool) (keep : KeepMask)
  : result (Tensor3 * Tensor4) :=
  let hidden_dim := Z.to_nat (at_hidden_dim L) in
  let num_heads := Z.to_nat (at_num_heads L) in
  let head_dim := Z.to_nat (at_head_dim L) in
  let batch_size := dim0 x in
  let seq_len := dim1 x in
  if negb (is_shape3 batch_size seq_len hidden_dim x) then Raise ShapeError
  else
  let mixed_query_layer := Dense_call (at_query_proj L) (w_query_proj W) x in
  let mixed_key_layer := Dense_call (at_key_proj L) (w_key_proj W) x in
  let mixed_value_layer := Dense_call (at_value_proj L) (w_value_proj W) x in
  query_layer <- transpose_for_scores L mixed_query_layer batch_size ;;
  key_layer <- transpose_for_scores L mixed_key_layer batch_size ;;
  value_layer <- transpose_for_scores L mixed_value_layer batch_size ;;
  let attention_scores :=
    matmul4 seq_len query_layer (transpose_0132 head_dim key_layer) in
  let dk := sqrt (INR head_dim) in
  let attention_scores := divide4 attention_scores dk in
  attention_scores <-
    match attention_mask with
    | None => Ok attention_scores
    | Some mask =>
        if mask_fits batch_size num_heads seq_len seq_len mask
        then Ok (add_mask attention_scores mask)
        else Raise Unmodelled
    end ;;
  let attention_probs := softmax4 attention_scores in
  let dropout_attention_probs :=
    Dropout_call (at_dropout_layer L) keep attention_probs training in
  let attn_output := matmul4 head_dim dropout_attention_probs value_layer in
  let attn_output := transpose_0213 seq_len attn_output in
  let seq_len_q := dim1 attn_output in
  attn_output <- reshape_4_to_3 attn_output batch_size seq_len_q hidden_dim ;;
  let attn_output := Dense_call (at_out_proj L) (w_out_proj W) attn_output in
  Ok (attn_output, attention_probs).

(* ================================================================ *)
(** * [Gemma3VisionEncoderLayer]: forward pass *)
(* ================================================================ *)

(** [Gemma3VisionEncoderLayer.compute_attention]; casting the mask to
    the dtype of [x] changes nothing over the reals.  The training flag
    of the enclosing call reaches the attention layer through the call
    context of the framework; the attention layer of an encoder layer
    has the dropout rate zero, so the flag has no effect there. *)
Definition compute_attention
    (sub : EncoderLayerSublayers) (W : EncoderLayerW)
    (x : Tensor3) (mask : option Tensor4) (training : bool) (keep : KeepMask)
  : result Tensor3 :=
  r <- Gemma3VisionAttention_call (el_attn sub) (w_attn W) x mask training keep ;;
  Ok (fst r).

(** [Gemma3VisionEncoderLayer.call].  The sublayers exist only once
    the layer is built, and they were built for inputs of width
    [hidden_dim]. *)
Definition Gemma3VisionEncoderLayer_call
    (L : Gemma3VisionEncoderLayer) (W : EncoderLayerW)
    (x : Tensor3) (mask : option Tensor4) (training : bool) (keep : KeepMask)
  : result Tensor3 :=
  match el_built L with
  | None => Raise AttributeError
  | Some sub =>
      let hidden_dim := Z.to_nat (at_hidden_dim (el_attn sub)) in
      if negb (is_shape3 (dim0 x) (dim1 x) hidden_dim x) then Raise ShapeError
      else
      let residual := x in
      let x := LayerNormalization_call (el_layer_norm_1 sub) (w_layer_norm_1 W) x in
      x <- compute_attention sub W x mask training keep ;;
      let x := add3 x residual in
      let residual := x in
      let x :=
        Dense_call (el_mlp_dense_1 sub) (w_mlp_dense_1 W)
          (LayerNormalization_call (el_layer_norm_2 sub) (w_layer_norm_2 W)
             residual) in
      let x := map3d gelu_tanh x in
      let x := Dense_call (el_mlp_dense_2 sub) (w_mlp_dense_2 W) x in
      Ok (add3 residual x)
  end.

End LayerCalls.

(* ================================================================== *)
(** * The layers as the specification words them *)
(* ================================================================== *)

(** These definitions follow the prose of the specification, not the
    code: heads are slices of the projected feature vectors, scores are
    scaled dot products, and the encoder layer is the two residual
    equations.  They are compared with the calls above. *)
Section SpecDefinitions.

Local Open Scope R_scope.

(** Group [h] of [head_dim] consecutive features of a token. *)
Definition head_of (head_dim h : nat) (v : Vec) : Vec :=
  firstn head_dim (skipn (h * head_dim) v).

(** The [num_heads] groups of a sequence of tokens. *)
Definition split_heads (num_heads head_dim : nat) (m : Tensor2) : Tensor3 :=
  map (fun h => map (head_of head_dim h) m) (seq 0 num_heads).

(** [scores = (Q . K^T) / sqrt(head_dim)], plus the mask entry when
    a mask is given, for image [n] and head [h]. *)
Definition spec_scores
    (head_dim : nat) (mask : option Tensor4) (n h : nat) (Qn Kn : Tensor2)
  : Tensor2 :=
  mapi (fun i q =>
    mapi (fun j k =>
      let s := dot (head_of head_dim h q) (head_of head_dim h k)
               / sqrt (INR head_dim) in
      match mask with
      | None => s
      | Some m => s + mask_at m n h i j
      end) Kn) Qn.

(** Softmax over the last axis. *)
Definition spec_probs
    (head_dim : nat) (mask : option Tensor4) (n h : nat) (Qn Kn : Tensor2)
  : Tensor2 :=
  map softmax (spec_scores head_dim mask n h Qn Kn).

(** Dropout on the probabilities of image [n] and head [h], active
    only in training mode with a positive rate. *)
Definition spec_dropout
    (l : Dropout) (keep : KeepMask) (training : bool) (n h : nat)
    (P : Tensor2) : Tensor2 :=
  if training && negb (Qle_bool (dropout_rate l) 0) then
    mapi (fun i => mapi (fun j p =>
      if keep n h i j then p / (1 - Q2R (dropout_rate l)) else 0)) P
  else P.

(** The probability-weighted sum of the value vectors. *)
Definition weighted_sum (head_dim : nat) (p : Vec) (vs : Tensor2) : Vec :=
  map (fun d => sum (map2 (fun pj v => pj * nth d v 0) p vs))
      (seq 0 head_dim).

(** One image: project, attend head by head, recombine the heads by
    concatenation, project the result. *)
Definition spec_attention_image
    (L : Gemma3VisionAttention) (W : AttentionW) (mask : option Tensor4)
    (training : bool) (keep : KeepMask) (n : nat) (xn : Tensor2)
  : Tensor2 * Tensor3 :=
  let num_heads := Z.to_nat (at_num_heads L) in
  let head_dim := Z.to_nat (at_head_dim L) in
  let Qn := map (Dense_call_vec (at_query_proj L) (w_query_proj W)) xn in
  let Kn := map (Dense_call_vec (at_key_proj L) (w_key_proj W)) xn in
  let Vn := map (Dense_call_vec (at_value_proj L) (w_value_proj W)) xn in
  let heads :=
    map (fun h =>
           let P := spec_probs head_dim mask n h Qn Kn in
           let Pd := spec_dropout (at_dropout_layer L) keep training n h P in
           (P, map (fun p => weighted_sum head_dim p (map (head_of head_dim h) Vn)) Pd))
        (seq 0 num_heads) in
  let recombined :=
    map (fun i => List.concat (map (fun hc => nth i (snd hc) []) heads))
        (seq 0 (List.length xn)) in
  (map (Dense_call_vec (at_out_proj L) (w_out_proj W)) recombined,
   map fst heads).

(** The pair (attended output, attention probabilities). *)
Definition spec_attention
    (L : Gemma3VisionAttention) (W : AttentionW)
    (x : Tensor3) (mask : option Tensor4) (training : bool) (keep : KeepMask)
  : Tensor3 * Tensor4 :=
  let r := mapi (spec_attention_image L W mask training keep) x in
  (map fst r, map snd r).

(** [MLP = Dense(hidden -> intermediate); GELU (tanh); Dense(intermediate -> hidden)]. *)
Definition spec_mlp
    (sub : EncoderLayerSublayers) (W : EncoderLayerW) (x : Tensor3) : Tensor3 :=
  Dense_call (el_mlp_dense_2 sub) (w_mlp_dense_2 W)
    (map3d gelu_tanh
       (Dense_call (el_mlp_dense_1 sub) (w_mlp_dense_1 W) x)).

(** [x' = x + Attention(LayerNorm(x), mask)];
    [x'' = x' + MLP(LayerNorm(x'))]. *)
Definition spec_encoder_layer
    (sub : EncoderLayerSublayers) (W : EncoderLayerW)
    (x : Tensor3) (mask : option Tensor4) (training : bool) (keep : KeepMask)
  : Tensor3 :=
  let attention :=
    fst (spec_attention (el_attn sub) (w_attn W)
           (LayerNormalization_call (el_layer_norm_1 sub) (w_layer_norm_1 W) x)
           mask training keep) in
  let x' := add3 x attention in
  let mlp :=
    spec_mlp sub W
      (LayerNormalization_call (el_layer_norm_2 sub) (w_layer_norm_2 W) x') in
  add3 x' mlp.

(** Every entry of a mask is zero. *)
Definition all_zero (mask : Tensor4) : Prop :=
  Forall (Forall (Forall (Forall (fun v => v = 0)))) mask.

(** Every row (last axis) of a probability tensor sums to one. *)
Definition rows_sum_to_one (probs : Tensor4) : Prop :=
  Forall (Forall (Forall (fun row => sum row = 1))) probs.

End SpecDefinitions.


(* ================================================================== *)
(** * The remaining layers: weights and operations *)
(* ================================================================== *)

Abbreviation Tensor5 := (list (list (list (list (list R))))) (only parsing).

(** The kernel of a [Conv2D] layer is indexed by row offset, column
    offset, input channel and filter. *)
Record Conv2DW : Type := {
  conv_kernel : Tensor4;
  conv_bias : Vec
}.

(** The table of an [Embedding] layer has one row per position. *)
Record VisionEmbeddingW : Type := {
  w_patch_embedding : Conv2DW;
  w_position_embedding : Tensor2
}.

Record EncoderBlockW : Type := {
  w_vision_embeddings : VisionEmbeddingW;
  w_resblocks : list EncoderLayerW;
  w_encoder_layer_norm : LayerNormW
}.

Record OutputW : Type := {
  w_vision_soft_embedding_norm : Vec;
  w_vision_input_projection : DenseW
}.

(** The pooling layer has no weights. *)
Record EncoderW : Type := {
  w_image_encoder : EncoderBlockW;
  w_vision_output_encoder : OutputW
}.

Section MoreOps.

Local Open Scope R_scope.

Definition is_shape5 (n a b c d : nat) (t : Tensor5) : bool :=
  Nat.eqb (List.length t) n && forallb (is_shape4 a b c d) t.

Definition dim4 {A : Type} (x : list (list (list (list (list A))))) : nat :=
  dim3 (hd [] x).

Definition flatten5 (t : Tensor5) : list R := List.concat (map flatten4 t).

(** [ops.reshape(t, (n, a, b, d))] for a rank-5 [t]. *)
Definition reshape_5_to_4 (t : Tensor5) (n a b d : nat) : result Tensor4 :=
  let data := flatten5 t in
  if Nat.eqb (List.length data) (n * (a * (b * d)))
  then Ok (unflatten4 n a b d data)
  else Raise ShapeError.

(** The entry of an image (rows, columns, channels) at a position; the
    callers stay inside the image. *)
Definition pixel (img : Tensor3) (r c ch : nat) : R :=
  nth ch (nth c (nth r img []) []) 0.

Definition kernel_at (k : Tensor4) (di dj ch f : nat) : R :=
  nth f (nth ch (nth dj (nth di k []) []) []) 0.

(** The number of windows of extent [k] that fit into [size] at
    stride [s] without padding. *)
Definition windows (size k s : nat) : nat := (size - k) / s + 1.

(** [x + y] where [y] has the leading extent one or that of [x]. *)
Definition add3_broadcast (x y : Tensor3) : Tensor3 :=
  mapi (fun n img => map2 (map2 Rplus) img (bnth [] y n)) x.

(** [Conv2D.call] with [padding="valid"] and channels last, on one
    image with [channels] channels. *)
Definition Conv2D_call_image
    (l : Conv2D) (w : Conv2DW) (out_h out_w channels : nat) (img : Tensor3)
  : Tensor3 :=
  let k := Z.to_nat (conv_kernel_size l) in
  let s := Z.to_nat (conv_strides l) in
  map (fun i =>
    map (fun j =>
      map (fun f =>
        sum (map (fun di =>
          sum (map (fun dj =>
            sum (map (fun ch =>
                   pixel img (i * s + di) (j * s + dj) ch *
                   kernel_at (conv_kernel w) di dj ch f)
                 (seq 0 channels)))
            (seq 0 k)))
          (seq 0 k))
        + nth f (conv_bias w) 0)
      (seq 0 (Z.to_nat (conv_filters l))))
    (seq 0 out_w))
  (seq 0 out_h).

(** [Conv2D.call] on a batch.  An image smaller than the kernel, and
    a kernel or stride of zero, are not followed.  The layer was built
    for the input channels of its kernel and refuses any other image. *)
Definition Conv2D_call (l : Conv2D) (w : Conv2DW) (x : Tensor4)
  : result Tensor4 :=
  let k := Z.to_nat (conv_kernel_size l) in
  let s := Z.to_nat (conv_strides l) in
  let height := dim1 x in
  let width := dim2 x in
  let channels := dim3 x in
  if Nat.eqb k 0 || Nat.eqb s 0 || Nat.ltb height k || Nat.ltb width k
  then Raise Unmodelled
  else if negb (Nat.eqb channels (dim2 (conv_kernel w)))
  then Raise ShapeError
  else Ok (map (Conv2D_call_image l w (windows height k s) (windows width k s)
                  channels) x).

(** [Embedding.call]: the rows of the table at the given indices. *)
Definition Embedding_call (table : Tensor2) (ids : list (list Z)) : Tensor3 :=
  map (map (fun id => nth (Z.to_nat id) table [])) ids.

(** [AveragePooling2D.call] with [padding="valid"] and channels last.
    An image smaller than the window, and a window or stride of zero,
    are not followed. *)
Definition AveragePooling2D_call (l : AveragePooling2D) (x : Tensor4)
  : result Tensor4 :=
  let p := Z.to_nat (ap_pool_size l) in
  let s := Z.to_nat (ap_strides l) in
  let height := dim1 x in
  let width := dim2 x in
  let channels := dim3 x in
  if Nat.eqb p 0 || Nat.eqb s 0 || Nat.ltb height p || Nat.ltb width p
  then Raise Unmodelled
  else
    Ok (map (fun img =>
          map (fun i =>
            map (fun j =>
              map (fun ch =>
                sum (map (fun di =>
                  sum (map (fun dj => pixel img (i * s + di) (j * s + dj) ch)
                           (seq 0 p)))
                  (seq 0 p))
                / INR (p * p))
              (seq 0 channels))
            (seq 0 (windows width p s)))
          (seq 0 (windows height p s))) x).

End MoreOps.

(* ================================================================== *)
(** * The remaining layers: forward pass *)
(* ================================================================== *)

Section MoreCalls.

Local Open Scope R_scope.

(** [RMSNormalization.call] on one feature vector, given the layer,
    its scale weights and the vector.  The class is defined in
    [keras_hub/src/models/gemma/rms_normalization.py], which is not
    among the sources at hand, so its call is a parameter. *)
Variable RMSNormalization_call : RMSNormalization -> Vec -> Vec -> Vec.

(** [Gemma3VisionEmbedding.call] on a batch of images. *)
Definition Gemma3VisionEmbedding_call
    (L : Gemma3VisionEmbedding) (W : VisionEmbeddingW) (input_tokens : Tensor4)
  : result Tensor3 :=
  if negb (is_shape4 (dim0 input_tokens) (dim1 input_tokens)
             (dim2 input_tokens) (dim3 input_tokens) input_tokens)
  then Raise ShapeError
  else
  x <- Conv2D_call (ve_patch_embedding L) (w_patch_embedding W) input_tokens ;;
  let input_shape_0 := dim0 x in
  x <- reshape_4_to_3 x input_shape_0 (Z.to_nat (ve_num_patches L))
         (Z.to_nat (ve_hidden_dim L)) ;;
  let x :=
    add3_broadcast x
      (Embedding_call (w_position_embedding W) (ve_position_ids L)) in
  Ok x.

(** The loop [for block in self.resblocks: x = block(x, mask=mask)];
    every block comes with its weights. *)
Fixpoint resblocks_call
    (blocks : list Gemma3VisionEncoderLayer) (ws : list EncoderLayerW)
    (x : Tensor3) (mask : option Tensor4) (training : bool) (keep : KeepMask)
  : result Tensor3 :=
  match blocks, ws with
  | [], [] => Ok x
  | block :: blocks', w :: ws' =>
      x <- Gemma3VisionEncoderLayer_call block w x mask training keep ;;
      resblocks_call blocks' ws' x mask training keep
  | _, _ => Raise Unmodelled
  end.

(** [Gemma3VisionEncoderBlock.call]: the batch axis and the
    images-per-example axis are collapsed into one. *)
Definition Gemma3VisionEncoderBlock_call
    (L : Gemma3VisionEncoderBlock) (W : EncoderBlockW)
    (inputs : Tensor5) (mask : option Tensor4)
    (training : bool) (keep : KeepMask)
  : result Tensor3 :=
  let s0 := dim0 inputs in
  let s1 := dim1 inputs in
  let s2 := dim2 inputs in
  let s3 := dim3 inputs in
  let s4 := dim4 inputs in
  if negb (is_shape5 s0 s1 s2 s3 s4 inputs) then Raise ShapeError
  else
  inputs <- reshape_5_to_4 inputs (s0 * s1) s2 s3 s4 ;;
  x <- Gemma3VisionEmbedding_call (eb_vision_embeddings L)
         (w_vision_embeddings W) inputs ;;
  x <- resblocks_call (eb_resblocks L) (w_resblocks W) x mask training keep ;;
  let x :=
    LayerNormalization_call (eb_encoder_layer_norm L)
      (w_encoder_layer_norm W) x in
  Ok x.

(** [Gemma3VisionAveragePooling.call]. *)
Definition Gemma3VisionAveragePooling_call
    (L : Gemma3VisionAveragePooling) (x : Tensor3) : result Tensor3 :=
  match pl_average_pooling L with
  | None => Raise AttributeError
  | Some average_pooling =>
      let batch_size := dim0 x in
      let hidden_dim := dim2 x in
      let width := Z.to_nat (pl_width L) in
      let reduced_width := Z.to_nat (pl_reduced_width L) in
      if negb (is_shape3 batch_size (dim1 x) hidden_dim x) then Raise ShapeError
      else
      x <- reshape_3_to_4 x batch_size width width hidden_dim ;;
      x <- AveragePooling2D_call average_pooling x ;;
      reshape_4_to_3 x batch_size (reduced_width * reduced_width) hidden_dim
  end.

(** [Gemma3VisionOutput.call].  The projection was built for the
    number of rows of its kernel and refuses any other width of what
    the normalization hands to it.  What the normalization itself does
    with rows of another width than its scale is part of its own
    class, so this definition says nothing reliable about such rows. *)
Definition Gemma3VisionOutput_call
    (L : Gemma3VisionOutput) (W : OutputW) (inputs : Tensor3)
  : result Tensor3 :=
  match vo_built L with
  | None => Raise AttributeError
  | Some sub =>
      let x :=
        map (map (RMSNormalization_call (vo_vision_soft_embedding_norm sub)
                    (w_vision_soft_embedding_norm W))) inputs in
      let features := List.length (kernel (w_vision_input_projection W)) in
      if negb (is_shape3 (dim0 x) (dim1 x) features x)
      then Raise ShapeError
      else
      let x :=
        Dense_call (vo_vision_input_projection sub)
          (w_vision_input_projection W) x in
      Ok x
  end.

(** Calling the encoder: the functional model applies the three
    layers in turn.  The model accepts only inputs of the shape of its
    input layer, [(batch, images, image_size, image_size, 3)]. *)
Definition Gemma3VisionEncoder_call
    (L : Gemma3VisionEncoder) (W : EncoderW) (images : Tensor5)
    (training : bool) (keep : KeepMask)
  : result Tensor3 :=
  let image_size := Z.to_nat (enc_image_size L) in
  if negb (is_shape5 (dim0 images) (dim1 images) image_size image_size 3
             images)
  then Raise ShapeError
  else
  x <- Gemma3VisionEncoderBlock_call (enc_image_encoder L) (w_image_encoder W)
         images None training keep ;;
  x <- Gemma3VisionAveragePooling_call (enc_pooling L) x ;;
  Gemma3VisionOutput_call (enc_vision_output_encoder L)
    (w_vision_output_encoder W) x.

End MoreCalls.

(** The weights of the embedding layer as [build] creates them for
    images of [channels] channels: a square kernel per channel and
    filter, and one table row per position. *)
Definition embedding_weights_fit
    (L : Gemma3VisionEmbedding) (channels : nat) (W : VisionEmbeddingW)
  : Prop :=
  is_shape4 (Z.to_nat (ve_patch_size L)) (Z.to_nat (ve_patch_size L))
    channels (Z.to_nat (ve_hidden_dim L))
    (conv_kernel (w_patch_embedding W)) = true /\
  is_shape2 (Z.to_nat (ve_num_positions L)) (Z.to_nat (ve_hidden_dim L))
    (w_position_embedding W) = true.

(* ================================================================== *)
(** * Properties of the construction *)
(* ================================================================== *)

Section PyFacts.

Local Open Scope Z_scope.

Lemma floordiv_ok (a b : Z) : b <> 0 -> Py.floordiv a b = Ok (a / b).
Proof.
  intros Hb. unfold Py.floordiv.
  destruct (Z.eqb_spec b 0); [contradiction | reflexivity].
Qed.

Lemma floordiv_zero (a : Z) : Py.floordiv a 0 = Raise ZeroDivisionError.
Proof. reflexivity. Qed.

Lemma floordiv_inv (a b q : Z) :
  Py.floordiv a b = Ok q -> b <> 0 /\ q = a / b.
Proof.
  unfold Py.floordiv. destruct (Z.eqb_spec b 0); intros H; inversion H.
  split; [assumption | reflexivity].
Qed.

(** For a non-zero divisor, the test of the constructor is the
    usual divisibility. *)
Lemma quotient_times_divisor (a b : Z) :
  b <> 0 -> (a / b * b = a <-> (b | a)).
Proof.
  intros Hb. split.
  - intros H. exists (a / b). symmetry. exact H.
  - intros [k ->]. rewrite Z.div_mul by assumption. reflexivity.
Qed.

Lemma mapM_ok {A B : Type} (f : A -> result B) (g : A -> B) (xs : list A) :
  (forall x, In x xs -> f x = Ok (g x)) ->
  Py.mapM f xs = Ok (map g xs).
Proof.
  induction xs as [|x xs IH]; intros H; simpl.
  - reflexivity.
  - rewrite (H x) by (left; reflexivity). simpl.
    rewrite IH by (intros y Hy; apply H; right; exact Hy).
    reflexivity.
Qed.

Lemma mapM_succeeds {A B : Type} (f : A -> result B) (xs : list A) :
  (forall x, In x xs -> exists y, f x = Ok y) ->
  exists ys, Py.mapM f xs = Ok ys.
Proof.
  induction xs as [|x xs IH]; intros H; simpl.
  - eexists. reflexivity.
  - destruct (H x) as [y Hy]; [left; reflexivity|].
    destruct IH as [ys Hys]; [intros z Hz; apply H; right; exact Hz|].
    exists (y :: ys). rewrite Hy. simpl. rewrite Hys. reflexivity.
Qed.

Lemma mapM_inv {A B : Type} (f : A -> result B) (xs : list A) (ys : list B) :
  Py.mapM f xs = Ok ys ->
  Forall2 (fun x y => f x = Ok y) xs ys.
Proof.
  revert ys. induction xs as [|x xs IH]; intros ys H; simpl in H.
  - inversion H. constructor.
  - destruct (f x) as [y|e] eqn:Hx; simpl in H; [|discriminate].
    destruct (Py.mapM f xs) as [ys'|e] eqn:Hxs; simpl in H; [|discriminate].
    inversion H; subst. constructor; [exact Hx | apply IH; reflexivity].
Qed.

End PyFacts.

(** ** The attention layer's constructor *)

Section AttentionInit.

Local Open Scope Z_scope.

Lemma attention_init_ok hidden_dim num_heads dropout dtype name :
  num_heads <> 0 -> hidden_dim <> 0 -> (num_heads | hidden_dim) ->
  Gemma3VisionAttention_init hidden_dim num_heads dropout dtype name =
  Ok {| at_name := name;
        at_dtype := dtype;
        at_hidden_dim := hidden_dim;
        at_num_heads := num_heads;
        at_dropout := dropout;
        at_head_dim := hidden_dim / num_heads;
        at_dropout_layer :=
          {| dropout_rate := dropout;
             dropout_dtype := dtype;
             dropout_name := "dropout" |};
        at_query_proj := attention_dense hidden_dim dtype "query_proj";
        at_key_proj := attention_dense hidden_dim dtype "key_proj";
        at_value_proj := attention_dense hidden_dim dtype "value_proj";
        at_out_proj := attention_dense hidden_dim dtype "out_proj" |}.
Proof.
  intros Hn Hh Hdiv. unfold Gemma3VisionAttention_init.
  rewrite floordiv_ok by assumption. simpl.
  apply quotient_times_divisor in Hdiv; [|assumption].
  rewrite Hdiv, Z.eqb_refl. simpl.
  destruct (Z.eqb_spec (hidden_dim / num_heads) 0) as [E|E].
  - rewrite E in Hdiv. simpl in Hdiv. congruence.
  - reflexivity.
Qed.

Lemma attention_init_indivisible hidden_dim num_heads dropout dtype name :
  num_heads <> 0 -> hidden_dim / num_heads * num_heads <> hidden_dim ->
  Gemma3VisionAttention_init hidden_dim num_heads dropout dtype name =
  Raise (ValueError (divisibility_message hidden_dim num_heads)).
Proof.
  intros Hn Hne. unfold Gemma3VisionAttention_init.
  rewrite floordiv_ok by assumption. simpl.
  destruct (Z.eqb_spec (hidden_dim / num_heads * num_heads) hidden_dim);
    [contradiction | reflexivity].
Qed.

(** Without heads the quotient itself raises. *)
Lemma attention_init_zero_heads hidden_dim dropout dtype name :
  Gemma3VisionAttention_init hidden_dim 0 dropout dtype name =
  Raise ZeroDivisionError.
Proof. reflexivity. Qed.

(** What a successful construction tells about the arguments. *)
Lemma attention_init_inv hidden_dim num_heads dropout dtype name L :
  Gemma3VisionAttention_init hidden_dim num_heads dropout dtype name = Ok L ->
  num_heads <> 0 /\
  at_hidden_dim L = hidden_dim /\ at_num_heads L = num_heads /\
  at_head_dim L = hidden_dim / num_heads /\
  at_head_dim L * num_heads = hidden_dim /\ at_head_dim L <> 0 /\
  at_dropout_layer L =
    {| dropout_rate := dropout; dropout_dtype := dtype;
       dropout_name := "dropout" |} /\
  at_query_proj L = attention_dense hidden_dim dtype "query_proj" /\
  at_key_proj L = attention_dense hidden_dim dtype "key_proj" /\
  at_value_proj L = attention_dense hidden_dim dtype "value_proj" /\
  at_out_proj L = attention_dense hidden_dim dtype "out_proj" /\
  at_dtype L = dtype.
Proof.
  unfold Gemma3VisionAttention_init. intros H.
  destruct (Py.floordiv hidden_dim num_heads) as [q|e] eqn:Hq; simpl in H;
    [|discriminate].
  apply floordiv_inv in Hq. destruct Hq as [Hn ->].
  destruct (Z.eqb_spec (hidden_dim / num_heads * num_heads) hidden_dim)
    as [E|E]; simpl in H; [|discriminate].
  destruct (Z.eqb_spec (hidden_dim / num_heads) 0) as [E0|E0];
    [discriminate|].
  inversion H; subst; simpl. repeat split; assumption.
Qed.

End AttentionInit.

(** C7.  For positive sizes, constructing the attention layer fails
    exactly when [hidden_dim] is not divisible by [num_heads], which
    is the test [(hidden_dim // num_heads) * num_heads != hidden_dim]
    of the code, and the failure is the [ValueError] of the
    constructor; when [num_heads] divides [hidden_dim] the layer is
    constructed with [head_dim = hidden_dim // num_heads]. *)
Theorem attention_init_fails_iff_indivisible
    (hidden_dim num_heads : Z) (dropout : Q) (dtype : Dtype) (name : string) :
  (0 < hidden_dim)%Z -> (0 < num_heads)%Z ->
  let r := Gemma3VisionAttention_init hidden_dim num_heads dropout dtype name in
  ((hidden_dim / num_heads * num_heads <> hidden_dim)%Z <->
     ~ (num_heads | hidden_dim)%Z) /\
  (~ (num_heads | hidden_dim)%Z <->
     r = Raise (ValueError (divisibility_message hidden_dim num_heads))) /\
  (~ (num_heads | hidden_dim)%Z <-> Py.is_ok r = false) /\
  ((num_heads | hidden_dim)%Z ->
     exists L, r = Ok L /\ at_head_dim L = (hidden_dim / num_heads)%Z /\
               at_hidden_dim L = hidden_dim /\ at_num_heads L = num_heads).
Proof.
  intros Hh Hn r.
  assert (Hn0 : num_heads <> 0%Z) by lia.
  assert (Hh0 : hidden_dim <> 0%Z) by lia.
  assert (Hq := quotient_times_divisor hidden_dim Hn0).
  assert (Hgood : (num_heads | hidden_dim)%Z -> Py.is_ok r = true).
  { intros Hd. unfold r. rewrite attention_init_ok by assumption. reflexivity. }
  assert (Hbad : ~ (num_heads | hidden_dim)%Z ->
                 r = Raise (ValueError (divisibility_message hidden_dim num_heads))).
  { intros Hd. unfold r. apply attention_init_indivisible; [assumption|].
    intros E. apply Hd, Hq, E. }
  split; [|split; [|split]].
  - split; intros H1 H2; apply H1, Hq, H2.
  - split; [exact Hbad|].
    intros E Hd. apply Hgood in Hd. rewrite E in Hd. discriminate.
  - split.
    + intros Hd. rewrite (Hbad Hd). reflexivity.
    + intros E Hd. apply Hgood in Hd. congruence.
  - intros Hd. eexists. split.
    + unfold r. apply attention_init_ok; assumption.
    + simpl. repeat split.
Qed.

Lemma attention_init_fails_iff_indivisible_witness :
  exists L,
    Gemma3VisionAttention_init 8 2 0 DNone "multi_head_attention" = Ok L /\
    at_head_dim L = 4%Z.
Proof.
  destruct (@attention_init_fails_iff_indivisible 8 2 0 DNone
              "multi_head_attention") as [_ [_ [_ H]]]; [lia | lia |].
  destruct H as [L [HL [Hd _]]].
  - exists 4%Z. reflexivity.
  - exists L. split; [exact HL | exact Hd].
Defined.

(** ** The encoder's constructor *)

Ltac bind_inv H :=
  match type of H with
  | Py.bind ?m _ = Ok _ =>
      let x := fresh "x" in
      let E := fresh "E" in
      destruct m as [x|?] eqn:E; simpl in H; [|discriminate]
  end.

Section EncoderInit.

Local Open Scope Z_scope.

Variable global : string.

Lemma dtype_name_get (d : Dtype) :
  dtype_name global (dtype_policies_get global d) = dtype_name global d.
Proof. destruct d; reflexivity. Qed.

Lemma encoder_layer_build_inv L shape L' :
  Gemma3VisionEncoderLayer_build global L shape = Ok L' ->
  exists hidden_dim attn,
    Py.index shape (-1) = Ok (Some hidden_dim) /\
    Gemma3VisionAttention_init hidden_dim (el_num_heads L) 0
      (dtype_policies_get global (el_dtype L)) "multi_head_attention"
    = Ok attn /\
    el_dtype L' = el_dtype L /\
    el_num_heads L' = el_num_heads L /\
    el_intermediate_dim L' = el_intermediate_dim L /\
    el_layer_norm_epsilon L' = el_layer_norm_epsilon L /\
    exists sub,
      el_built L' = Some sub /\
      el_attn sub = attn /\
      ln_dtype (el_layer_norm_1 sub) = dtype_policies_get global (el_dtype L) /\
      ln_dtype (el_layer_norm_2 sub) = dtype_policies_get global (el_dtype L) /\
      dense_dtype (el_mlp_dense_1 sub) = dtype_policies_get global (el_dtype L) /\
      dense_dtype (el_mlp_dense_2 sub) = dtype_policies_get global (el_dtype L) /\
      dense_units (el_mlp_dense_1 sub) = el_intermediate_dim L /\
      dense_units (el_mlp_dense_2 sub) = hidden_dim /\
      dense_use_bias (el_mlp_dense_1 sub) = true /\
      dense_use_bias (el_mlp_dense_2 sub) = true.
Proof.
  unfold Gemma3VisionEncoderLayer_build. intros H.
  bind_inv H. bind_inv H. bind_inv H.
  destruct x as [hd|]; simpl in E0; inversion E0; subst.
  inversion H; subst; simpl.
  exists x0, x1.
  split; [first [exact E | reflexivity]|].
  split; [first [exact E1 | reflexivity]|].
  do 4 (split; [reflexivity|]).
  eexists. do 9 (split; [reflexivity|]). reflexivity.
Qed.

Lemma encoder_layer_build_dtypes L shape L' :
  Gemma3VisionEncoderLayer_build global L shape = Ok L' ->
  all_named global (dtype_name global (el_dtype L)) (encoder_layer_dtypes L').
Proof.
  intros H. apply encoder_layer_build_inv in H.
  destruct H as (hd & attn & _ & Ha & Hd & _ & _ & _ & sub & Hb & Hattn &
                 H1 & H2 & H3 & H4 & _).
  apply attention_init_inv in Ha.
  destruct Ha as (_ & _ & _ & _ & _ & _ & Hdr & Hq & Hk & Hv & Ho & Hdt).
  unfold encoder_layer_dtypes, attention_dtypes, all_named.
  rewrite Hb, Hattn, Hd, Hdr, Hq, Hk, Hv, Ho, Hdt, H1, H2, H3, H4. simpl.
  repeat constructor; apply dtype_name_get.
Qed.

Lemma resblocks_build_dtypes s f (ls ls' : list Gemma3VisionEncoderLayer) :
  Forall2 (fun l l' => Gemma3VisionEncoderLayer_build global l (f l) = Ok l')
          ls ls' ->
  Forall (fun l => dtype_name global (el_dtype l) = s) ls ->
  all_named global s (flat_map encoder_layer_dtypes ls').
Proof.
  induction 1 as [|l l' ls ls' Hb _ IH]; intros Hall; cbn [flat_map].
  - constructor.
  - inversion Hall as [|? ? Hl Hls]. apply Forall_app. split.
    + apply encoder_layer_build_dtypes in Hb. rewrite Hl in Hb. exact Hb.
    + apply IH. assumption.
Qed.

(** What a successful construction of the encoder tells. *)
Lemma encoder_init_inv
    image_size patch_size num_heads hidden_dim num_layers intermediate_dim
    output_dim pool_size layer_norm_epsilon dtype name e :
  Gemma3VisionEncoder_init global image_size patch_size num_heads hidden_dim
    num_layers intermediate_dim output_dim pool_size layer_norm_epsilon
    dtype name = Ok e ->
  patch_size <> 0 /\ pool_size <> 0 /\
  let width := image_size / patch_size in
  ve_num_patches (eb_vision_embeddings (enc_image_encoder e)) = width ^ 2 /\
  pl_width (enc_pooling e) = width /\
  pl_reduced_width (enc_pooling e) = width / pool_size /\
  enc_num_vision_tokens_per_image e = width ^ 2 / pool_size ^ 2 /\
  enc_output_shape e =
    [None; Some (width / pool_size * (width / pool_size)); Some output_dim] /\
  all_named global (dtype_name global (override_dtype dtype)) (sublayer_dtypes e).
Proof.
  unfold Gemma3VisionEncoder_init, Gemma3VisionEncoderBlock_init,
    Gemma3VisionEmbedding_init, Gemma3VisionAveragePooling_init.
  intros H.
  destruct (Py.floordiv image_size patch_size) as [w|] eqn:Ew; simpl in H;
    [|discriminate].
  apply floordiv_inv in Ew. destruct Ew as [Hp ->].
  unfold Gemma3VisionEncoderBlock_build in H. simpl in H.
  bind_inv H. rename x into block, E into Eblock.
  bind_inv Eblock. rename x into resblocks, E into Eres.
  inversion Eblock; subst block; clear Eblock.
  unfold Gemma3VisionEncoderBlock_compute_output_shape in H.
  cbn [eb_patch_size eb_hidden_dim] in H.
  change (Py.index [None; None; Some image_size; Some image_size; Some 3] 2)
    with (Ok (A:=option Z) (Some image_size)) in H.
  cbn [Py.bind Py.as_int] in H.
  rewrite (floordiv_ok image_size Hp) in H. cbn [Py.bind] in H.
  destruct (Py.floordiv (image_size / patch_size) pool_size) as [rw|] eqn:Er;
    cbn [Py.bind] in H; [|discriminate].
  apply floordiv_inv in Er. destruct Er as [Hq ->].
  unfold Gemma3VisionAveragePooling_compute_output_shape in H.
  cbn -[Py.floordiv Py.sq Z.div Z.pow Z.mul] in H.
  destruct (Py.floordiv (Py.sq (image_size / patch_size)) (Py.sq pool_size))
    as [nv|] eqn:En; cbn [Py.bind] in H; [|discriminate].
  apply floordiv_inv in En. destruct En as [_ ->].
  inversion H; subst; clear H. cbn.
  repeat split; try assumption; try reflexivity.
  apply mapM_inv in Eres.
  unfold sublayer_dtypes, encoder_block_dtypes, embedding_dtypes,
    pooling_dtypes, output_dtypes, all_named. cbn.
  repeat (apply Forall_cons; [try reflexivity; try apply dtype_name_get|]).
  apply Forall_app. split.
  - apply (resblocks_build_dtypes (fun _ => [None; None; Some hidden_dim]) Eres).
    apply Forall_forall. intros l Hl. apply in_map_iff in Hl.
    destruct Hl as [i [<- _]]. reflexivity.
  - repeat (apply Forall_cons; [try reflexivity; try apply dtype_name_get|]).
    constructor.
Qed.

(** Construction succeeds as soon as the divisors are non-zero and
    the heads divide a non-zero hidden width. *)
Lemma encoder_init_ok
    image_size patch_size num_heads hidden_dim num_layers intermediate_dim
    output_dim pool_size layer_norm_epsilon dtype name :
  patch_size <> 0 -> pool_size <> 0 -> num_heads <> 0 -> hidden_dim <> 0 ->
  (num_heads | hidden_dim) ->
  exists e,
    Gemma3VisionEncoder_init global image_size patch_size num_heads hidden_dim
      num_layers intermediate_dim output_dim pool_size layer_norm_epsilon
      dtype name = Ok e.
Proof.
  intros Hp Hq Hn Hh Hdiv.
  unfold Gemma3VisionEncoder_init, Gemma3VisionEncoderBlock_init,
    Gemma3VisionEmbedding_init, Gemma3VisionAveragePooling_init.
  rewrite (floordiv_ok image_size Hp). cbn [Py.bind].
  unfold Gemma3VisionEncoderBlock_build. cbn [eb_resblocks eb_hidden_dim].
  match goal with
  | |- context [Py.mapM ?f ?xs] =>
      destruct (@mapM_succeeds _ _ f xs) as [resblocks Hres]
  end.
  { intros l Hl. apply in_map_iff in Hl. destruct Hl as [i [<- _]].
    unfold Gemma3VisionEncoderLayer_build, Gemma3VisionEncoderLayer_init.
    cbn [el_num_heads el_dtype].
    change (Py.index [None; None; Some hidden_dim] (-1))
      with (Ok (A:=option Z) (Some hidden_dim)).
    cbn [Py.bind Py.as_int].
    rewrite attention_init_ok by assumption. cbn [Py.bind].
    eexists. reflexivity. }
  rewrite Hres. cbn [Py.bind].
  unfold Gemma3VisionEncoderBlock_compute_output_shape.
  cbn [eb_patch_size eb_hidden_dim].
  change (Py.index [None; None; Some image_size; Some image_size; Some 3] 2)
    with (Ok (A:=option Z) (Some image_size)).
  cbn [Py.bind Py.as_int].
  rewrite (floordiv_ok image_size Hp). cbn [Py.bind].
  rewrite (floordiv_ok (image_size / patch_size) Hq). cbn [Py.bind].
  unfold Gemma3VisionAveragePooling_compute_output_shape.
  cbn -[Py.floordiv Py.sq Z.div Z.pow Z.mul].
  rewrite floordiv_ok by (unfold Py.sq; apply Z.pow_nonzero; lia).
  cbn [Py.bind]. eexists. reflexivity.
Qed.

End EncoderInit.

Section DivisionFacts.

Local Open Scope Z_scope.

(** When the pool size divides the grid width, pooling the squared
    width is squaring the pooled width. *)
Lemma square_quotient (w p : Z) :
  p <> 0 -> (p | w) -> w ^ 2 / p ^ 2 = w / p * (w / p).
Proof.
  intros Hp [k ->]. rewrite Z.div_mul by assumption.
  replace ((k * p) ^ 2) with (k * k * p ^ 2) by ring.
  apply Z.div_mul. apply Z.pow_nonzero; lia.
Qed.

End DivisionFacts.

(** C1 (counterexample).  With [image_size=224], [patch_size=14] and
    [pool_size=14] the grid width 16 is not a multiple of the pool
    size, and yet the constructor returns an encoder: its pooling
    stage has width 16 and reduced width 1. *)
Lemma encoder_init_accepts_224_14_14 :
  ((224 / 14) mod 14 <> 0)%Z /\
  exists e,
    Gemma3VisionEncoder_init "float32" 224 14 2 4 1 8 4 14
      default_layer_norm_epsilon DNone "gemma3_vision_encoder" = Ok e /\
    pl_width (enc_pooling e) = 16%Z /\
    pl_reduced_width (enc_pooling e) = 1%Z /\
    enc_num_vision_tokens_per_image e = 1%Z.
Proof.
  split; [discriminate|].
  eexists. split; [vm_compute; reflexivity|].
  repeat split.
Qed.

(** C1 (amended).  The constructor has no divisibility test on
    [image_size], [patch_size] and [pool_size]: for positive sizes
    with [patch_size <= image_size] and [pool_size] at most the grid
    width, and heads that divide the hidden width, construction
    succeeds whatever the remainders are; the grid width is the floor
    quotient [image_size // patch_size] and the reduced width the floor
    quotient of that by [pool_size]. *)
Theorem encoder_init_floor_quotients
    (global : string)
    (image_size patch_size num_heads hidden_dim num_layers
       intermediate_dim output_dim pool_size : Z)
    (layer_norm_epsilon : Q) (dtype : Dtype) (name : string) :
  (0 < patch_size <= image_size)%Z ->
  (0 < pool_size <= image_size / patch_size)%Z ->
  (0 < num_heads)%Z -> (0 < hidden_dim)%Z -> (num_heads | hidden_dim)%Z ->
  (0 <= num_layers)%Z -> (0 < intermediate_dim)%Z -> (0 < output_dim)%Z ->
  exists e,
    Gemma3VisionEncoder_init global image_size patch_size num_heads hidden_dim
      num_layers intermediate_dim output_dim pool_size layer_norm_epsilon
      dtype name = Ok e /\
    pl_width (enc_pooling e) = (image_size / patch_size)%Z /\
    pl_reduced_width (enc_pooling e) =
      (image_size / patch_size / pool_size)%Z /\
    ve_num_patches (eb_vision_embeddings (enc_image_encoder e)) =
      ((image_size / patch_size) ^ 2)%Z.
Proof.
  intros Hp Hq Hn Hh Hdiv _ _ _.
  destruct (@encoder_init_ok global image_size patch_size num_heads hidden_dim
              num_layers intermediate_dim output_dim pool_size
              layer_norm_epsilon dtype name) as [e He]; try lia; try assumption.
  exists e. split; [exact He|].
  apply encoder_init_inv in He.
  destruct He as (_ & _ & Hnp & Hw & Hrw & _).
  repeat split; assumption.
Qed.

Lemma encoder_init_floor_quotients_witness :
  exists e,
    Gemma3VisionEncoder_init "float32" 224 14 2 4 1 8 4 14
      default_layer_norm_epsilon DNone "gemma3_vision_encoder" = Ok e /\
    pl_width (enc_pooling e) = (224 / 14)%Z /\
    pl_reduced_width (enc_pooling e) = (224 / 14 / 14)%Z /\
    ve_num_patches (eb_vision_embeddings (enc_image_encoder e)) =
      ((224 / 14) ^ 2)%Z.
Proof.
  apply (@encoder_init_floor_quotients "float32" 224 14 2 4 1 8 4 14
           default_layer_norm_epsilon DNone "gemma3_vision_encoder").
  - lia.
  - vm_compute. split; [reflexivity | discriminate].
  - lia.
  - lia.
  - exists 2%Z. reflexivity.
  - lia.
  - lia.
  - lia.
Defined.

(** C3 (counterexample).  The reduced-range format [float16] is not
    replaced: every sublayer of the resulting encoder is built with
    [float16], none with [float32]. *)
Lemma float16_is_not_overridden :
  exists e,
    Gemma3VisionEncoder_init "float32" 28 14 2 4 1 8 4 2
      default_layer_norm_epsilon (DStr "float16") "gemma3_vision_encoder"
    = Ok e /\
    all_named "float32" "float16" (sublayer_dtypes e) /\
    Forall (fun d => dtype_name "float32" d <> "float32"%string)
           (sublayer_dtypes e).
Proof.
  eexists. split; [vm_compute; reflexivity|].
  split; repeat constructor; discriminate.
Qed.

(** C3 (amended).  For positive sizes, when the requested dtype is the
    string ["bfloat16"], the first statement of the constructor replaces it
    with ["float32"], so construction proceeds exactly as for
    ["float32"] and every sublayer is built with [float32].  The names
    of the other floating-point precisions, ["float16"], ["float32"]
    and ["float64"], are handed to the sublayers unchanged. *)
Theorem bfloat16_string_is_overridden
    (global : string)
    (image_size patch_size num_heads hidden_dim num_layers
       intermediate_dim output_dim pool_size : Z)
    (layer_norm_epsilon : Q) (name : string) :
  (0 < patch_size <= image_size)%Z ->
  (0 < pool_size <= image_size / patch_size)%Z ->
  (0 < num_heads)%Z -> (0 < hidden_dim)%Z -> (num_heads | hidden_dim)%Z ->
  (0 <= num_layers)%Z -> (0 < intermediate_dim)%Z -> (0 < output_dim)%Z ->
  let init := Gemma3VisionEncoder_init global image_size patch_size num_heads
                hidden_dim num_layers intermediate_dim output_dim pool_size
                layer_norm_epsilon in
  override_dtype (DStr "bfloat16") = DStr "float32" /\
  init (DStr "bfloat16") name = init (DStr "float32") name /\
  (exists e, init (DStr "bfloat16") name = Ok e /\
             all_named global "float32" (sublayer_dtypes e)) /\
  (forall s, known_dtype (DStr s) = true -> s <> "bfloat16"%string ->
     exists e, init (DStr s) name = Ok e /\
               all_named global s (sublayer_dtypes e)).
Proof.
  intros Hp Hq Hn Hh Hdiv _ _ _ init.
  assert (Hall : forall d, exists e,
             init d name = Ok e /\
             all_named global (dtype_name global (override_dtype d))
               (sublayer_dtypes e)).
  { intros d.
    destruct (@encoder_init_ok global image_size patch_size num_heads
                hidden_dim num_layers intermediate_dim output_dim pool_size
                layer_norm_epsilon d name) as [e He]; try lia; try assumption.
    exists e. split; [exact He|].
    apply encoder_init_inv in He. apply He. }
  split; [reflexivity|]. split; [reflexivity|]. split.
  - apply (Hall (DStr "bfloat16")).
  - intros s _ Hs. destruct (Hall (DStr s)) as [e [He Hd]].
    exists e. split; [exact He|].
    unfold override_dtype, dtype_eq_str in Hd.
    destruct (String.eqb_spec s "bfloat16"); [contradiction | exact Hd].
Qed.

Lemma bfloat16_string_is_overridden_witness :
  exists e,
    Gemma3VisionEncoder_init "float32" 28 14 2 4 1 8 4 2
      default_layer_norm_epsilon (DStr "bfloat16") "gemma3_vision_encoder"
    = Ok e /\
    all_named "float32" "float32" (sublayer_dtypes e).
Proof.
  apply (@bfloat16_string_is_overridden "float32" 28 14 2 4 1 8 4 2
           default_layer_norm_epsilon "gemma3_vision_encoder").
  - lia.
  - vm_compute. split; [reflexivity | discriminate].
  - lia.
  - lia.
  - exists 2%Z. reflexivity.
  - lia.
  - lia.
  - lia.
Defined.

(** C8 (counterexample).  With [image_size=42], [patch_size=14] and
    [pool_size=2] the grid is 3 by 3: the derived field is
    [9 // 4 = 2], but the output of the encoder has
    [(3 // 2) ** 2 = 1] token per image. *)
Lemma token_count_differs_42_14_2 :
  exists e,
    Gemma3VisionEncoder_init "float32" 42 14 2 4 1 8 4 2
      default_layer_norm_epsilon DNone "gemma3_vision_encoder" = Ok e /\
    enc_num_vision_tokens_per_image e = 2%Z /\
    output_token_count e = Some 1%Z /\
    output_token_count e <> Some (enc_num_vision_tokens_per_image e).
Proof.
  eexists. split; [vm_compute; reflexivity|].
  repeat split. discriminate.
Qed.

(** C8 (amended).  For positive sizes, the derived field
    [num_vision_tokens_per_image] is the floor quotient
    [num_patches // pool_size ** 2], where
    [num_patches = (image_size // patch_size) ** 2] is the number of
    patches of the embedding; when [pool_size] divides the grid width
    [image_size // patch_size], it equals the token count of the
    encoder's output.  For 896 / 14 / 4 the value is 256. *)
Theorem num_vision_tokens_per_image_value
    (global : string)
    (image_size patch_size num_heads hidden_dim num_layers
       intermediate_dim output_dim pool_size : Z)
    (layer_norm_epsilon : Q) (dtype : Dtype) (name : string) :
  (0 < patch_size <= image_size)%Z ->
  (0 < pool_size <= image_size / patch_size)%Z ->
  (0 < num_heads)%Z -> (0 < hidden_dim)%Z -> (num_heads | hidden_dim)%Z ->
  (0 <= num_layers)%Z -> (0 < intermediate_dim)%Z -> (0 < output_dim)%Z ->
  exists e,
    Gemma3VisionEncoder_init global image_size patch_size num_heads hidden_dim
      num_layers intermediate_dim output_dim pool_size layer_norm_epsilon
      dtype name = Ok e /\
    let num_patches :=
      ve_num_patches (eb_vision_embeddings (enc_image_encoder e)) in
    num_patches = ((image_size / patch_size) ^ 2)%Z /\
    enc_num_vision_tokens_per_image e = (num_patches / pool_size ^ 2)%Z /\
    ((pool_size | image_size / patch_size)%Z ->
       output_token_count e = Some (enc_num_vision_tokens_per_image e)).
Proof.
  intros Hp Hq Hn Hh Hdiv _ _ _.
  destruct (@encoder_init_ok global image_size patch_size num_heads hidden_dim
              num_layers intermediate_dim output_dim pool_size
              layer_norm_epsilon dtype name) as [e He]; try lia; try assumption.
  exists e. split; [exact He|].
  apply encoder_init_inv in He.
  destruct He as (_ & Hq0 & Hnp & _ & _ & Hnv & Hshape & _).
  cbv zeta. rewrite Hnp. split; [reflexivity|]. split; [exact Hnv|].
  intros Hpool. unfold output_token_count. rewrite Hshape, Hnv.
  rewrite square_quotient by assumption. reflexivity.
Qed.

Lemma num_vision_tokens_per_image_value_witness :
  exists e,
    Gemma3VisionEncoder_init "float32" 896 14 2 4 1 8 4 4
      default_layer_norm_epsilon DNone "gemma3_vision_encoder" = Ok e /\
    enc_num_vision_tokens_per_image e = 256%Z /\
    output_token_count e = Some 256%Z.
Proof.
  destruct (@num_vision_tokens_per_image_value "float32" 896 14 2 4 1 8 4 4
              default_layer_norm_epsilon DNone "gemma3_vision_encoder")
    as [e [He [Hnp [Hnv Htok]]]].
  - lia.
  - vm_compute. split; [reflexivity | discriminate].
  - lia.
  - lia.
  - exists 2%Z. reflexivity.
  - lia.
  - lia.
  - lia.
  - exists e. split; [exact He|].
    rewrite Hnp in Hnv.
    assert (Hv : enc_num_vision_tokens_per_image e = 256%Z)
      by (rewrite Hnv; reflexivity).
    split; [exact Hv|].
    rewrite <- Hv. apply Htok. exists 16%Z. reflexivity.
Defined.

(** ** Configuration dictionaries *)

(** The configuration of the top-level encoder holds the nine
    constructor arguments. *)
Lemma encoder_get_config_fields (L : Gemma3VisionEncoder) :
  exists config,
    Gemma3VisionEncoder_get_config L = Returned config /\
    dict_get config "image_size" = Some (VInt (enc_image_size L)) /\
    dict_get config "patch_size" = Some (VInt (enc_patch_size L)) /\
    dict_get config "num_heads" = Some (VInt (enc_num_heads L)) /\
    dict_get config "hidden_dim" = Some (VInt (enc_hidden_dim L)) /\
    dict_get config "num_layers" = Some (VInt (enc_num_layers L)) /\
    dict_get config "intermediate_dim" = Some (VInt (enc_intermediate_dim L)) /\
    dict_get config "output_dim" = Some (VInt (enc_output_dim L)) /\
    dict_get config "pool_size" = Some (VInt (enc_pool_size L)) /\
    dict_get config "layer_norm_epsilon" =
      Some (VFloat (enc_layer_norm_epsilon L)).
Proof.
  eexists. split; [reflexivity|]. repeat split.
Qed.

(** The sibling sublayers return their dictionaries. *)
Lemma pooling_get_config_fields (global : string) (L : Gemma3VisionAveragePooling) :
  exists config,
    Gemma3VisionAveragePooling_get_config global L = Returned config /\
    dict_get config "image_size" = Some (VInt (pl_image_size L)) /\
    dict_get config "patch_size" = Some (VInt (pl_patch_size L)) /\
    dict_get config "pool_size" = Some (VInt (pl_pool_size L)).
Proof.
  eexists. split; [reflexivity|]. repeat split.
Qed.

Lemma attention_get_config_fields (global : string) (L : Gemma3VisionAttention) :
  exists config,
    Gemma3VisionAttention_get_config global L = Returned config /\
    dict_get config "hidden_dim" = Some (VInt (at_hidden_dim L)) /\
    dict_get config "num_heads" = Some (VInt (at_num_heads L)) /\
    dict_get config "dropout" = Some (VFloat (at_dropout L)).
Proof.
  eexists. split; [reflexivity|]. repeat split.
Qed.

(** C2.  The output projection's [get_config] returns [None] for
    every layer, in particular for the output projection of a
    constructed encoder: no dictionary with [output_dim],
    [layer_norm_epsilon] and [kernel_initializer] reaches the caller. *)
Theorem output_get_config_returns_none
    (global : string) (L : Gemma3VisionOutput) :
  Gemma3VisionOutput_get_config global L = PyNone /\
  forall config, Gemma3VisionOutput_get_config global L <> Returned config.
Proof.
  split; [reflexivity|]. intros config H. discriminate H.
Qed.

(* ================================================================== *)
(** * Lists: indices, blocks and transposition *)
(* ================================================================== *)

Section ListFacts.

Lemma mapi_length {A B : Type} (f : nat -> A -> B) (l : list A) :
  List.length (mapi f l) = List.length l.
Proof.
  unfold mapi. rewrite length_map, length_combine, length_seq.
  apply Nat.min_id.
Qed.

Lemma combine_seq_map {A B : Type} (f : nat -> A -> B) (l : list A) (s : nat) :
  map (fun p => f (fst p) (snd p)) (combine (seq s (List.length l)) l) =
  match l with
  | [] => []
  | a :: l' =>
      f s a :: map (fun p => f (fst p) (snd p))
                   (combine (seq (S s) (List.length l')) l')
  end.
Proof. destruct l; reflexivity. Qed.

(** Two indexed maps agree when their functions agree at every
    position of the list. *)
Lemma mapi_ext_in {A B : Type} (f g : nat -> A -> B) (l : list A) :
  (forall i a, (i < List.length l)%nat -> In a l -> f i a = g i a) ->
  mapi f l = mapi g l.
Proof.
  unfold mapi. intros H. apply map_ext_in. intros [i a] Hin. simpl.
  assert (Hl := in_combine_l _ _ _ _ Hin).
  assert (Hr := in_combine_r _ _ _ _ Hin).
  apply in_seq in Hl. apply H; [lia | exact Hr].
Qed.

Lemma mapi_const {A B : Type} (g : A -> B) (l : list A) :
  mapi (fun _ => g) l = map g l.
Proof.
  unfold mapi. generalize 0%nat. induction l as [|a l IH]; intros s; simpl.
  - reflexivity.
  - rewrite IH. reflexivity.
Qed.

Lemma mapi_eq_map {A B : Type} (f : nat -> A -> B) (g : A -> B) (l : list A) :
  (forall i a, In a l -> f i a = g a) -> mapi f l = map g l.
Proof.
  intros H. rewrite <- mapi_const. apply mapi_ext_in.
  intros i a _ Ha. apply H, Ha.
Qed.

Lemma nil_or_not {A : Type} (l : list A) : l = [] \/ l <> [].
Proof. destruct l; [left; reflexivity | right; discriminate]. Qed.

Lemma Forall_mapi {A B : Type} (P : B -> Prop) (f : nat -> A -> B) (l : list A) :
  (forall i a, In a l -> P (f i a)) -> Forall P (mapi f l).
Proof.
  intros H. unfold mapi. apply Forall_map, Forall_forall.
  intros [i a] Hin. apply H. exact (in_combine_r _ _ _ _ Hin).
Qed.

Lemma map_mapi {A B C : Type} (g : B -> C) (f : nat -> A -> B) (l : list A) :
  map g (mapi f l) = mapi (fun i a => g (f i a)) l.
Proof. unfold mapi. rewrite map_map. reflexivity. Qed.

Lemma mapi_map {A B C : Type} (f : nat -> B -> C) (g : A -> B) (l : list A) :
  mapi f (map g l) = mapi (fun i a => f i (g a)) l.
Proof.
  unfold mapi. rewrite length_map. generalize 0%nat.
  induction l as [|a l IH]; intros s; simpl.
  - reflexivity.
  - rewrite IH. reflexivity.
Qed.

Lemma mapi_mapi {A B C : Type} (f : nat -> B -> C) (g : nat -> A -> B) (l : list A) :
  mapi f (mapi g l) = mapi (fun i a => f i (g i a)) l.
Proof.
  unfold mapi at 1. rewrite mapi_length. unfold mapi. generalize 0%nat.
  induction l as [|a l IH]; intros s; simpl.
  - reflexivity.
  - rewrite IH. reflexivity.
Qed.

Lemma map2_map_map {A B C D : Type}
    (f : B -> C -> D) (g : A -> B) (h : A -> C) (l : list A) :
  map2 f (map g l) (map h l) = map (fun a => f (g a) (h a)) l.
Proof.
  unfold map2. induction l as [|a l IH]; simpl.
  - reflexivity.
  - rewrite IH. reflexivity.
Qed.

Lemma map2_length {A B C : Type} (f : A -> B -> C) (l : list A) (l' : list B) :
  List.length (map2 f l l') = Nat.min (List.length l) (List.length l').
Proof. unfold map2. rewrite length_map. apply length_combine. Qed.

Lemma map2_map_r {A B C D : Type}
    (f : A -> B -> C) (g : D -> B) (l : list A) (l' : list D) :
  map2 f l (map g l') = map2 (fun a b => f a (g b)) l l'.
Proof.
  unfold map2. revert l'. induction l as [|a l IH]; intros [|b l']; simpl;
    try reflexivity.
  rewrite IH. reflexivity.
Qed.


(** On [seq 0 n] the index and the element coincide. *)
Lemma mapi_seq {B : Type} (f : nat -> nat -> B) (n : nat) :
  mapi f (seq 0 n) = map (fun h => f h h) (seq 0 n).
Proof.
  unfold mapi. rewrite length_seq. generalize 0%nat.
  induction n as [|n IH]; intros s; simpl.
  - reflexivity.
  - rewrite IH. reflexivity.
Qed.

Lemma map2_comm {A B : Type} (f : A -> A -> B) (l l' : list A) :
  (forall a b, f a b = f b a) -> map2 f l l' = map2 f l' l.
Proof.
  intros Hf. unfold map2. revert l'.
  induction l as [|a l IH]; intros [|b l']; simpl; try reflexivity.
  rewrite IH, Hf. reflexivity.
Qed.

Lemma map_nth_seq {A : Type} (d : A) (l : list A) (n : nat) :
  List.length l = n -> map (fun i => nth i l d) (seq 0 n) = l.
Proof.
  intros <-. induction l as [|a l IH]; simpl.
  - reflexivity.
  - rewrite <- seq_shift, map_map. simpl. rewrite IH. reflexivity.
Qed.

Lemma length_concat_uniform {A : Type} (k : nat) (ls : list (list A)) :
  Forall (fun l => List.length l = k) ls ->
  List.length (List.concat ls) = (List.length ls * k)%nat.
Proof.
  induction 1 as [|l ls Hl _ IH]; simpl.
  - reflexivity.
  - rewrite length_app, Hl, IH. reflexivity.
Qed.

(** Cutting a concatenation of equal-sized blocks gives the blocks
    back. *)
Lemma chunks_concat {A : Type} (k : nat) (ls : list (list A)) :
  Forall (fun l => List.length l = k) ls ->
  chunks (List.length ls) k (List.concat ls) = ls.
Proof.
  induction 1 as [|l ls Hl _ IH]; simpl.
  - reflexivity.
  - subst k. rewrite firstn_app, skipn_app, Nat.sub_diag.
    rewrite firstn_all, skipn_all. simpl.
    rewrite app_nil_r, IH. reflexivity.
Qed.

Lemma chunks_length {A : Type} (n k : nat) (l : list A) :
  List.length (chunks n k l) = n.
Proof.
  revert l. induction n as [|n IH]; intros l; simpl.
  - reflexivity.
  - rewrite IH. reflexivity.
Qed.

(** Block [h] of a list is the slice starting at [h * k]. *)
Lemma nth_chunks {A : Type} (n k h : nat) (l : list A) :
  (h < n)%nat ->
  nth h (chunks n k l) [] = firstn k (skipn (h * k) l).
Proof.
  revert h l. induction n as [|n IH]; intros h l Hh; [lia|].
  destruct h as [|h]; simpl.
  - reflexivity.
  - rewrite IH by lia. rewrite skipn_skipn.
    replace (h * k + k)%nat with (k + h * k)%nat by lia. reflexivity.
Qed.

Lemma transpose2_length {A : Type} (d : A) (cols : nat) (m : list (list A)) :
  List.length (transpose2 d cols m) = cols.
Proof. unfold transpose2. rewrite length_map. apply length_seq. Qed.

Lemma hd_map_map {A B : Type} (g : A -> B) (x : list (list A)) :
  hd [] (map (map g) x) = map g (hd [] x).
Proof. destruct x; reflexivity. Qed.

End ListFacts.

(* ================================================================== *)
(** * Shapes and reshaping *)
(* ================================================================== *)

Section ShapeFacts.

Lemma is_shape1_spec (d : nat) (v : Vec) :
  is_shape1 d v = true <-> List.length v = d.
Proof. unfold is_shape1. apply Nat.eqb_eq. Qed.

Lemma is_shape2_spec (a d : nat) (m : Tensor2) :
  is_shape2 a d m = true <->
  List.length m = a /\ Forall (fun v => List.length v = d) m.
Proof.
  unfold is_shape2. rewrite andb_true_iff, Nat.eqb_eq, forallb_forall,
    Forall_forall.
  split; intros [H1 H2]; split; try assumption;
    intros v Hv; apply is_shape1_spec, H2, Hv.
Qed.

Lemma is_shape3_spec (n a d : nat) (t : Tensor3) :
  is_shape3 n a d t = true <->
  List.length t = n /\ Forall (fun m => is_shape2 a d m = true) t.
Proof.
  unfold is_shape3. rewrite andb_true_iff, Nat.eqb_eq, forallb_forall,
    Forall_forall. reflexivity.
Qed.

Lemma is_shape4_spec (n a b d : nat) (t : Tensor4) :
  is_shape4 n a b d t = true <->
  List.length t = n /\ Forall (fun m => is_shape3 a b d m = true) t.
Proof.
  unfold is_shape4. rewrite andb_true_iff, Nat.eqb_eq, forallb_forall,
    Forall_forall. reflexivity.
Qed.

Lemma flatten2_length (a d : nat) (m : Tensor2) :
  is_shape2 a d m = true -> List.length (flatten2 m) = (a * d)%nat.
Proof.
  intros H. apply is_shape2_spec in H. destruct H as [<- H].
  apply length_concat_uniform, H.
Qed.

Lemma flatten3_length (n a d : nat) (t : Tensor3) :
  is_shape3 n a d t = true -> List.length (flatten3 t) = (n * (a * d))%nat.
Proof.
  intros H. apply is_shape3_spec in H. destruct H as [<- H].
  unfold flatten3.
  rewrite (@length_concat_uniform _ (a * d)%nat), length_map; [reflexivity|].
  apply Forall_map. eapply Forall_impl; [|exact H].
  intros m Hm. apply flatten2_length, Hm.
Qed.

Lemma unflatten_flatten2 (a d : nat) (m : Tensor2) :
  is_shape2 a d m = true -> chunks a d (flatten2 m) = m.
Proof.
  intros H. apply is_shape2_spec in H. destruct H as [<- H].
  apply chunks_concat, H.
Qed.

Lemma unflatten_flatten3 (n a d : nat) (t : Tensor3) :
  is_shape3 n a d t = true -> unflatten3 n a d (flatten3 t) = t.
Proof.
  intros H. apply is_shape3_spec in H. destruct H as [<- H].
  unfold unflatten3, flatten3.
  rewrite <- (length_map flatten2 t), chunks_concat.
  - rewrite map_map. rewrite <- (map_id t) at 2.
    apply map_ext_in. intros m Hm. apply unflatten_flatten2.
    rewrite Forall_forall in H. apply H, Hm.
  - apply Forall_map. eapply Forall_impl; [|exact H].
    intros m Hm. apply flatten2_length, Hm.
Qed.

(** Splitting the last axis: [(n, a, b * d)] to [(n, a, b, d)]. *)
Lemma reshape_split_last (n a b d : nat) (t : Tensor3) :
  is_shape3 n a (b * d) t = true ->
  reshape_3_to_4 t n a b d = Ok (map (map (chunks b d)) t).
Proof.
  intros H. unfold reshape_3_to_4.
  rewrite (flatten3_length _ _ _ _ H), Nat.eqb_refl.
  f_equal. unfold unflatten4.
  pose proof H as H'. apply is_shape3_spec in H'. destruct H' as [Hn Hall].
  unfold flatten3. rewrite <- Hn, <- (length_map flatten2 t), chunks_concat.
  - rewrite map_map. apply map_ext_in. intros m Hm.
    unfold unflatten3. rewrite unflatten_flatten2; [reflexivity|].
    rewrite Forall_forall in Hall. apply Hall, Hm.
  - apply Forall_map. eapply Forall_impl; [|exact Hall].
    intros m Hm. apply flatten2_length, Hm.
Qed.

(** Merging the last two axes: [(n, a, b, d)] to [(n, a, b * d)]. *)
Lemma reshape_merge_last (n a b d : nat) (t : Tensor4) :
  is_shape4 n a b d t = true ->
  reshape_4_to_3 t n a (b * d) = Ok (map (map flatten2) t).
Proof.
  intros H. unfold reshape_4_to_3.
  pose proof H as H'. apply is_shape4_spec in H'. destruct H' as [Hn Hall].
  assert (Hflat : Forall (fun l => List.length l = (a * (b * d))%nat)
                         (map flatten3 t)).
  { apply Forall_map. eapply Forall_impl; [|exact Hall].
    intros m Hm. unfold flatten3.
    apply is_shape3_spec in Hm. destruct Hm as [<- Hm].
    rewrite (@length_concat_uniform _ (b * d)%nat), length_map; [reflexivity|].
    apply Forall_map. eapply Forall_impl; [|exact Hm].
    intros r Hr. apply flatten2_length, Hr. }
  unfold flatten4.
  rewrite (length_concat_uniform Hflat), length_map, Hn, Nat.eqb_refl.
  f_equal. unfold unflatten3.
  rewrite <- Hn, <- (length_map flatten3 t), (chunks_concat Hflat).
  rewrite map_map. apply map_ext_in. intros m Hm.
  rewrite Forall_forall in Hall. specialize (Hall m Hm).
  apply is_shape3_spec in Hall. destruct Hall as [<- Hall].
  unfold flatten3. rewrite <- (length_map flatten2 m). apply chunks_concat.
  apply Forall_map. eapply Forall_impl; [|exact Hall].
  intros r Hr. apply flatten2_length, Hr.
Qed.

End ShapeFacts.

(* ================================================================== *)
(** * The engine's operations on head-wise data *)
(* ================================================================== *)

Section OpsFacts.

Local Open Scope R_scope.

Lemma head_of_length (H hd h : nat) (v : Vec) :
  List.length v = (H * hd)%nat -> (h < H)%nat ->
  List.length (head_of hd h v) = hd.
Proof.
  intros Hv Hh. unfold head_of. rewrite length_firstn, length_skipn, Hv.
  apply Nat.min_l. nia.
Qed.

(** Splitting the feature axis into blocks and swapping the head
    axis with the sequence axis yields the heads. *)
Lemma transpose_chunks (H hd : nat) (m : Tensor2) :
  transpose2 [] H (map (chunks H hd) m) = split_heads H hd m.
Proof.
  unfold transpose2, split_heads. apply map_ext_in. intros h Hh.
  apply in_seq in Hh. rewrite map_map. apply map_ext. intros v.
  apply nth_chunks. lia.
Qed.

Lemma column_transpose (d j : nat) (B : Tensor2) :
  (j < List.length B)%nat ->
  List.length (nth j B []) = d ->
  column j (transpose2 0 d B) = nth j B [].
Proof.
  intros Hj Hlen. unfold column, transpose2. rewrite map_map.
  transitivity (map (fun c => nth c (nth j B []) 0) (seq 0 d));
    [|apply map_nth_seq, Hlen].
  apply map_ext. intros c.
  rewrite (nth_indep _ 0 ((fun r : Vec => nth c r 0) []))
    by (rewrite length_map; exact Hj).
  apply (map_nth (fun r : Vec => nth c r 0)).
Qed.

(** The product with a transposed matrix is the table of dot
    products of the rows. *)
Lemma matmul2_transpose (d : nat) (A B : Tensor2) :
  Forall (fun k => List.length k = d) B ->
  matmul2 (List.length B) A (transpose2 0 d B) =
  map (fun a => map (fun b => dot a b) B) A.
Proof.
  intros HB. unfold matmul2. apply map_ext. intros a.
  transitivity (map (fun b => dot a b)
                    (map (fun j => nth j B []) (seq 0 (List.length B))));
    [|f_equal; apply map_nth_seq; reflexivity].
  rewrite map_map.
  apply map_ext_in. intros j Hj. apply in_seq in Hj.
  rewrite column_transpose; [reflexivity | lia |].
  rewrite Forall_forall in HB. apply HB, nth_In. lia.
Qed.

(** The product of probabilities and values is the weighted sum of
    the value vectors. *)
Lemma matmul2_weighted_sum (hd : nat) (P V : Tensor2) :
  matmul2 hd P V = map (fun p => weighted_sum hd p V) P.
Proof.
  unfold matmul2, weighted_sum. apply map_ext. intros p.
  apply map_ext. intros j. unfold dot, column.
  rewrite map2_map_r. reflexivity.
Qed.

Lemma map2_mapi_map {A B C D : Type}
    (f : B -> C -> D) (g : nat -> A -> B) (h : A -> C) (l : list A) :
  map2 f (mapi g l) (map h l) = mapi (fun i a => f (g i a) (h a)) l.
Proof.
  unfold map2, mapi. generalize 0%nat.
  induction l as [|a l IH]; intros s; simpl.
  - reflexivity.
  - rewrite IH. reflexivity.
Qed.

Lemma dim1_mapi {A B : Type} (f : nat -> A -> list B) (l : list A) (s : nat) :
  l <> [] -> (forall i a, List.length (f i a) = s) ->
  dim1 (mapi f l) = s.
Proof.
  intros Hl Hf. destruct l as [|a l]; [contradiction|].
  unfold dim1, mapi. simpl. apply Hf.
Qed.

Lemma dim1_of_shape (n s d : nat) (x : Tensor3) :
  is_shape3 n s d x = true -> x <> [] -> dim1 x = s.
Proof.
  intros H Hx. destruct x as [|m x]; [contradiction|].
  apply is_shape3_spec in H. destruct H as [_ H].
  inversion H as [|? ? Hm _]; subst.
  apply is_shape2_spec in Hm. unfold dim1. simpl. apply Hm.
Qed.

Lemma map_map_shape (g : Vec -> Vec) (n s d d' : nat) (x : Tensor3) :
  (forall v, List.length (g v) = d') ->
  is_shape3 n s d x = true ->
  is_shape3 n s d' (map (map g) x) = true.
Proof.
  intros Hg H. apply is_shape3_spec in H. destruct H as [Hn H].
  apply is_shape3_spec. rewrite length_map. split; [exact Hn|].
  apply Forall_map. eapply Forall_impl; [|exact H].
  intros m Hm. apply is_shape2_spec in Hm. destruct Hm as [Hs _].
  apply is_shape2_spec. rewrite length_map. split; [exact Hs|].
  apply Forall_map. apply Forall_forall. intros v _. apply Hg.
Qed.

Lemma Dense_call_vec_length (d : Dense) (w : DenseW) (v : Vec) :
  List.length (Dense_call_vec d w v) = Z.to_nat (dense_units d).
Proof. unfold Dense_call_vec. rewrite length_map. apply length_seq. Qed.

(** A mask that fits is added; no mask leaves the scores alone. *)
Lemma masked_scores_ok
    (mask : option Tensor4) (fits : Tensor4 -> bool) (s : Tensor4) :
  match mask with None => True | Some m => fits m = true end ->
  match mask with
  | None => Ok s
  | Some m => if fits m then Ok (add_mask s m) else Raise Unmodelled
  end =
  Ok (match mask with None => s | Some m => add_mask s m end).
Proof.
  destruct mask as [m|]; intros Hm; [rewrite Hm|]; reflexivity.
Qed.

Lemma dim1_map_map {A B : Type} (g : A -> B) (x : list (list A)) :
  dim1 (map (map g) x) = dim1 x.
Proof. unfold dim1. rewrite hd_map_map. apply length_map. Qed.

End OpsFacts.

(* ================================================================== *)
(** * The attention layer computes what the specification says *)
(* ================================================================== *)

Section AttentionRefinement.

Local Open Scope R_scope.

Variables (hidden_dim num_heads : Z) (dropout : Q) (dtype : Dtype)
          (name : string).
Variable L : Gemma3VisionAttention.
Variable W : AttentionW.

Hypothesis Hinit :
  Gemma3VisionAttention_init hidden_dim num_heads dropout dtype name = Ok L.
Hypothesis Hheads : (0 < num_heads)%Z.
Hypothesis Hhidden : (0 < hidden_dim)%Z.

Let H := Z.to_nat (at_num_heads L).
Let hd := Z.to_nat (at_head_dim L).
Let hidden := Z.to_nat (at_hidden_dim L).

Lemma attention_dims : hidden = (H * hd)%nat.
Proof.
  destruct (attention_init_inv _ _ _ _ _ Hinit)
    as (_ & Hh & Hn & _ & Hmul & _).
  unfold hidden, H, hd. rewrite Hh, Hn, <- Hmul.
  assert (0 < at_head_dim L)%Z by nia.
  rewrite Z2Nat.inj_mul by lia. apply Nat.mul_comm.
Qed.

Lemma attention_units :
  Z.to_nat (dense_units (at_query_proj L)) = hidden /\
  Z.to_nat (dense_units (at_key_proj L)) = hidden /\
  Z.to_nat (dense_units (at_value_proj L)) = hidden /\
  Z.to_nat (dense_units (at_out_proj L)) = hidden.
Proof.
  destruct (attention_init_inv _ _ _ _ _ Hinit)
    as (_ & Hh & _ & _ & _ & _ & _ & Hq & Hk & Hv & Ho & _).
  unfold hidden. rewrite Hq, Hk, Hv, Ho, Hh. repeat split.
Qed.

Variable x : Tensor3.
Hypothesis Hx : is_shape3 (dim0 x) (dim1 x) hidden x = true.

Let S := dim1 x.

Lemma image_length (xn : Tensor2) : In xn x -> List.length xn = S.
Proof.
  intros Hin. apply is_shape3_spec in Hx. destruct Hx as [_ Hall].
  rewrite Forall_forall in Hall. specialize (Hall xn Hin).
  apply is_shape2_spec in Hall. apply Hall.
Qed.

(** The three calls of [_transpose_for_scores] succeed and produce
    the heads of the projected tokens. *)
Lemma transpose_for_scores_heads (d : Dense) (w : DenseW) :
  Z.to_nat (dense_units d) = hidden ->
  transpose_for_scores L (Dense_call d w x) (dim0 x) =
  Ok (map (fun xn => split_heads H hd (map (Dense_call_vec d w) xn)) x).
Proof.
  intros Hu. unfold transpose_for_scores, Dense_call.
  rewrite dim1_map_map. fold H hd.
  rewrite reshape_split_last.
  - cbn [Py.bind]. f_equal. unfold transpose_0213.
    rewrite !map_map. apply map_ext. intros xn.
    apply transpose_chunks.
  - apply map_map_shape with (d := hidden); [|exact Hx].
    intros v. rewrite Dense_call_vec_length, Hu. apply attention_dims.
Qed.

Let Qf (xn : Tensor2) : Tensor2 :=
  map (Dense_call_vec (at_query_proj L) (w_query_proj W)) xn.
Let Kf (xn : Tensor2) : Tensor2 :=
  map (Dense_call_vec (at_key_proj L) (w_key_proj W)) xn.
Let Vf (xn : Tensor2) : Tensor2 :=
  map (Dense_call_vec (at_value_proj L) (w_value_proj W)) xn.

Lemma head_rows_length (d : Dense) (w : DenseW) (xn : Tensor2) (h : nat) :
  Z.to_nat (dense_units d) = hidden -> (h < H)%nat ->
  Forall (fun k => List.length k = hd)
         (map (head_of hd h) (map (Dense_call_vec d w) xn)).
Proof.
  intros Hu Hh. rewrite map_map. apply Forall_map, Forall_forall.
  intros v _. apply head_of_length with (H := H); [|exact Hh].
  rewrite Dense_call_vec_length, Hu. apply attention_dims.
Qed.

(** Raw scores: the table of dot products of query and key heads. *)
Lemma scores_stage :
  matmul4 S
    (map (fun xn => split_heads H hd (Qf xn)) x)
    (transpose_0132 hd (map (fun xn => split_heads H hd (Kf xn)) x)) =
  map (fun xn =>
         map (fun h =>
                map (fun q =>
                       map (fun k => dot (head_of hd h q) (head_of hd h k))
                           (Kf xn))
                    (Qf xn))
             (seq 0 H)) x.
Proof.
  unfold matmul4, transpose_0132. rewrite map_map, map2_map_map.
  apply map_ext_in. intros xn Hxn. unfold split_heads.
  rewrite map_map, map2_map_map. apply map_ext_in. intros h Hh.
  apply in_seq in Hh.
  replace S with (List.length (map (head_of hd h) (Kf xn)))
    by (unfold Kf; rewrite !length_map; apply image_length, Hxn).
  rewrite matmul2_transpose.
  - rewrite map_map. apply map_ext. intros q. rewrite map_map. reflexivity.
  - apply head_rows_length; [apply attention_units | lia].
Qed.

(** Scaling, masking and softmax give the probabilities of the
    specification, head by head. *)
Lemma probs_stage (mask : option Tensor4) (raw : Tensor4) :
  raw =
  map (fun xn =>
         map (fun h =>
                map (fun q =>
                       map (fun k => dot (head_of hd h q) (head_of hd h k))
                           (Kf xn))
                    (Qf xn))
             (seq 0 H)) x ->
  softmax4
    (match mask with
     | None => divide4 raw (sqrt (INR hd))
     | Some m => add_mask (divide4 raw (sqrt (INR hd))) m
     end) =
  mapi (fun n xn =>
          map (fun h => spec_probs hd mask n h (Qf xn) (Kf xn)) (seq 0 H)) x.
Proof.
  intros ->.
  unfold softmax4, divide4, map4d, map3d, spec_probs, spec_scores.
  destruct mask as [m|].
  - unfold add_mask. rewrite map_map, mapi_map, map_mapi.
    apply mapi_ext_in. intros n xn _ _.
    rewrite map_map, mapi_map, mapi_seq, map_map.
    apply map_ext. intros h. f_equal.
    rewrite map_map, mapi_map. apply mapi_ext_in. intros i q _ _.
    rewrite map_map, mapi_map. reflexivity.
  - rewrite !map_map. symmetry. apply mapi_eq_map. intros n xn _.
    rewrite !map_map. apply map_ext. intros h. f_equal.
    rewrite map_map. apply mapi_eq_map. intros i q _.
    rewrite map_map. apply mapi_eq_map. intros j k _. reflexivity.
Qed.

Let Pf (mask : option Tensor4) (n h : nat) (xn : Tensor2) : Tensor2 :=
  spec_probs hd mask n h (Qf xn) (Kf xn).

Let Pd (mask : option Tensor4) (training : bool) (keep : KeepMask)
    (n h : nat) (xn : Tensor2) : Tensor2 :=
  spec_dropout (at_dropout_layer L) keep training n h (Pf mask n h xn).

Let Cf (mask : option Tensor4) (training : bool) (keep : KeepMask)
    (n h : nat) (xn : Tensor2) : Tensor2 :=
  map (fun p => weighted_sum hd p (map (head_of hd h) (Vf xn)))
      (Pd mask training keep n h xn).

Lemma dropout_stage mask training keep :
  Dropout_call (at_dropout_layer L) keep
    (mapi (fun n xn => map (fun h => Pf mask n h xn) (seq 0 H)) x) training =
  mapi (fun n xn => map (fun h => Pd mask training keep n h xn) (seq 0 H)) x.
Proof.
  unfold Dropout_call, Pd, spec_dropout.
  destruct (training && negb (Qle_bool (dropout_rate (at_dropout_layer L)) 0)).
  - rewrite mapi_mapi. apply mapi_ext_in. intros n xn _ _.
    rewrite mapi_map, mapi_seq. reflexivity.
  - reflexivity.
Qed.

Lemma context_stage mask training keep :
  matmul4 hd
    (mapi (fun n xn => map (fun h => Pd mask training keep n h xn) (seq 0 H)) x)
    (map (fun xn => split_heads H hd (Vf xn)) x) =
  mapi (fun n xn => map (fun h => Cf mask training keep n h xn) (seq 0 H)) x.
Proof.
  unfold matmul4. rewrite map2_mapi_map. apply mapi_ext_in.
  intros n xn _ _. unfold split_heads. rewrite map2_map_map.
  apply map_ext. intros h. apply matmul2_weighted_sum.
Qed.

Lemma probs_rows mask n h xn : List.length (Pf mask n h xn) = List.length xn.
Proof.
  unfold Pf, spec_probs, spec_scores, Qf.
  rewrite length_map, mapi_length, length_map. reflexivity.
Qed.

Lemma dropped_rows mask training keep n h xn :
  List.length (Pd mask training keep n h xn) = List.length xn.
Proof.
  unfold Pd, spec_dropout.
  destruct (training && negb (Qle_bool (dropout_rate (at_dropout_layer L)) 0)).
  - rewrite mapi_length. apply probs_rows.
  - apply probs_rows.
Qed.

Lemma context_shape mask training keep n h xn :
  In xn x -> is_shape2 S hd (Cf mask training keep n h xn) = true.
Proof.
  intros Hin. apply is_shape2_spec. unfold Cf. rewrite length_map. split.
  - rewrite dropped_rows. apply image_length, Hin.
  - apply Forall_map, Forall_forall. intros p _.
    unfold weighted_sum. rewrite length_map. apply length_seq.
Qed.

(** Swapping the axes back and merging heads concatenates, for
    every position, the outputs of the heads. *)
Lemma merge_stage mask training keep :
  let t :=
    transpose_0213 S
      (mapi (fun n xn =>
               map (fun h => Cf mask training keep n h xn) (seq 0 H)) x) in
  reshape_4_to_3 t (dim0 x) (dim1 t) hidden =
  Ok (mapi (fun n xn =>
              map (fun i =>
                     List.concat
                       (map (fun h => nth i (Cf mask training keep n h xn) [])
                            (seq 0 H)))
                  (seq 0 (List.length xn))) x).
Proof.
  intros t.
  assert (Ht : t = mapi (fun n xn =>
                           transpose2 [] S
                             (map (fun h => Cf mask training keep n h xn)
                                  (seq 0 H))) x).
  { unfold t, transpose_0213. apply map_mapi. }
  destruct (nil_or_not x) as [Hnil|Hne].
  - rewrite Ht, Hnil. reflexivity.
  - assert (Hd1 : dim1 t = S).
    { rewrite Ht. apply dim1_mapi; [exact Hne|].
      intros i a. apply transpose2_length. }
    rewrite Hd1, attention_dims.
    rewrite reshape_merge_last.
    + f_equal. rewrite Ht, map_mapi. apply mapi_ext_in.
      intros n xn _ Hin. unfold transpose2. rewrite map_map.
      rewrite (image_length _ Hin). apply map_ext. intros i.
      unfold flatten2. rewrite map_map. reflexivity.
    + apply is_shape4_spec. rewrite Ht, mapi_length. split; [reflexivity|].
      apply Forall_mapi. intros n xn Hin. cbv beta.
      apply is_shape3_spec. rewrite transpose2_length. split; [reflexivity|].
      unfold transpose2. apply Forall_map, Forall_forall. intros i Hi.
      apply in_seq in Hi.
      apply is_shape2_spec. rewrite !length_map, length_seq.
      split; [reflexivity|].
      rewrite map_map. apply Forall_map, Forall_forall. intros h _.
      pose proof (context_shape mask training keep n h _ Hin) as Hc.
      apply is_shape2_spec in Hc. destruct Hc as [Hlen Hall].
      rewrite Forall_forall in Hall. apply Hall, nth_In. lia.
Qed.

(** The call of the attention layer returns the pair that the
    specification describes. *)
Lemma attention_call_spec mask training keep :
  match mask with
  | None => True
  | Some m => mask_fits (dim0 x) H S S m = true
  end ->
  Gemma3VisionAttention_call L W x mask training keep =
  Ok (spec_attention L W x mask training keep).
Proof.
  intros Hmask.
  destruct attention_units as (Hq & Hk & Hv & Ho).
  pose proof scores_stage as Hs.
  pose proof (fun raw => @probs_stage mask raw) as Hp.
  pose proof (dropout_stage mask training keep) as Hdr.
  pose proof (context_stage mask training keep) as Hc.
  pose proof (merge_stage mask training keep) as Hmg.
  unfold Gemma3VisionAttention_call. cbv zeta in Hmg |- *.
  fold hidden. rewrite Hx. cbn [negb].
  rewrite (transpose_for_scores_heads _ (w_query_proj W) Hq),
          (transpose_for_scores_heads _ (w_key_proj W) Hk),
          (transpose_for_scores_heads _ (w_value_proj W) Hv).
  cbn [Py.bind].
  unfold Cf, Pd, Pf, Qf, Kf, Vf, S, hidden, hd, H in *.
  rewrite Hs.
  rewrite (@masked_scores_ok mask
             (mask_fits (dim0 x) (Z.to_nat (at_num_heads L)) (dim1 x) (dim1 x)))
    by exact Hmask.
  cbn [Py.bind].
  rewrite (Hp _ eq_refl), Hdr, Hc, Hmg. cbn [Py.bind].
  f_equal. unfold spec_attention, spec_attention_image, Dense_call.
  rewrite !map_mapi. f_equal.
  - apply mapi_ext_in. intros n xn _ _. cbn [fst]. f_equal.
    apply map_ext. intros i. f_equal. rewrite map_map. reflexivity.
  - apply mapi_ext_in. intros n xn _ _. cbn [snd].
    rewrite map_map. reflexivity.
Qed.

End AttentionRefinement.

(** Outside training mode, and for a rate that is not positive,
    dropout leaves the probabilities as they are. *)
Lemma spec_dropout_inference
    (l : Dropout) (keep : KeepMask) (n h : nat) (P : Tensor2) :
  spec_dropout l keep false n h P = P.
Proof. reflexivity. Qed.

Lemma spec_dropout_zero_rate
    (l : Dropout) (keep : KeepMask) (training : bool) (n h : nat) (P : Tensor2) :
  (dropout_rate l <= 0)%Q -> spec_dropout l keep training n h P = P.
Proof.
  intros Hr. unfold spec_dropout.
  apply Qle_bool_iff in Hr. rewrite Hr.
  rewrite andb_false_r. reflexivity.
Qed.

(** A tensor of shape [(N, S, d)] with at least one image has the
    extents [dim0 x = N] and [dim1 x = S] that the calls read off. *)
Lemma shape_dims (N S d : nat) (x : Tensor3) :
  is_shape3 N S d x = true -> x <> [] ->
  dim0 x = N /\ dim1 x = S /\ is_shape3 (dim0 x) (dim1 x) d x = true.
Proof.
  intros H Hx. pose proof (@dim1_of_shape _ _ _ _ H Hx) as H1.
  pose proof H as H0. apply is_shape3_spec in H0. destruct H0 as [H0 _].
  unfold dim0. rewrite H0, H1. repeat split. exact H.
Qed.

(** C4.  For an attention layer constructed with positive sizes, an
    input [x] of shape [(N, seq, hidden_dim)] and an optional additive
    mask that fits the scores, [call] returns the pair of the
    specification: queries, keys and values are the dense projections
    of [x], split into [num_heads] groups of
    [head_dim = hidden_dim // num_heads] features; the scores are the
    dot products divided by [sqrt(head_dim)], plus the mask when there
    is one; softmax runs over the last axis; the probabilities (after
    dropout, which is the identity outside training mode) weight the
    values; the heads are recombined and projected; the second
    component is the probability tensor. *)
Theorem attention_call_computes_spec
    (hidden_dim num_heads : Z) (dropout : Q) (dtype : Dtype) (name : string)
    (L : Gemma3VisionAttention) (W : AttentionW)
    (x : Tensor3) (mask : option Tensor4) (training : bool) (keep : KeepMask) :
  Gemma3VisionAttention_init hidden_dim num_heads dropout dtype name = Ok L ->
  (0 < num_heads)%Z -> (0 < hidden_dim)%Z ->
  is_shape3 (dim0 x) (dim1 x) (Z.to_nat hidden_dim) x = true ->
  match mask with
  | None => True
  | Some m =>
      mask_fits (dim0 x) (Z.to_nat num_heads) (dim1 x) (dim1 x) m = true
  end ->
  at_head_dim L = (hidden_dim / num_heads)%Z /\
  Gemma3VisionAttention_call L W x mask training keep =
  Ok (spec_attention L W x mask training keep).
Proof.
  intros Hinit Hn Hh Hx Hmask.
  destruct (attention_init_inv _ _ _ _ _ Hinit)
    as (_ & Hhid & Hnum & Hhd & _).
  split; [exact Hhd|].
  eapply attention_call_spec;
    [exact Hinit | exact Hn | exact Hh | rewrite Hhid; exact Hx
    | rewrite Hnum; exact Hmask].
Qed.

Lemma attention_call_computes_spec_witness :
  let W :=
    {| w_query_proj := {| kernel := [[1; 0]; [0; 1]]; bias := [0; 0] |};
       w_key_proj := {| kernel := [[1; 0]; [0; 1]]; bias := [0; 0] |};
       w_value_proj := {| kernel := [[1; 0]; [0; 1]]; bias := [0; 0] |};
       w_out_proj := {| kernel := [[1; 0]; [0; 1]]; bias := [0; 0] |} |}%R in
  let x := [[[1; 2]; [3; 4]]]%R in
  exists L,
    Gemma3VisionAttention_init 2 2 0 DNone "multi_head_attention" = Ok L /\
    Gemma3VisionAttention_call L W x None false (fun _ _ _ _ => true) =
    Ok (spec_attention L W x None false (fun _ _ _ _ => true)).
Proof.
  intros W x. eexists. split; [vm_compute; reflexivity|].
  apply (@attention_call_computes_spec 2 2 0 DNone "multi_head_attention"
           _ W x None false (fun _ _ _ _ => true)).
  - reflexivity.
  - lia.
  - lia.
  - reflexivity.
  - exact I.
Defined.

(* ================================================================== *)
(** * Masks of zeros *)
(* ================================================================== *)

Section ZeroMask.

Local Open Scope R_scope.

Lemma bnth_Forall {A : Type} (P : A -> Prop) (d : A) (l : list A) (i : nat) :
  Forall P l -> P d -> P (bnth d l i).
Proof.
  intros Hl Hd. unfold bnth.
  assert (Hnth : forall k, P (nth k l d)).
  { intros k. destruct (Nat.lt_ge_cases k (List.length l)) as [Hk|Hk].
    - rewrite Forall_forall in Hl. apply Hl, nth_In, Hk.
    - rewrite nth_overflow by exact Hk. exact Hd. }
  destruct (Nat.eqb (List.length l) 1); apply Hnth.
Qed.

Lemma mask_at_zero (m : Tensor4) (n h i j : nat) :
  all_zero m -> mask_at m n h i j = 0.
Proof.
  intros Hm. unfold mask_at.
  apply (@bnth_Forall _ (fun v => v = 0)); [|reflexivity].
  apply (@bnth_Forall _ (Forall (fun v => v = 0))); [|constructor].
  apply (@bnth_Forall _ (Forall (Forall (fun v => v = 0)))); [|constructor].
  apply (@bnth_Forall _ (Forall (Forall (Forall (fun v => v = 0)))));
    [exact Hm | constructor].
Qed.

Lemma mapi_id {A : Type} (f : nat -> A -> A) (l : list A) :
  (forall i a, f i a = a) -> mapi f l = l.
Proof.
  intros Hf. rewrite (@mapi_eq_map _ _ f (fun a => a)).
  - apply map_id.
  - intros i a _. apply Hf.
Qed.

(** Adding a mask of zeros changes no score. *)
Lemma add_mask_zero (scores m : Tensor4) :
  all_zero m -> add_mask scores m = scores.
Proof.
  intros Hm. unfold add_mask.
  apply mapi_id. intros n t3. apply mapi_id. intros h t2.
  apply mapi_id. intros i row. apply mapi_id. intros j s.
  rewrite mask_at_zero by exact Hm. apply Rplus_0_r.
Qed.

End ZeroMask.

(** C6.  For every input [x] and every mask that fits the scores and
    whose entries are all zero, the attention layer returns on
    [(x, mask)] exactly what it returns on [(x, None)]. *)
Theorem zero_mask_is_no_mask
    (L : Gemma3VisionAttention) (W : AttentionW)
    (x : Tensor3) (m : Tensor4) (training : bool) (keep : KeepMask) :
  mask_fits (dim0 x) (Z.to_nat (at_num_heads L)) (dim1 x) (dim1 x) m = true ->
  all_zero m ->
  Gemma3VisionAttention_call L W x (Some m) training keep =
  Gemma3VisionAttention_call L W x None training keep.
Proof.
  intros Hfits Hzero. unfold Gemma3VisionAttention_call. cbv zeta.
  destruct (negb (is_shape3 (dim0 x) (dim1 x) (Z.to_nat (at_hidden_dim L)) x));
    [reflexivity|].
  destruct (transpose_for_scores L
              (Dense_call (at_query_proj L) (w_query_proj W) x) (dim0 x));
    [|reflexivity].
  destruct (transpose_for_scores L
              (Dense_call (at_key_proj L) (w_key_proj W) x) (dim0 x));
    [|reflexivity].
  destruct (transpose_for_scores L
              (Dense_call (at_value_proj L) (w_value_proj W) x) (dim0 x));
    [|reflexivity].
  cbn [Py.bind]. rewrite Hfits, add_mask_zero by exact Hzero. reflexivity.
Qed.

Lemma zero_mask_is_no_mask_witness :
  let W :=
    {| w_query_proj := {| kernel := [[1; 0]; [0; 1]]; bias := [0; 0] |};
       w_key_proj := {| kernel := [[1; 0]; [0; 1]]; bias := [0; 0] |};
       w_value_proj := {| kernel := [[1; 0]; [0; 1]]; bias := [0; 0] |};
       w_out_proj := {| kernel := [[1; 0]; [0; 1]]; bias := [0; 0] |} |}%R in
  let x := [[[1; 2]; [3; 4]]]%R in
  let m := [[[[0; 0]; [0; 0]]]]%R in
  exists L,
    Gemma3VisionAttention_init 2 2 0 DNone "multi_head_attention" = Ok L /\
    Gemma3VisionAttention_call L W x (Some m) false (fun _ _ _ _ => true) =
    Gemma3VisionAttention_call L W x None false (fun _ _ _ _ => true).
Proof.
  intros W x m. eexists. split; [vm_compute; reflexivity|].
  apply zero_mask_is_no_mask.
  - reflexivity.
  - repeat constructor.
Defined.

(* ================================================================== *)
(** * Softmax rows *)
(* ================================================================== *)

Section SoftmaxFacts.

Local Open Scope R_scope.

Lemma sum_exp_pos (v : Vec) : v <> [] -> 0 < sum (map exp v).
Proof.
  destruct v as [|a v]; [contradiction|]. intros _.
  revert a. induction v as [|b v IH]; intros a; simpl.
  - rewrite Rplus_0_r. apply exp_pos.
  - specialize (IH b). simpl in IH.
    pose proof (exp_pos a). lra.
Qed.

Lemma sum_map_div (c : R) (e : Vec) :
  sum (map (fun t => t / c) e) = sum e / c.
Proof.
  induction e as [|a e IH]; simpl.
  - unfold Rdiv. rewrite Rmult_0_l. reflexivity.
  - rewrite IH. unfold Rdiv. ring.
Qed.

(** The softmax of a non-empty row is a probability vector. *)
Lemma softmax_sum (v : Vec) : v <> [] -> sum (softmax v) = 1.
Proof.
  intros Hv. unfold softmax. rewrite sum_map_div.
  pose proof (sum_exp_pos Hv). field. lra.
Qed.

Lemma softmax_length (v : Vec) : List.length (softmax v) = List.length v.
Proof. unfold softmax. rewrite !length_map. reflexivity. Qed.

(** In a table of scores with as many columns as rows, every row of
    the probabilities sums to one. *)
Lemma spec_probs_rows_sum (hd : nat) (mask : option Tensor4) (n h : nat)
    (Qn Kn : Tensor2) :
  List.length Qn = List.length Kn ->
  Forall (fun row => sum row = 1) (spec_probs hd mask n h Qn Kn).
Proof.
  intros Hlen. unfold spec_probs, spec_scores.
  apply Forall_map. apply Forall_mapi. intros i q Hq. cbv beta.
  apply softmax_sum. intros Hnil.
  apply (f_equal (@List.length R)) in Hnil. rewrite mapi_length in Hnil.
  simpl in Hnil. destruct Qn as [|q0 Qn]; [destruct Hq|].
  simpl in Hlen. lia.
Qed.

End SoftmaxFacts.

(** C10.  For a constructed attention layer, a well-shaped input and a
    mask that fits, the second element of the result is the softmax
    output itself, head by head, whatever the training flag and the
    dropout draws are: it is the same tensor in training and in
    non-training mode, each of its rows sums to one, and only the
    first element is computed from the probabilities after dropout. *)
Theorem attention_probs_before_dropout
    (hidden_dim num_heads : Z) (dropout : Q) (dtype : Dtype) (name : string)
    (L : Gemma3VisionAttention) (W : AttentionW)
    (x : Tensor3) (mask : option Tensor4) :
  Gemma3VisionAttention_init hidden_dim num_heads dropout dtype name = Ok L ->
  (0 < num_heads)%Z -> (0 < hidden_dim)%Z ->
  is_shape3 (dim0 x) (dim1 x) (Z.to_nat hidden_dim) x = true ->
  match mask with
  | None => True
  | Some m =>
      mask_fits (dim0 x) (Z.to_nat num_heads) (dim1 x) (dim1 x) m = true
  end ->
  let probs :=
    mapi (fun n xn =>
            map (fun h =>
                   spec_probs (Z.to_nat (at_head_dim L)) mask n h
                     (map (Dense_call_vec (at_query_proj L) (w_query_proj W)) xn)
                     (map (Dense_call_vec (at_key_proj L) (w_key_proj W)) xn))
                (seq 0 (Z.to_nat (at_num_heads L)))) x in
  (forall (training : bool) (keep : KeepMask),
     exists out,
       Gemma3VisionAttention_call L W x mask training keep = Ok (out, probs)) /\
  rows_sum_to_one probs.
Proof.
  intros Hinit Hn Hh Hx Hmask probs.
  destruct (attention_init_inv _ _ _ _ _ Hinit) as (_ & Hhid & Hnum & _).
  split.
  - intros t k. exists (fst (spec_attention L W x mask t k)).
    rewrite (@attention_call_spec hidden_dim num_heads dropout dtype name L W
               Hinit Hn Hh x) with (mask := mask);
      [|rewrite Hhid; exact Hx | rewrite Hnum; exact Hmask].
    f_equal. unfold spec_attention. cbn [fst snd]. f_equal.
    unfold probs. rewrite map_mapi. apply mapi_ext_in. intros n xn _ _.
    unfold spec_attention_image. cbn [snd]. rewrite map_map. reflexivity.
  - unfold rows_sum_to_one, probs. apply Forall_mapi. intros n xn _. cbv beta.
    apply Forall_map, Forall_forall. intros h _.
    apply spec_probs_rows_sum. rewrite !length_map. reflexivity.
Qed.

Lemma attention_probs_before_dropout_witness :
  let W :=
    {| w_query_proj := {| kernel := [[1; 0]; [0; 1]]; bias := [0; 0] |};
       w_key_proj := {| kernel := [[1; 0]; [0; 1]]; bias := [0; 0] |};
       w_value_proj := {| kernel := [[1; 0]; [0; 1]]; bias := [0; 0] |};
       w_out_proj := {| kernel := [[1; 0]; [0; 1]]; bias := [0; 0] |} |}%R in
  let x := [[[1; 2]; [3; 4]]]%R in
  exists L probs,
    Gemma3VisionAttention_init 2 2 (1 # 2) DNone "multi_head_attention" = Ok L /\
    (forall training keep,
       exists out,
         Gemma3VisionAttention_call L W x None training keep = Ok (out, probs)) /\
    rows_sum_to_one probs.
Proof.
  intros W x. eexists. eexists. split; [vm_compute; reflexivity|].
  apply (@attention_probs_before_dropout 2 2 (1 # 2) DNone
           "multi_head_attention" _ W x None).
  - reflexivity.
  - lia.
  - lia.
  - reflexivity.
  - exact I.
Defined.

(* ================================================================== *)
(** * The encoder layer *)
(* ================================================================== *)

Section EncoderLayerFacts.

Local Open Scope R_scope.

Lemma map_map_shape_dep (g : Vec -> Vec) (n s d d' : nat) (x : Tensor3) :
  (forall v, List.length v = d -> List.length (g v) = d') ->
  is_shape3 n s d x = true ->
  is_shape3 n s d' (map (map g) x) = true.
Proof.
  intros Hg H. apply is_shape3_spec in H. destruct H as [Hn H].
  apply is_shape3_spec. rewrite length_map. split; [exact Hn|].
  apply Forall_map. eapply Forall_impl; [|exact H].
  intros m Hm. apply is_shape2_spec in Hm. destruct Hm as [Hs Hv].
  apply is_shape2_spec. rewrite length_map. split; [exact Hs|].
  apply Forall_map. eapply Forall_impl; [|exact Hv].
  intros v Hlen. apply Hg, Hlen.
Qed.

Lemma LayerNormalization_call_shape
    (l : LayerNormalization) (w : LayerNormW) (n s d : nat) (x : Tensor3) :
  is_shape3 n s d x = true ->
  is_shape3 n s d (LayerNormalization_call l w x) = true.
Proof.
  apply map_map_shape_dep. intros v Hv.
  unfold LayerNormalization_call_vec. rewrite mapi_length. exact Hv.
Qed.

Lemma LayerNormalization_call_dims
    (l : LayerNormalization) (w : LayerNormW) (x : Tensor3) :
  dim0 (LayerNormalization_call l w x) = dim0 x /\
  dim1 (LayerNormalization_call l w x) = dim1 x.
Proof.
  unfold LayerNormalization_call, dim0. rewrite length_map, dim1_map_map.
  split; reflexivity.
Qed.

Lemma Dense_call_shape (d : Dense) (w : DenseW) (n s k : nat) (x : Tensor3) :
  is_shape3 n s k x = true ->
  is_shape3 n s (Z.to_nat (dense_units d)) (Dense_call d w x) = true.
Proof.
  apply map_map_shape. intros v. apply Dense_call_vec_length.
Qed.

Lemma map3d_shape (f : R -> R) (n s d : nat) (x : Tensor3) :
  is_shape3 n s d x = true -> is_shape3 n s d (map3d f x) = true.
Proof.
  apply map_map_shape_dep. intros v Hv. rewrite length_map. exact Hv.
Qed.

Lemma Forall_map2 {A B C : Type} (P : A -> Prop) (Q : B -> Prop) (R' : C -> Prop)
    (f : A -> B -> C) (l : list A) (l' : list B) :
  (forall a b, P a -> Q b -> R' (f a b)) ->
  Forall P l -> Forall Q l' -> Forall R' (map2 f l l').
Proof.
  intros Hf Hl. revert l'. induction Hl as [|a l Ha _ IH]; intros l' Hl'.
  - constructor.
  - destruct Hl' as [|b l' Hb Hl']; [constructor|].
    unfold map2. simpl. constructor; [apply Hf; assumption|].
    apply IH, Hl'.
Qed.

(** Adding two tensors of one shape gives a tensor of that shape. *)
Lemma add3_shape (n s d : nat) (x y : Tensor3) :
  is_shape3 n s d x = true -> is_shape3 n s d y = true ->
  is_shape3 n s d (add3 x y) = true.
Proof.
  intros Hx Hy. apply is_shape3_spec in Hx, Hy.
  destruct Hx as [Hnx Hx], Hy as [Hny Hy].
  apply is_shape3_spec. unfold add3. rewrite map2_length, Hnx, Hny.
  split; [apply Nat.min_id|].
  eapply Forall_map2; [|exact Hx|exact Hy]. cbv beta. intros a b Ha Hb.
  apply is_shape2_spec in Ha, Hb.
  destruct Ha as [Hsa Ha], Hb as [Hsb Hb].
  apply is_shape2_spec. rewrite map2_length, Hsa, Hsb.
  split; [apply Nat.min_id|].
  eapply Forall_map2; [|exact Ha|exact Hb]. cbv beta. intros u v Hu Hv.
  rewrite map2_length, Hu, Hv. apply Nat.min_id.
Qed.

Lemma add3_comm (x y : Tensor3) : add3 x y = add3 y x.
Proof.
  unfold add3. apply map2_comm. intros a b.
  apply map2_comm. intros u v. apply map2_comm. intros p q.
  apply Rplus_comm.
Qed.

(** The attended output has the shape of the input. *)
Lemma spec_attention_output_shape
    (L : Gemma3VisionAttention) (W : AttentionW) (d : nat)
    (x : Tensor3) (mask : option Tensor4) (training : bool) (keep : KeepMask) :
  Z.to_nat (dense_units (at_out_proj L)) = d ->
  is_shape3 (dim0 x) (dim1 x) d x = true ->
  is_shape3 (dim0 x) (dim1 x) d
    (fst (spec_attention L W x mask training keep)) = true.
Proof.
  intros Hu Hx. unfold spec_attention. cbn [fst].
  rewrite map_mapi. apply is_shape3_spec. rewrite mapi_length.
  split; [reflexivity|].
  apply Forall_mapi. intros n xn Hin. cbv beta.
  unfold spec_attention_image. cbn [fst].
  apply is_shape2_spec. rewrite !length_map, length_seq. split.
  - apply is_shape3_spec in Hx. destruct Hx as [_ Hall].
    rewrite Forall_forall in Hall. specialize (Hall xn Hin).
    apply is_shape2_spec in Hall. apply Hall.
  - apply Forall_map, Forall_forall. intros v _.
    rewrite Dense_call_vec_length. exact Hu.
Qed.

End EncoderLayerFacts.

Section EncoderLayerRefinement.

Local Open Scope R_scope.

Variable global : string.
Variables (L0 L : Gemma3VisionEncoderLayer) (hidden_dim : Z).
Variable W : EncoderLayerW.

Hypothesis Hbuild :
  Gemma3VisionEncoderLayer_build global L0 [None; None; Some hidden_dim] = Ok L.
Hypothesis Hheads : (0 < el_num_heads L0)%Z.
Hypothesis Hhidden : (0 < hidden_dim)%Z.

(** What [build] leaves in the layer. *)
Lemma built_sublayers :
  exists sub,
    el_built L = Some sub /\
    Gemma3VisionAttention_init hidden_dim (el_num_heads L0) 0
      (dtype_policies_get global (el_dtype L0)) "multi_head_attention"
    = Ok (el_attn sub) /\
    dense_units (el_mlp_dense_1 sub) = el_intermediate_dim L0 /\
    dense_units (el_mlp_dense_2 sub) = hidden_dim /\
    dense_use_bias (el_mlp_dense_1 sub) = true /\
    dense_use_bias (el_mlp_dense_2 sub) = true.
Proof.
  destruct (encoder_layer_build_inv _ _ _ Hbuild)
    as (h & attn & Hidx & Hattn & _ & _ & _ & _ & sub & Hsub & Ha & _ & _ &
        _ & _ & Hu1 & Hu2 & Hb1 & Hb2).
  change (Py.index [None; None; Some hidden_dim] (-1))
    with (Ok (A:=option Z) (Some hidden_dim)) in Hidx.
  inversion Hidx; subst h.
  exists sub. rewrite Ha. repeat split; assumption.
Qed.

Variable x : Tensor3.
Hypothesis Hx : is_shape3 (dim0 x) (dim1 x) (Z.to_nat hidden_dim) x = true.

(** The call of the encoder layer returns the tensor of the two
    residual equations. *)
Lemma encoder_layer_call_spec mask training keep :
  match mask with
  | None => True
  | Some m =>
      mask_fits (dim0 x) (Z.to_nat (el_num_heads L0)) (dim1 x) (dim1 x) m
      = true
  end ->
  exists sub,
    el_built L = Some sub /\
    Gemma3VisionEncoderLayer_call L W x mask training keep =
    Ok (spec_encoder_layer sub W x mask training keep).
Proof.
  intros Hmask.
  destruct built_sublayers as (sub & Hsub & Hattn & _).
  exists sub. split; [exact Hsub|].
  destruct (attention_init_inv _ _ _ _ _ Hattn) as (_ & Hhid & Hnum & _).
  unfold Gemma3VisionEncoderLayer_call. rewrite Hsub. cbv zeta.
  rewrite Hhid, Hx. cbn [negb]. unfold compute_attention.
  destruct (LayerNormalization_call_dims (el_layer_norm_1 sub)
              (w_layer_norm_1 W) x) as [Hd0 Hd1].
  rewrite (@attention_call_spec hidden_dim (el_num_heads L0) 0
             (dtype_policies_get global (el_dtype L0)) "multi_head_attention"
             (el_attn sub) (w_attn W) Hattn Hheads Hhidden).
  - cbn [Py.bind]. unfold spec_encoder_layer, spec_mlp.
    rewrite (add3_comm x). reflexivity.
  - rewrite Hd0, Hd1, Hhid. apply LayerNormalization_call_shape, Hx.
  - rewrite Hd0, Hd1, Hnum. exact Hmask.
Qed.

(** The tensor of the two residual equations has the shape of the
    input. *)
Lemma spec_encoder_layer_shape sub mask training keep :
  el_built L = Some sub ->
  is_shape3 (dim0 x) (dim1 x) (Z.to_nat hidden_dim)
    (spec_encoder_layer sub W x mask training keep) = true.
Proof.
  intros Hsub.
  destruct built_sublayers as (sub' & Hsub' & Hattn & _ & Hu2 & _).
  rewrite Hsub in Hsub'. inversion Hsub'; subst sub'. clear Hsub'.
  destruct (attention_init_inv _ _ _ _ _ Hattn)
    as (_ & _ & _ & _ & _ & _ & _ & _ & _ & _ & Ho & _).
  destruct (LayerNormalization_call_dims (el_layer_norm_1 sub)
              (w_layer_norm_1 W) x) as [Hd0 Hd1].
  unfold spec_encoder_layer, spec_mlp.
  assert (Hx' : is_shape3 (dim0 x) (dim1 x) (Z.to_nat hidden_dim)
                  (add3 x
                     (fst (spec_attention (el_attn sub) (w_attn W)
                             (LayerNormalization_call (el_layer_norm_1 sub)
                                (w_layer_norm_1 W) x)
                             mask training keep))) = true).
  { apply add3_shape; [exact Hx|].
    rewrite <- Hd0 at 1. rewrite <- Hd1 at 1.
    apply spec_attention_output_shape.
    - rewrite Ho. reflexivity.
    - rewrite Hd0, Hd1. apply LayerNormalization_call_shape, Hx. }
  apply add3_shape; [exact Hx'|].
  rewrite <- Hu2. apply Dense_call_shape with (k := Z.to_nat (dense_units (el_mlp_dense_1 sub))).
  apply map3d_shape. apply Dense_call_shape with (k := Z.to_nat hidden_dim).
  apply LayerNormalization_call_shape, Hx'.
Qed.

End EncoderLayerRefinement.

(** C5.  For an encoder layer built for a positive hidden width, an
    input [x] of shape [(N, seq, hidden_dim)] and a mask that fits,
    [call] returns [x'' = x' + MLP(LayerNorm(x'))] with
    [x' = x + Attention(LayerNorm(x), mask)], where the MLP is a dense
    layer with [intermediate_dim] units, the tanh approximation of
    GELU, and a dense layer with [hidden_dim] units. *)
Theorem encoder_layer_call_computes_spec
    (global : string) (L0 L : Gemma3VisionEncoderLayer) (hidden_dim : Z)
    (W : EncoderLayerW) (x : Tensor3) (mask : option Tensor4)
    (training : bool) (keep : KeepMask) :
  Gemma3VisionEncoderLayer_build global L0 [None; None; Some hidden_dim] = Ok L ->
  (0 < el_num_heads L0)%Z -> (0 < hidden_dim)%Z ->
  is_shape3 (dim0 x) (dim1 x) (Z.to_nat hidden_dim) x = true ->
  match mask with
  | None => True
  | Some m =>
      mask_fits (dim0 x) (Z.to_nat (el_num_heads L0)) (dim1 x) (dim1 x) m
      = true
  end ->
  exists sub,
    el_built L = Some sub /\
    dense_units (el_mlp_dense_1 sub) = el_intermediate_dim L0 /\
    dense_units (el_mlp_dense_2 sub) = hidden_dim /\
    Gemma3VisionEncoderLayer_call L W x mask training keep =
    Ok (spec_encoder_layer sub W x mask training keep).
Proof.
  intros Hbuild Hheads Hhidden Hx Hmask.
  destruct (@encoder_layer_call_spec global L0 L hidden_dim W Hbuild Hheads
              Hhidden x Hx mask training keep Hmask) as (sub & Hsub & Hcall).
  destruct (@built_sublayers global L0 L hidden_dim Hbuild)
    as (sub' & Hsub' & _ & Hu1 & Hu2 & _).
  rewrite Hsub in Hsub'. inversion Hsub'; subst sub'.
  exists sub. repeat split; assumption.
Qed.

Lemma encoder_layer_call_computes_spec_witness :
  let dense2 := {| kernel := [[1; 0]; [0; 1]]; bias := [0; 0] |}%R in
  let norm := {| gamma := [1; 1]; beta := [0; 0] |}%R in
  let W :=
    {| w_attn :=
         {| w_query_proj := dense2; w_key_proj := dense2;
            w_value_proj := dense2; w_out_proj := dense2 |};
       w_layer_norm_1 := norm;
       w_mlp_dense_1 :=
         {| kernel := [[1; 0; 1]; [0; 1; 1]]; bias := [0; 0; 0] |}%R;
       w_mlp_dense_2 :=
         {| kernel := [[1; 0]; [0; 1]; [1; 1]]; bias := [0; 0] |}%R;
       w_layer_norm_2 := norm |} in
  let x := [[[1; 2]; [3; 4]]]%R in
  let L0 :=
    Gemma3VisionEncoderLayer_init 2 3 default_layer_norm_epsilon DNone
      "encoder_block_0" in
  exists L sub,
    Gemma3VisionEncoderLayer_build "float32" L0 [None; None; Some 2%Z] = Ok L /\
    el_built L = Some sub /\
    Gemma3VisionEncoderLayer_call L W x None false (fun _ _ _ _ => true) =
    Ok (spec_encoder_layer sub W x None false (fun _ _ _ _ => true)).
Proof.
  intros dense2 norm W x L0.
  assert (Hb : exists L,
             Gemma3VisionEncoderLayer_build "float32" L0 [None; None; Some 2%Z]
             = Ok L) by (eexists; vm_compute; reflexivity).
  destruct Hb as [L HL].
  destruct (@encoder_layer_call_computes_spec "float32" L0 L 2 W x None false
              (fun _ _ _ _ => true) HL) as (sub & Hsub & _ & _ & Hcall).
  - reflexivity.
  - lia.
  - reflexivity.
  - exact I.
  - exists L, sub. repeat split; assumption.
Defined.

(** C9.  For an encoder layer built for a positive hidden width, an
    input batch of shape [(N, seq, hidden_dim)] and a mask that fits,
    [call] returns a tensor of exactly the shape of its input, which
    is also what [compute_output_shape] announces. *)
Theorem encoder_layer_preserves_shape
    (global : string) (L0 L : Gemma3VisionEncoderLayer) (hidden_dim : Z)
    (W : EncoderLayerW) (x : Tensor3) (mask : option Tensor4)
    (training : bool) (keep : KeepMask) :
  Gemma3VisionEncoderLayer_build global L0 [None; None; Some hidden_dim] = Ok L ->
  (0 < el_num_heads L0)%Z -> (0 < hidden_dim)%Z ->
  is_shape3 (dim0 x) (dim1 x) (Z.to_nat hidden_dim) x = true ->
  match mask with
  | None => True
  | Some m =>
      mask_fits (dim0 x) (Z.to_nat (el_num_heads L0)) (dim1 x) (dim1 x) m
      = true
  end ->
  exists y,
    Gemma3VisionEncoderLayer_call L W x mask training keep = Ok y /\
    is_shape3 (dim0 x) (dim1 x) (Z.to_nat hidden_dim) y = true /\
    dim0 y = dim0 x /\ dim1 y = dim1 x /\
    forall s, Gemma3VisionEncoderLayer_compute_output_shape L s = s.
Proof.
  intros Hbuild Hheads Hhidden Hx Hmask.
  destruct (@encoder_layer_call_spec global L0 L hidden_dim W Hbuild Hheads
              Hhidden x Hx mask training keep Hmask) as (sub & Hsub & Hcall).
  assert (Hshape : is_shape3 (dim0 x) (dim1 x) (Z.to_nat hidden_dim)
                     (spec_encoder_layer sub W x mask training keep) = true)
    by (eapply spec_encoder_layer_shape; eassumption).
  eexists. split; [exact Hcall|]. split; [exact Hshape|].
  pose proof Hshape as Hlen. apply is_shape3_spec in Hlen.
  destruct Hlen as [Hlen _].
  split; [exact Hlen|]. split; [|reflexivity].
  destruct (nil_or_not x) as [Hnil|Hne].
  - rewrite Hnil. reflexivity.
  - apply (@dim1_of_shape _ _ _ _ Hshape).
    intros Hy. rewrite Hy in Hlen. unfold dim0 in Hlen. simpl in Hlen.
    symmetry in Hlen. apply length_zero_iff_nil in Hlen. contradiction.
Qed.

Lemma encoder_layer_preserves_shape_witness :
  let dense2 := {| kernel := [[1; 0]; [0; 1]]; bias := [0; 0] |}%R in
  let norm := {| gamma := [1; 1]; beta := [0; 0] |}%R in
  let W :=
    {| w_attn :=
         {| w_query_proj := dense2; w_key_proj := dense2;
            w_value_proj := dense2; w_out_proj := dense2 |};
       w_layer_norm_1 := norm;
       w_mlp_dense_1 :=
         {| kernel := [[1; 0; 1]; [0; 1; 1]]; bias := [0; 0; 0] |}%R;
       w_mlp_dense_2 :=
         {| kernel := [[1; 0]; [0; 1]; [1; 1]]; bias := [0; 0] |}%R;
       w_layer_norm_2 := norm |} in
  let x := [[[1; 2]; [3; 4]; [5; 6]]; [[7; 8]; [9; 10]; [11; 12]]]%R in
  let m := [[[[0; 0; 0]; [0; 0; 0]; [0; 0; 0]]];
            [[[0; 0; 0]; [0; 0; 0]; [0; 0; 0]]]]%R in
  let L0 :=
    Gemma3VisionEncoderLayer_init 2 3 default_layer_norm_epsilon DNone
      "encoder_block_0" in
  exists L y,
    Gemma3VisionEncoderLayer_build "float32" L0 [None; None; Some 2%Z] = Ok L /\
    Gemma3VisionEncoderLayer_call L W x (Some m) false (fun _ _ _ _ => true)
    = Ok y /\
    is_shape3 2 3 2 y = true.
Proof.
  intros dense2 norm W x m L0.
  assert (Hb : exists L,
             Gemma3VisionEncoderLayer_build "float32" L0 [None; None; Some 2%Z]
             = Ok L) by (eexists; vm_compute; reflexivity).
  destruct Hb as [L HL].
  destruct (@encoder_layer_preserves_shape "float32" L0 L 2 W x (Some m) false
              (fun _ _ _ _ => true) HL) as (y & Hcall & Hshape & _).
  - reflexivity.
  - lia.
  - reflexivity.
  - reflexivity.
  - exists L, y. repeat split; assumption.
Defined.

(* ================================================================== *)
(** * The structure of a constructed encoder *)
(* ================================================================== *)

Section EncoderStructure.

Local Open Scope Z_scope.

Variable global : string.

Lemma Forall2_map_left {A B C : Type} (P : B -> C -> Prop) (g : A -> B)
    (l : list A) (l' : list C) :
  Forall2 P (map g l) l' -> Forall2 (fun a c => P (g a) c) l l'.
Proof.
  revert l'. induction l as [|a l IH]; intros l' H; simpl in H.
  - inversion H. constructor.
  - inversion H; subst. constructor; [assumption | apply IH; assumption].
Qed.

(** The residual block that the encoder block creates for index [i]. *)
Lemma encoder_init_structure
    image_size patch_size num_heads hidden_dim num_layers intermediate_dim
    output_dim pool_size layer_norm_epsilon dtype name e :
  Gemma3VisionEncoder_init global image_size patch_size num_heads hidden_dim
    num_layers intermediate_dim output_dim pool_size layer_norm_epsilon
    dtype name = Ok e ->
  let dt := override_dtype dtype in
  let block := enc_image_encoder e in
  Forall2
    (fun i l =>
       Gemma3VisionEncoderLayer_build global
         (Gemma3VisionEncoderLayer_init num_heads intermediate_dim
            default_layer_norm_epsilon dt
            ("encoder_block_" ++ Py.str i)%string)
         [None; None; Some hidden_dim] = Ok l)
    (Py.range num_layers) (eb_resblocks block) /\
  eb_encoder_layer_norm block =
    {| ln_epsilon := default_layer_norm_epsilon; ln_dtype := dt;
       ln_name := "encoder_layer_norm" |} /\
  (eb_hidden_dim block = hidden_dim /\ eb_patch_size block = patch_size /\
   eb_image_size block = image_size /\ eb_num_layers block = num_layers /\
   eb_num_heads block = num_heads /\
   eb_intermediate_dim block = intermediate_dim /\
   eb_layer_norm_epsilon block = default_layer_norm_epsilon /\
   eb_name block = "image_encoder"%string /\ eb_dtype block = dt) /\
  Gemma3VisionEmbedding_init image_size patch_size hidden_dim dt
    "encoder_embeddings" = Ok (eb_vision_embeddings block) /\
  (exists pooling,
     Gemma3VisionAveragePooling_init image_size patch_size pool_size dt
       "pooling" = Ok pooling /\
     enc_pooling e = Gemma3VisionAveragePooling_build global pooling) /\
  enc_vision_output_encoder e =
    Gemma3VisionOutput_build global
      (Gemma3VisionOutput_init output_dim layer_norm_epsilon
         (RandomNormal 0 (1 # 100)) dt "vision_output_encoder") /\
  (enc_image_size e = image_size /\ enc_patch_size e = patch_size /\
   enc_num_heads e = num_heads /\ enc_hidden_dim e = hidden_dim /\
   enc_num_layers e = num_layers /\
   enc_intermediate_dim e = intermediate_dim /\
   enc_output_dim e = output_dim /\ enc_pool_size e = pool_size /\
   enc_layer_norm_epsilon e = layer_norm_epsilon /\ enc_name e = name /\
   enc_dtype_policy e = dtype_policies_get global dt).
Proof.
  unfold Gemma3VisionEncoder_init, Gemma3VisionEncoderBlock_init,
    Gemma3VisionEmbedding_init, Gemma3VisionAveragePooling_init.
  intros H.
  destruct (Py.floordiv image_size patch_size) as [w|] eqn:Ew; simpl in H;
    [|discriminate].
  apply floordiv_inv in Ew. destruct Ew as [Hp ->].
  unfold Gemma3VisionEncoderBlock_build in H. simpl in H.
  bind_inv H. rename x into block, E into Eblock.
  bind_inv Eblock. rename x into resblocks, E into Eres.
  inversion Eblock; subst block; clear Eblock.
  unfold Gemma3VisionEncoderBlock_compute_output_shape in H.
  cbn [eb_patch_size eb_hidden_dim] in H.
  change (Py.index [None; None; Some image_size; Some image_size; Some 3] 2)
    with (Ok (A:=option Z) (Some image_size)) in H.
  cbn [Py.bind Py.as_int] in H.
  rewrite (floordiv_ok image_size Hp) in H. cbn [Py.bind] in H.
  destruct (Py.floordiv (image_size / patch_size) pool_size) as [rw|] eqn:Er;
    cbn [Py.bind] in H; [|discriminate].
  apply floordiv_inv in Er. destruct Er as [Hq ->].
  unfold Gemma3VisionAveragePooling_compute_output_shape in H.
  cbn -[Py.floordiv Py.sq Z.div Z.pow Z.mul] in H.
  destruct (Py.floordiv (Py.sq (image_size / patch_size)) (Py.sq pool_size))
    as [nv|] eqn:En; cbn [Py.bind] in H; [|discriminate].
  inversion H; subst; clear H. cbn.
  apply mapM_inv in Eres. apply Forall2_map_left in Eres.
  split; [exact Eres|]. split; [reflexivity|].
  split; [repeat split|]. split; [reflexivity|].
  split.
  { eexists. split; [rewrite (floordiv_ok _ Hq); reflexivity | reflexivity]. }
  split; [reflexivity|]. repeat split.
Qed.

End EncoderStructure.

Section ConstructionProperties.

Local Open Scope Z_scope.

Variable global : string.

(** Everything [build] puts into an encoder layer. *)
Lemma encoder_layer_build_explicit L shape L' :
  Gemma3VisionEncoderLayer_build global L shape = Ok L' ->
  exists hidden_dim attn,
    Py.index shape (-1) = Ok (Some hidden_dim) /\
    Gemma3VisionAttention_init hidden_dim (el_num_heads L) 0
      (dtype_policies_get global (el_dtype L)) "multi_head_attention"
    = Ok attn /\
    el_name L' = el_name L /\
    el_layer_norm_epsilon L' = el_layer_norm_epsilon L /\
    el_built L' =
      Some {| el_attn := attn;
              el_layer_norm_1 :=
                {| ln_epsilon := el_layer_norm_epsilon L;
                   ln_dtype := dtype_policies_get global (el_dtype L);
                   ln_name := "layer_norm_1" |};
              el_mlp_dense_1 :=
                {| dense_units := el_intermediate_dim L;
                   dense_use_bias := true;
                   dense_kernel_initializer := GlorotUniform;
                   dense_dtype := dtype_policies_get global (el_dtype L);
                   dense_name := "mlp_dense_1" |};
              el_mlp_dense_2 :=
                {| dense_units := hidden_dim;
                   dense_use_bias := true;
                   dense_kernel_initializer := GlorotUniform;
                   dense_dtype := dtype_policies_get global (el_dtype L);
                   dense_name := "mlp_dense_2" |};
              el_layer_norm_2 :=
                {| ln_epsilon := el_layer_norm_epsilon L;
                   ln_dtype := dtype_policies_get global (el_dtype L);
                   ln_name := "layer_norm_2" |} |}.
Proof.
  unfold Gemma3VisionEncoderLayer_build. intros H.
  destruct (Py.index shape (-1)) as [d|] eqn:Ei; cbn [Py.bind] in H;
    [|discriminate].
  destruct d as [h|]; cbn [Py.bind Py.as_int] in H; [|discriminate].
  destruct (Gemma3VisionAttention_init h (el_num_heads L) 0
              (dtype_policies_get global (el_dtype L)) "multi_head_attention")
    as [attn|] eqn:Ea; cbn [Py.bind] in H; [|discriminate].
  inversion H; subst; clear H. exists h, attn. cbn.
  repeat split; first [reflexivity | assumption].
Qed.

Lemma attention_init_dropout hidden_dim num_heads dropout dtype name L :
  Gemma3VisionAttention_init hidden_dim num_heads dropout dtype name = Ok L ->
  at_dropout L = dropout.
Proof.
  unfold Gemma3VisionAttention_init. intros H.
  destruct (Py.floordiv hidden_dim num_heads) as [q|]; cbn [Py.bind] in H;
    [|discriminate].
  destruct (negb (q * num_heads =? hidden_dim)); [discriminate|].
  destruct (q =? 0); [discriminate|].
  inversion H. reflexivity.
Qed.

Lemma last_dim_of_build_shape (hidden_dim : Z) :
  Py.index [None; None; Some hidden_dim] (-1) = Ok (Some hidden_dim).
Proof. reflexivity. Qed.

Lemma mapM_first_fails {A B : Type} (f : A -> result B) (x : A) (xs : list A)
    (e : Py.error) :
  f x = Raise e -> Py.mapM f (x :: xs) = Raise e.
Proof. intros H. simpl. rewrite H. reflexivity. Qed.

Lemma range_positive (n : Z) :
  0 < n -> exists rest, Py.range n = 0 :: rest.
Proof.
  intros Hn. unfold Py.range.
  destruct (Z.to_nat n) as [|k] eqn:Ek; [lia|].
  simpl. eexists. reflexivity.
Qed.

Lemma range_nonpositive (n : Z) : n <= 0 -> Py.range n = [].
Proof.
  intros Hn. unfold Py.range.
  replace (Z.to_nat n) with 0%nat by lia. reflexivity.
Qed.

Lemma range_length (n : Z) : List.length (Py.range n) = Z.to_nat n.
Proof. unfold Py.range. rewrite length_map, length_seq. reflexivity. Qed.

End ConstructionProperties.

(** X1.  The configuration dictionary of a constructed encoder holds
    the nine arguments the constructor was given, and the model's
    name. *)
Theorem encoder_get_config_returns_arguments
    (global : string)
    (image_size patch_size num_heads hidden_dim num_layers
       intermediate_dim output_dim pool_size : Z)
    (layer_norm_epsilon : Q) (dtype : Dtype) (name : string)
    (e : Gemma3VisionEncoder) :
  Gemma3VisionEncoder_init global image_size patch_size num_heads hidden_dim
    num_layers intermediate_dim output_dim pool_size layer_norm_epsilon
    dtype name = Ok e ->
  exists config,
    Gemma3VisionEncoder_get_config e = Returned config /\
    dict_get config "name" = Some (VStr name) /\
    dict_get config "image_size" = Some (VInt image_size) /\
    dict_get config "patch_size" = Some (VInt patch_size) /\
    dict_get config "num_heads" = Some (VInt num_heads) /\
    dict_get config "hidden_dim" = Some (VInt hidden_dim) /\
    dict_get config "num_layers" = Some (VInt num_layers) /\
    dict_get config "intermediate_dim" = Some (VInt intermediate_dim) /\
    dict_get config "output_dim" = Some (VInt output_dim) /\
    dict_get config "pool_size" = Some (VInt pool_size) /\
    dict_get config "layer_norm_epsilon" = Some (VFloat layer_norm_epsilon).
Proof.
  intros H. apply encoder_init_structure in H.
  destruct H as (_ & _ & _ & _ & _ & _ & Hf).
  destruct Hf as (H1 & H2 & H3 & H4 & H5 & H6 & H7 & H8 & H9 & H10 & _).
  eexists. split; [reflexivity|]. cbn.
  rewrite H1, H2, H3, H4, H5, H6, H7, H8, H9, H10. repeat split.
Qed.

Lemma encoder_get_config_returns_arguments_witness :
  exists e config,
    Gemma3VisionEncoder_init "float32" 28 14 2 4 1 8 6 2
      (1 # 100000) DNone "vit" = Ok e /\
    Gemma3VisionEncoder_get_config e = Returned config /\
    dict_get config "output_dim" = Some (VInt 6) /\
    dict_get config "layer_norm_epsilon" = Some (VFloat (1 # 100000)).
Proof.
  assert (Hb : exists e,
             Gemma3VisionEncoder_init "float32" 28 14 2 4 1 8 6 2
               (1 # 100000) DNone "vit" = Ok e)
    by (eexists; vm_compute; reflexivity).
  destruct Hb as [e He].
  destruct (@encoder_get_config_returns_arguments "float32" 28 14 2 4 1 8 6 2
              (1 # 100000) DNone "vit" e He)
    as (config & Hc & _ & _ & _ & _ & _ & _ & _ & Ho & _ & Heps).
  exists e, config. repeat split; assumption.
Defined.

(** X2.  The [layer_norm_epsilon] given to the encoder reaches the
    normalization of the output projection only: the final
    normalization of the transformer stack and the two normalizations
    of every transformer layer are created with the default [1e-6]. *)
Theorem layer_norm_epsilon_reaches_only_output
    (global : string)
    (image_size patch_size num_heads hidden_dim num_layers
       intermediate_dim output_dim pool_size : Z)
    (layer_norm_epsilon : Q) (dtype : Dtype) (name : string)
    (e : Gemma3VisionEncoder) :
  Gemma3VisionEncoder_init global image_size patch_size num_heads hidden_dim
    num_layers intermediate_dim output_dim pool_size layer_norm_epsilon
    dtype name = Ok e ->
  (exists sub,
     vo_built (enc_vision_output_encoder e) = Some sub /\
     rms_epsilon (vo_vision_soft_embedding_norm sub) = layer_norm_epsilon) /\
  ln_epsilon (eb_encoder_layer_norm (enc_image_encoder e)) =
    default_layer_norm_epsilon /\
  Forall (fun l =>
            exists sub,
              el_built l = Some sub /\
              ln_epsilon (el_layer_norm_1 sub) = default_layer_norm_epsilon /\
              ln_epsilon (el_layer_norm_2 sub) = default_layer_norm_epsilon)
         (eb_resblocks (enc_image_encoder e)).
Proof.
  intros H. apply encoder_init_structure in H.
  destruct H as (Hres & Hln & _ & _ & _ & Hout & _).
  split; [|split].
  - rewrite Hout. eexists. split; reflexivity.
  - rewrite Hln. reflexivity.
  - induction Hres as [|i l idxs ls Hb _ IH]; constructor; [|exact IH].
    apply encoder_layer_build_explicit in Hb.
    destruct Hb as (h & attn & _ & _ & _ & _ & Hsub).
    eexists. split; [exact Hsub|]. split; reflexivity.
Qed.

Lemma layer_norm_epsilon_reaches_only_output_witness :
  exists e sub,
    Gemma3VisionEncoder_init "float32" 28 14 2 4 2 8 6 2
      (1 # 1000) DNone "vit" = Ok e /\
    vo_built (enc_vision_output_encoder e) = Some sub /\
    rms_epsilon (vo_vision_soft_embedding_norm sub) = 1 # 1000 /\
    ln_epsilon (eb_encoder_layer_norm (enc_image_encoder e)) = 1 # 1000000.
Proof.
  assert (Hb : exists e,
             Gemma3VisionEncoder_init "float32" 28 14 2 4 2 8 6 2
               (1 # 1000) DNone "vit" = Ok e)
    by (eexists; vm_compute; reflexivity).
  destruct Hb as [e He].
  destruct (@layer_norm_epsilon_reaches_only_output "float32" 28 14 2 4 2 8 6 2
              (1 # 1000) DNone "vit" e He) as ((sub & Hs & Hr) & Hl & _).
  exists e, sub. repeat split; assumption.
Defined.

(** X3.  A constructed encoder has [num_layers] transformer layers,
    named [encoder_block_0], [encoder_block_1], ... in order; each is
    built, and its attention has [num_heads] heads of
    [hidden_dim // num_heads] features and the dropout rate zero. *)
Theorem resblocks_are_numbered_and_built
    (global : string)
    (image_size patch_size num_heads hidden_dim num_layers
       intermediate_dim output_dim pool_size : Z)
    (layer_norm_epsilon : Q) (dtype : Dtype) (name : string)
    (e : Gemma3VisionEncoder) :
  Gemma3VisionEncoder_init global image_size patch_size num_heads hidden_dim
    num_layers intermediate_dim output_dim pool_size layer_norm_epsilon
    dtype name = Ok e ->
  let resblocks := eb_resblocks (enc_image_encoder e) in
  List.length resblocks = Z.to_nat num_layers /\
  map el_name resblocks =
    map (fun i => ("encoder_block_" ++ Py.str i)%string) (Py.range num_layers) /\
  Forall (fun l =>
            exists sub,
              el_built l = Some sub /\
              at_hidden_dim (el_attn sub) = hidden_dim /\
              at_num_heads (el_attn sub) = num_heads /\
              at_head_dim (el_attn sub) = (hidden_dim / num_heads)%Z /\
              at_dropout (el_attn sub) = 0%Q /\
              dense_units (el_mlp_dense_1 sub) = intermediate_dim /\
              dense_units (el_mlp_dense_2 sub) = hidden_dim)
         resblocks.
Proof.
  intros H resblocks. apply encoder_init_structure in H.
  destruct H as (Hres & _). fold resblocks in Hres.
  split; [|split].
  - rewrite <- (Forall2_length Hres). apply range_length.
  - induction Hres as [|i l idxs ls Hb _ IH]; [reflexivity|].
    simpl. rewrite IH. f_equal.
    apply encoder_layer_build_explicit in Hb.
    destruct Hb as (h & attn & _ & _ & Hn & _). rewrite Hn. reflexivity.
  - induction Hres as [|i l idxs ls Hb _ IH]; constructor; [|exact IH].
    apply encoder_layer_build_explicit in Hb.
    destruct Hb as (h & attn & Hidx & Ha & _ & _ & Hsub).
    rewrite last_dim_of_build_shape in Hidx. inversion Hidx; subst h.
    cbn [el_num_heads Gemma3VisionEncoderLayer_init] in Ha.
    pose proof (attention_init_dropout _ _ _ _ _ Ha) as Hdr.
    apply attention_init_inv in Ha.
    destruct Ha as (_ & Hh & Hn & Hd & _).
    eexists. split; [exact Hsub|]. cbn.
    repeat split; assumption.
Qed.

Lemma resblocks_are_numbered_and_built_witness :
  exists e,
    Gemma3VisionEncoder_init "float32" 28 14 2 4 3 8 6 2
      default_layer_norm_epsilon DNone "vit" = Ok e /\
    List.length (eb_resblocks (enc_image_encoder e)) = 3%nat /\
    map el_name (eb_resblocks (enc_image_encoder e)) =
      ["encoder_block_0"; "encoder_block_1"; "encoder_block_2"]%string.
Proof.
  assert (Hb : exists e,
             Gemma3VisionEncoder_init "float32" 28 14 2 4 3 8 6 2
               default_layer_norm_epsilon DNone "vit" = Ok e)
    by (eexists; vm_compute; reflexivity).
  destruct Hb as [e He].
  destruct (@resblocks_are_numbered_and_built "float32" 28 14 2 4 3 8 6 2
              default_layer_norm_epsilon DNone "vit" e He) as (Hl & Hn & _).
  exists e. split; [exact He|]. split; [exact Hl|]. exact Hn.
Defined.

(** X4.  With at least one transformer layer, the encoder's
    constructor hands on the [ValueError] of the attention layer: for
    positive sizes and a [hidden_dim] that [num_heads] does not divide,
    constructing the encoder raises that error with its message. *)
Theorem encoder_init_indivisible_heads
    (global : string)
    (image_size patch_size num_heads hidden_dim num_layers
       intermediate_dim output_dim pool_size : Z)
    (layer_norm_epsilon : Q) (dtype : Dtype) (name : string) :
  (0 < patch_size <= image_size)%Z -> (0 < num_heads)%Z ->
  (0 < hidden_dim)%Z -> (0 < num_layers)%Z ->
  ~ (num_heads | hidden_dim)%Z ->
  Gemma3VisionEncoder_init global image_size patch_size num_heads hidden_dim
    num_layers intermediate_dim output_dim pool_size layer_norm_epsilon
    dtype name =
  Raise (ValueError (divisibility_message hidden_dim num_heads)).
Proof.
  intros Hp Hn Hh Hl Hdiv.
  assert (Hp0 : patch_size <> 0%Z) by lia.
  assert (Hn0 : num_heads <> 0%Z) by lia.
  unfold Gemma3VisionEncoder_init, Gemma3VisionEncoderBlock_init,
    Gemma3VisionEmbedding_init.
  rewrite (floordiv_ok image_size Hp0). cbn [Py.bind].
  unfold Gemma3VisionEncoderBlock_build. cbn [eb_resblocks eb_hidden_dim].
  destruct (range_positive Hl) as [rest ->]. cbn [map].
  rewrite mapM_first_fails
    with (e := ValueError (divisibility_message hidden_dim num_heads));
    [reflexivity|].
  unfold Gemma3VisionEncoderLayer_build, Gemma3VisionEncoderLayer_init.
  cbn [el_num_heads el_dtype].
  rewrite last_dim_of_build_shape. cbn [Py.bind Py.as_int].
  rewrite attention_init_indivisible; [reflexivity | exact Hn0 |].
  intros E. apply Hdiv. apply (quotient_times_divisor hidden_dim Hn0), E.
Qed.

Lemma encoder_init_indivisible_heads_witness :
  Gemma3VisionEncoder_init "float32" 28 14 3 4 1 8 6 2
    default_layer_norm_epsilon DNone "vit" =
  Raise (ValueError (divisibility_message 4 3)).
Proof.
  apply encoder_init_indivisible_heads.
  - lia.
  - lia.
  - lia.
  - lia.
  - intros [k Hk]. lia.
Defined.

(** X5.  Without transformer layers no attention layer is created, so
    the encoder is constructed whatever [num_heads] is, also when it
    does not divide [hidden_dim]. *)
Theorem encoder_init_without_layers
    (global : string)
    (image_size patch_size num_heads hidden_dim num_layers
       intermediate_dim output_dim pool_size : Z)
    (layer_norm_epsilon : Q) (dtype : Dtype) (name : string) :
  (0 < patch_size <= image_size)%Z ->
  (0 < pool_size <= image_size / patch_size)%Z ->
  (0 < hidden_dim)%Z -> (0 < output_dim)%Z -> (num_layers <= 0)%Z ->
  exists e,
    Gemma3VisionEncoder_init global image_size patch_size num_heads hidden_dim
      num_layers intermediate_dim output_dim pool_size layer_norm_epsilon
      dtype name = Ok e /\
    eb_resblocks (enc_image_encoder e) = [].
Proof.
  intros Hp Hq _ _ Hl.
  assert (Hp0 : patch_size <> 0%Z) by lia.
  assert (Hq0 : pool_size <> 0%Z) by lia.
  unfold Gemma3VisionEncoder_init, Gemma3VisionEncoderBlock_init,
    Gemma3VisionEmbedding_init, Gemma3VisionAveragePooling_init.
  rewrite (floordiv_ok image_size Hp0). cbn [Py.bind].
  unfold Gemma3VisionEncoderBlock_build. cbn [eb_resblocks eb_hidden_dim].
  rewrite (range_nonpositive Hl). cbn [map Py.mapM Py.bind].
  unfold Gemma3VisionEncoderBlock_compute_output_shape.
  cbn [eb_patch_size eb_hidden_dim].
  change (Py.index [None; None; Some image_size; Some image_size; Some 3%Z] 2)
    with (Ok (A:=option Z) (Some image_size)).
  cbn [Py.bind Py.as_int].
  rewrite (floordiv_ok image_size Hp0). cbn [Py.bind].
  rewrite (floordiv_ok (image_size / patch_size) Hq0). cbn [Py.bind].
  unfold Gemma3VisionAveragePooling_compute_output_shape.
  cbn -[Py.floordiv Py.sq Z.div Z.pow Z.mul].
  rewrite floordiv_ok by (unfold Py.sq; apply Z.pow_nonzero; lia).
  cbn [Py.bind]. eexists. split; reflexivity.
Qed.

Lemma encoder_init_without_layers_witness :
  exists e,
    Gemma3VisionEncoder_init "float32" 28 14 3 4 0 8 6 2
      default_layer_norm_epsilon DNone "vit" = Ok e /\
    eb_resblocks (enc_image_encoder e) = [].
Proof.
  apply encoder_init_without_layers.
  - lia.
  - vm_compute. split; [reflexivity | discriminate].
  - lia.
  - lia.
  - lia.
Defined.

(** X6.  A [pool_size] of zero makes the pooling layer's constructor
    divide by zero: for an otherwise valid configuration (positive
    sizes, [num_heads] dividing [hidden_dim], a dtype that Keras
    knows) the transformer stack is constructed and built first, and
    then the encoder's constructor raises [ZeroDivisionError]. *)
Theorem encoder_init_zero_pool_size
    (global : string)
    (image_size patch_size num_heads hidden_dim num_layers
       intermediate_dim output_dim : Z)
    (layer_norm_epsilon : Q) (dtype : Dtype) (name : string) :
  (0 < patch_size <= image_size)%Z ->
  (0 < num_heads)%Z -> (0 < hidden_dim)%Z -> (num_heads | hidden_dim)%Z ->
  (0 < intermediate_dim)%Z -> known_dtype dtype = true ->
  Gemma3VisionEncoder_init global image_size patch_size num_heads hidden_dim
    num_layers intermediate_dim output_dim 0 layer_norm_epsilon dtype name =
  Raise ZeroDivisionError.
Proof.
  intros Hp Hn Hh Hdiv _ _.
  assert (Hp0 : patch_size <> 0%Z) by lia.
  unfold Gemma3VisionEncoder_init, Gemma3VisionEncoderBlock_init,
    Gemma3VisionEmbedding_init, Gemma3VisionAveragePooling_init.
  rewrite (floordiv_ok image_size Hp0). cbn [Py.bind].
  unfold Gemma3VisionEncoderBlock_build. cbn [eb_resblocks eb_hidden_dim].
  match goal with
  | |- context [Py.mapM ?f ?xs] =>
      destruct (@mapM_succeeds _ _ f xs) as [resblocks Hres]
  end.
  { intros l Hl. apply in_map_iff in Hl. destruct Hl as [i [<- _]].
    unfold Gemma3VisionEncoderLayer_build, Gemma3VisionEncoderLayer_init.
    cbn [el_num_heads el_dtype].
    rewrite last_dim_of_build_shape. cbn [Py.bind Py.as_int].
    rewrite attention_init_ok by (try assumption; lia). cbn [Py.bind].
    eexists. reflexivity. }
  rewrite Hres. cbn [Py.bind].
  unfold Gemma3VisionEncoderBlock_compute_output_shape.
  cbn [eb_patch_size eb_hidden_dim].
  change (Py.index [None; None; Some image_size; Some image_size; Some 3%Z] 2)
    with (Ok (A:=option Z) (Some image_size)).
  cbn [Py.bind Py.as_int].
  rewrite (floordiv_ok image_size Hp0). cbn [Py.bind].
  rewrite floordiv_zero. reflexivity.
Qed.

Lemma encoder_init_zero_pool_size_witness :
  Gemma3VisionEncoder_init "float32" 28 14 2 4 1 8 6 0
    default_layer_norm_epsilon DNone "vit" = Raise ZeroDivisionError.
Proof.
  apply encoder_init_zero_pool_size.
  - lia.
  - lia.
  - lia.
  - exists 2%Z. reflexivity.
  - lia.
  - reflexivity.
Defined.

(* ================================================================== *)
(** * More on the attention layer *)
(* ================================================================== *)

Section HeadsRoundTrip.

Local Open Scope R_scope.

Lemma concat_chunks {A : Type} (n k : nat) (l : list A) :
  List.length l = (n * k)%nat -> List.concat (chunks n k l) = l.
Proof.
  revert l. induction n as [|n IH]; intros l Hl; simpl.
  - destruct l; [reflexivity | discriminate].
  - rewrite IH by (rewrite length_skipn; simpl in Hl; lia).
    apply firstn_skipn.
Qed.

Lemma chunks_Forall_length {A : Type} (n k : nat) (l : list A) :
  List.length l = (n * k)%nat ->
  Forall (fun c => List.length c = k) (chunks n k l).
Proof.
  revert l. induction n as [|n IH]; intros l Hl; simpl.
  - constructor.
  - simpl in Hl. constructor.
    + rewrite length_firstn. lia.
    + apply IH. rewrite length_skipn. lia.
Qed.

Lemma chunks_as_heads (H hd : nat) (v : Vec) :
  chunks H hd v = map (fun h => head_of hd h v) (seq 0 H).
Proof.
  rewrite <- (map_nth_seq [] (chunks H hd v) (chunks_length H hd v)).
  apply map_ext_in. intros h Hh. apply in_seq in Hh.
  apply nth_chunks. lia.
Qed.

(** Swapping the head axis back undoes the split into heads. *)
Lemma transpose_split_heads (H hd : nat) (m : Tensor2) :
  transpose2 [] (List.length m) (split_heads H hd m) = map (chunks H hd) m.
Proof.
  unfold transpose2, split_heads.
  transitivity (map (fun i => chunks H hd (nth i m []))
                    (seq 0 (List.length m))).
  - apply map_ext_in. intros i Hi. apply in_seq in Hi.
    rewrite map_map, chunks_as_heads. apply map_ext. intros h.
    rewrite (nth_indep _ [] (head_of hd h []))
      by (rewrite length_map; lia).
    apply (map_nth (head_of hd h)).
  - rewrite <- (map_map (fun i => nth i m []) (chunks H hd)).
    rewrite (map_nth_seq [] m eq_refl). reflexivity.
Qed.

(** [_transpose_for_scores] on any tensor of the right width. *)
Lemma transpose_for_scores_split (L : Gemma3VisionAttention) (t : Tensor3) :
  is_shape3 (dim0 t) (dim1 t)
    (Z.to_nat (at_num_heads L) * Z.to_nat (at_head_dim L)) t = true ->
  transpose_for_scores L t (dim0 t) =
  Ok (map (split_heads (Z.to_nat (at_num_heads L))
             (Z.to_nat (at_head_dim L))) t).
Proof.
  intros Ht. unfold transpose_for_scores.
  rewrite reshape_split_last by exact Ht.
  cbn [Py.bind]. f_equal. unfold transpose_0213.
  rewrite map_map. apply map_ext. intros m. apply transpose_chunks.
Qed.

Lemma split_heads_shape (H hd s : nat) (m : Tensor2) :
  is_shape2 s (H * hd) m = true ->
  is_shape3 H s hd (split_heads H hd m) = true.
Proof.
  intros Hm. apply is_shape2_spec in Hm. destruct Hm as [Hs Hv].
  apply is_shape3_spec. unfold split_heads.
  rewrite length_map, length_seq. split; [reflexivity|].
  apply Forall_map, Forall_forall. intros h Hh. apply in_seq in Hh.
  apply is_shape2_spec. rewrite length_map. split; [exact Hs|].
  apply Forall_map. eapply Forall_impl; [|exact Hv].
  intros v Hlen. apply head_of_length with (H := H); [exact Hlen | lia].
Qed.

End HeadsRoundTrip.

(** X7.  Splitting a tensor of shape [(N, seq, hidden_dim)] into heads
    succeeds and gives a tensor of shape
    [(N, num_heads, seq, head_dim)]; swapping the two middle axes back
    and reshaping to [(N, seq, hidden_dim)], as the end of [call]
    does, returns the tensor one started from. *)
Theorem heads_split_then_merged
    (hidden_dim num_heads : Z) (dropout : Q) (dtype : Dtype) (name : string)
    (L : Gemma3VisionAttention) (t : Tensor3) :
  Gemma3VisionAttention_init hidden_dim num_heads dropout dtype name = Ok L ->
  (0 < num_heads)%Z -> (0 < hidden_dim)%Z ->
  is_shape3 (dim0 t) (dim1 t) (Z.to_nat hidden_dim) t = true ->
  exists q,
    transpose_for_scores L t (dim0 t) = Ok q /\
    is_shape4 (dim0 t) (Z.to_nat num_heads) (dim1 t)
      (Z.to_nat (hidden_dim / num_heads)) q = true /\
    reshape_4_to_3 (transpose_0213 (dim1 t) q) (dim0 t) (dim1 t)
      (Z.to_nat hidden_dim) = Ok t.
Proof.
  intros Hinit Hn Hh Ht.
  pose proof (attention_dims dropout dtype name Hinit Hn Hh) as Hdims.
  destruct (attention_init_inv _ _ _ _ _ Hinit) as (_ & Hhid & Hnum & Hhd & _).
  rewrite Hhid in Hdims. rewrite <- Hhd, <- Hnum.
  set (H := Z.to_nat (at_num_heads L)) in *.
  set (hd := Z.to_nat (at_head_dim L)) in *.
  rewrite Hdims in Ht |- *.
  exists (map (split_heads H hd) t).
  pose proof Ht as Ht'. apply is_shape3_spec in Ht'. destruct Ht' as [_ Hall].
  rewrite Forall_forall in Hall.
  split; [apply transpose_for_scores_split, Ht|]. split.
  - apply is_shape4_spec. rewrite length_map. split; [reflexivity|].
    apply Forall_map, Forall_forall. intros m Hm.
    apply split_heads_shape, Hall, Hm.
  - assert (Hback : transpose_0213 (dim1 t) (map (split_heads H hd) t) =
                    map (map (chunks H hd)) t).
    { unfold transpose_0213. rewrite map_map. apply map_ext_in.
      intros m Hm. specialize (Hall m Hm). apply is_shape2_spec in Hall.
      destruct Hall as [<- _]. apply transpose_split_heads. }
    rewrite Hback. rewrite reshape_merge_last.
    + f_equal. rewrite map_map. rewrite <- (map_id t) at 2.
      apply map_ext_in. intros m Hm. rewrite map_map.
      rewrite <- (map_id m) at 2. apply map_ext_in. intros v Hv.
      apply concat_chunks.
      specialize (Hall m Hm). apply is_shape2_spec in Hall.
      destruct Hall as [_ Hvs]. rewrite Forall_forall in Hvs. apply Hvs, Hv.
    + apply is_shape4_spec. rewrite length_map. split; [reflexivity|].
      apply Forall_map, Forall_forall. intros m Hm.
      specialize (Hall m Hm). apply is_shape2_spec in Hall.
      destruct Hall as [Hs Hvs].
      apply is_shape3_spec. rewrite length_map. split; [exact Hs|].
      apply Forall_map. eapply Forall_impl; [|exact Hvs].
      intros v Hv. apply is_shape2_spec. rewrite chunks_length.
      split; [reflexivity|]. apply chunks_Forall_length, Hv.
Qed.

Lemma heads_split_then_merged_witness :
  let t := [[[1; 2; 3; 4]; [5; 6; 7; 8]; [9; 10; 11; 12]]]%R in
  exists L q,
    Gemma3VisionAttention_init 4 2 0 DNone "multi_head_attention" = Ok L /\
    transpose_for_scores L t 1 = Ok q /\
    q = [[[[1; 2]; [5; 6]; [9; 10]]; [[3; 4]; [7; 8]; [11; 12]]]]%R /\
    reshape_4_to_3 (transpose_0213 3 q) 1 3 4 = Ok t.
Proof.
  intros t.
  assert (Hb : exists L,
             Gemma3VisionAttention_init 4 2 0 DNone "multi_head_attention"
             = Ok L) by (eexists; vm_compute; reflexivity).
  destruct Hb as [L HL].
  destruct (@heads_split_then_merged 4 2 0 DNone "multi_head_attention" L t HL)
    as (q & Hq & _ & Hback).
  - lia.
  - lia.
  - reflexivity.
  - exists L, q. split; [exact HL|]. split; [exact Hq|]. split; [|exact Hback].
    assert (HL' := HL). vm_compute in HL'. inversion HL'; subst L.
    vm_compute in Hq. inversion Hq. reflexivity.
Defined.

Section AttentionOutputs.

Local Open Scope R_scope.

Lemma spec_probs_shape (hd : nat) (mask : option Tensor4) (n h s : nat)
    (Qn Kn : Tensor2) :
  List.length Qn = s -> List.length Kn = s ->
  is_shape2 s s (spec_probs hd mask n h Qn Kn) = true.
Proof.
  intros HQ HK. apply is_shape2_spec. unfold spec_probs, spec_scores.
  rewrite length_map, mapi_length. split; [exact HQ|].
  apply Forall_map, Forall_mapi. intros i q _. cbv beta.
  rewrite softmax_length, mapi_length. exact HK.
Qed.

(** The probability tensor has one [seq] by [seq] table per image and
    head. *)
Lemma spec_attention_probs_shape
    (L : Gemma3VisionAttention) (W : AttentionW) (d : nat)
    (x : Tensor3) (mask : option Tensor4) (training : bool) (keep : KeepMask) :
  is_shape3 (dim0 x) (dim1 x) d x = true ->
  is_shape4 (dim0 x) (Z.to_nat (at_num_heads L)) (dim1 x) (dim1 x)
    (snd (spec_attention L W x mask training keep)) = true.
Proof.
  intros Hx. unfold spec_attention. cbn [snd].
  rewrite map_mapi. apply is_shape4_spec. rewrite mapi_length.
  split; [reflexivity|].
  apply Forall_mapi. intros n xn Hin. cbv beta.
  unfold spec_attention_image. cbn [snd].
  assert (Hlen : List.length xn = dim1 x).
  { apply is_shape3_spec in Hx. destruct Hx as [_ Hall].
    rewrite Forall_forall in Hall. specialize (Hall xn Hin).
    apply is_shape2_spec in Hall. apply Hall. }
  apply is_shape3_spec. rewrite !length_map, length_seq.
  split; [reflexivity|].
  rewrite map_map. apply Forall_map, Forall_forall. intros h _. cbn [fst].
  apply spec_probs_shape; rewrite length_map; exact Hlen.
Qed.

Lemma exp_le_sum_exp (a : R) (v : Vec) :
  In a v -> exp a <= sum (map exp v).
Proof.
  induction v as [|b v IH]; intros Hin; [destruct Hin|].
  simpl. destruct Hin as [->|Hin].
  - assert (0 <= sum (map exp v)).
    { clear. induction v as [|c v IH]; simpl; [lra|].
      pose proof (exp_pos c). lra. }
    lra.
  - specialize (IH Hin). pose proof (exp_pos b). lra.
Qed.

(** Every entry of a softmax lies between 0 and 1. *)
Lemma softmax_bounds (v : Vec) :
  Forall (fun p => 0 <= p <= 1) (softmax v).
Proof.
  unfold softmax. apply Forall_map, Forall_forall. intros t Ht.
  apply in_map_iff in Ht. destruct Ht as [a [<- Ha]].
  pose proof (exp_pos a) as Hpos.
  pose proof (exp_le_sum_exp a v Ha) as Hle.
  assert (Hs : 0 < sum (map exp v)) by lra.
  split.
  - left. apply Rdiv_lt_0_compat; assumption.
  - apply (Rmult_le_reg_r (sum (map exp v))); [exact Hs|].
    unfold Rdiv. rewrite Rmult_assoc, Rinv_l by lra. lra.
Qed.

Lemma spec_attention_probs_bounds
    (L : Gemma3VisionAttention) (W : AttentionW)
    (x : Tensor3) (mask : option Tensor4) (training : bool) (keep : KeepMask) :
  Forall (Forall (Forall (Forall (fun p => 0 <= p <= 1))))
    (snd (spec_attention L W x mask training keep)).
Proof.
  unfold spec_attention. cbn [snd]. rewrite map_mapi.
  apply Forall_mapi. intros n xn _. cbv beta.
  unfold spec_attention_image. cbn [snd]. rewrite map_map.
  apply Forall_map, Forall_forall. intros h _. cbn [fst].
  unfold spec_probs. apply Forall_map, Forall_forall. intros row _.
  apply softmax_bounds.
Qed.

End AttentionOutputs.

(** X8.  For a constructed attention layer, an input of shape
    [(N, seq, hidden_dim)] and a mask that fits, [call] returns an
    attended output of shape [(N, seq, hidden_dim)] and a probability
    tensor of shape [(N, num_heads, seq, seq)]. *)
Theorem attention_call_shapes
    (hidden_dim num_heads : Z) (dropout : Q) (dtype : Dtype) (name : string)
    (L : Gemma3VisionAttention) (W : AttentionW)
    (x : Tensor3) (mask : option Tensor4) (training : bool) (keep : KeepMask) :
  Gemma3VisionAttention_init hidden_dim num_heads dropout dtype name = Ok L ->
  (0 < num_heads)%Z -> (0 < hidden_dim)%Z ->
  is_shape3 (dim0 x) (dim1 x) (Z.to_nat hidden_dim) x = true ->
  match mask with
  | None => True
  | Some m =>
      mask_fits (dim0 x) (Z.to_nat num_heads) (dim1 x) (dim1 x) m = true
  end ->
  exists out probs,
    Gemma3VisionAttention_call L W x mask training keep = Ok (out, probs) /\
    is_shape3 (dim0 x) (dim1 x) (Z.to_nat hidden_dim) out = true /\
    is_shape4 (dim0 x) (Z.to_nat num_heads) (dim1 x) (dim1 x) probs = true.
Proof.
  intros Hinit Hn Hh Hx Hmask.
  destruct (attention_init_inv _ _ _ _ _ Hinit)
    as (_ & Hhid & Hnum & _ & _ & _ & _ & _ & _ & _ & Ho & _).
  exists (fst (spec_attention L W x mask training keep)),
         (snd (spec_attention L W x mask training keep)).
  split; [|split].
  - rewrite <- surjective_pairing.
    eapply attention_call_spec;
      [exact Hinit | exact Hn | exact Hh | rewrite Hhid; exact Hx
      | rewrite Hnum; exact Hmask].
  - apply spec_attention_output_shape; [|exact Hx].
    rewrite Ho. reflexivity.
  - rewrite <- Hnum. eapply spec_attention_probs_shape, Hx.
Qed.

Lemma attention_call_shapes_witness :
  let W :=
    {| w_query_proj := {| kernel := [[1; 0]; [0; 1]]; bias := [0; 0] |};
       w_key_proj := {| kernel := [[1; 0]; [0; 1]]; bias := [0; 0] |};
       w_value_proj := {| kernel := [[1; 0]; [0; 1]]; bias := [0; 0] |};
       w_out_proj := {| kernel := [[1; 0]; [0; 1]]; bias := [0; 0] |} |}%R in
  let x := [[[1; 2]; [3; 4]; [5; 6]]; [[7; 8]; [9; 10]; [11; 12]]]%R in
  exists L out probs,
    Gemma3VisionAttention_init 2 2 0 DNone "multi_head_attention" = Ok L /\
    Gemma3VisionAttention_call L W x None true (fun _ _ _ _ => false) =
      Ok (out, probs) /\
    is_shape3 2 3 2 out = true /\ is_shape4 2 2 3 3 probs = true.
Proof.
  intros W x.
  assert (Hb : exists L,
             Gemma3VisionAttention_init 2 2 0 DNone "multi_head_attention"
             = Ok L) by (eexists; vm_compute; reflexivity).
  destruct Hb as [L HL].
  destruct (@attention_call_shapes 2 2 0 DNone "multi_head_attention" L W x
              None true (fun _ _ _ _ => false) HL)
    as (out & probs & Hc & Ho & Hp).
  - lia.
  - lia.
  - reflexivity.
  - exact I.
  - exists L, out, probs. repeat split; assumption.
Defined.

(** X9.  Every attention probability that [call] returns lies
    between 0 and 1, both included, with or without a mask and for
    every training flag. *)
Theorem attention_probs_bounds
    (hidden_dim num_heads : Z) (dropout : Q) (dtype : Dtype) (name : string)
    (L : Gemma3VisionAttention) (W : AttentionW)
    (x : Tensor3) (mask : option Tensor4) (training : bool) (keep : KeepMask) :
  Gemma3VisionAttention_init hidden_dim num_heads dropout dtype name = Ok L ->
  (0 < num_heads)%Z -> (0 < hidden_dim)%Z ->
  is_shape3 (dim0 x) (dim1 x) (Z.to_nat hidden_dim) x = true ->
  match mask with
  | None => True
  | Some m =>
      mask_fits (dim0 x) (Z.to_nat num_heads) (dim1 x) (dim1 x) m = true
  end ->
  exists out probs,
    Gemma3VisionAttention_call L W x mask training keep = Ok (out, probs) /\
    Forall (Forall (Forall (Forall (fun p => (0 <= p <= 1)%R)))) probs.
Proof.
  intros Hinit Hn Hh Hx Hmask.
  destruct (attention_init_inv _ _ _ _ _ Hinit) as (_ & Hhid & Hnum & _).
  exists (fst (spec_attention L W x mask training keep)),
         (snd (spec_attention L W x mask training keep)).
  split.
  - rewrite <- surjective_pairing.
    eapply attention_call_spec;
      [exact Hinit | exact Hn | exact Hh | rewrite Hhid; exact Hx
      | rewrite Hnum; exact Hmask].
  - apply spec_attention_probs_bounds.
Qed.

Lemma attention_probs_bounds_witness :
  let W :=
    {| w_query_proj := {| kernel := [[1; 0]; [0; 1]]; bias := [0; 0] |};
       w_key_proj := {| kernel := [[1; 0]; [0; 1]]; bias := [0; 0] |};
       w_value_proj := {| kernel := [[1; 0]; [0; 1]]; bias := [0; 0] |};
       w_out_proj := {| kernel := [[1; 0]; [0; 1]]; bias := [0; 0] |} |}%R in
  let x := [[[1; 2]; [3; 4]]]%R in
  let m := [[[[0; -1000]; [0; -1000]]]]%R in
  exists L out probs,
    Gemma3VisionAttention_init 2 1 0 DNone "multi_head_attention" = Ok L /\
    Gemma3VisionAttention_call L W x (Some m) false (fun _ _ _ _ => true) =
      Ok (out, probs) /\
    Forall (Forall (Forall (Forall (fun p => (0 <= p <= 1)%R)))) probs.
Proof.
  intros W x m.
  assert (Hb : exists L,
             Gemma3VisionAttention_init 2 1 0 DNone "multi_head_attention"
             = Ok L) by (eexists; vm_compute; reflexivity).
  destruct Hb as [L HL].
  destruct (@attention_probs_bounds 2 1 0 DNone "multi_head_attention" L W x
              (Some m) false (fun _ _ _ _ => true) HL)
    as (out & probs & Hc & Hp).
  - lia.
  - lia.
  - reflexivity.
  - reflexivity.
  - exists L, out, probs. repeat split; assumption.
Defined.

Section BatchIndependence.

Local Open Scope R_scope.

(** Without a mask and outside training mode, the attention of one
    image does not depend on its position in the batch. *)
Lemma spec_attention_image_position
    (L : Gemma3VisionAttention) (W : AttentionW) (keep : KeepMask)
    (n : nat) (xn : Tensor2) :
  spec_attention_image L W None false keep n xn =
  spec_attention_image L W None false keep 0 xn.
Proof. reflexivity. Qed.

Lemma spec_attention_batchwise
    (L : Gemma3VisionAttention) (W : AttentionW) (keep : KeepMask)
    (x : Tensor3) :
  spec_attention L W x None false keep =
  (map (fun xn => fst (spec_attention_image L W None false keep 0 xn)) x,
   map (fun xn => snd (spec_attention_image L W None false keep 0 xn)) x).
Proof.
  unfold spec_attention.
  rewrite (@mapi_eq_map _ _ (spec_attention_image L W None false keep)
             (spec_attention_image L W None false keep 0))
    by (intros i a _; apply spec_attention_image_position).
  rewrite !map_map. reflexivity.
Qed.

Lemma is_shape3_app (n1 n2 s d : nat) (x1 x2 : Tensor3) :
  is_shape3 n1 s d x1 = true -> is_shape3 n2 s d x2 = true ->
  is_shape3 (n1 + n2) s d (x1 ++ x2) = true.
Proof.
  intros H1 H2. apply is_shape3_spec in H1, H2.
  destruct H1 as [<- H1], H2 as [<- H2].
  apply is_shape3_spec. rewrite length_app. split; [reflexivity|].
  apply Forall_app. split; assumption.
Qed.

Lemma dim1_app {A : Type} (x1 x2 : list (list A)) :
  x1 <> [] -> dim1 (x1 ++ x2) = dim1 x1.
Proof. destruct x1; [contradiction | reflexivity]. Qed.

(** With the dropout rate zero the training flag and the dropout
    draws are irrelevant. *)
Lemma spec_attention_zero_rate
    (L : Gemma3VisionAttention) (W : AttentionW)
    (x : Tensor3) (mask : option Tensor4)
    (t t' : bool) (k k' : KeepMask) :
  (dropout_rate (at_dropout_layer L) <= 0)%Q ->
  spec_attention L W x mask t k = spec_attention L W x mask t' k'.
Proof.
  intros Hr. unfold spec_attention.
  assert (He : mapi (spec_attention_image L W mask t k) x =
               mapi (spec_attention_image L W mask t' k') x).
  { apply mapi_ext_in. intros n xn _ _. unfold spec_attention_image.
    cbv zeta.
    lazymatch goal with
    | |- (_, map fst ?h1) = (_, map fst ?h2) => assert (Heads : h1 = h2)
    end.
    { apply map_ext. intros h.
      rewrite !spec_dropout_zero_rate by exact Hr. reflexivity. }
    rewrite Heads. reflexivity. }
  rewrite He. reflexivity.
Qed.

End BatchIndependence.

(** X11.  Without a mask and outside training mode the images of a
    batch do not influence each other: the result on the batch
    [x1 ++ x2] is the result on [x1] followed by the result on [x2],
    for the attended output and for the probabilities. *)
Theorem attention_images_are_independent
    (hidden_dim num_heads : Z) (dropout : Q) (dtype : Dtype) (name : string)
    (L : Gemma3VisionAttention) (W : AttentionW)
    (x1 x2 : Tensor3) (keep : KeepMask) :
  Gemma3VisionAttention_init hidden_dim num_heads dropout dtype name = Ok L ->
  (0 < num_heads)%Z -> (0 < hidden_dim)%Z ->
  x1 <> [] -> dim1 x2 = dim1 x1 ->
  is_shape3 (dim0 x1) (dim1 x1) (Z.to_nat hidden_dim) x1 = true ->
  is_shape3 (dim0 x2) (dim1 x2) (Z.to_nat hidden_dim) x2 = true ->
  exists o1 p1 o2 p2,
    Gemma3VisionAttention_call L W x1 None false keep = Ok (o1, p1) /\
    Gemma3VisionAttention_call L W x2 None false keep = Ok (o2, p2) /\
    Gemma3VisionAttention_call L W (x1 ++ x2) None false keep =
      Ok (o1 ++ o2, p1 ++ p2)%list.
Proof.
  intros Hinit Hn Hh Hne Hd H1 H2.
  destruct (attention_init_inv _ _ _ _ _ Hinit) as (_ & Hhid & _).
  assert (Hcall : forall x,
             is_shape3 (dim0 x) (dim1 x) (Z.to_nat hidden_dim) x = true ->
             Gemma3VisionAttention_call L W x None false keep =
             Ok (spec_attention L W x None false keep)).
  { intros x Hx.
    eapply attention_call_spec;
      [exact Hinit | exact Hn | exact Hh | rewrite Hhid; exact Hx | exact I]. }
  do 4 eexists.
  split; [rewrite (Hcall x1 H1), spec_attention_batchwise; reflexivity|].
  split; [rewrite (Hcall x2 H2), spec_attention_batchwise; reflexivity|].
  rewrite Hcall.
  - rewrite spec_attention_batchwise, !map_app. reflexivity.
  - rewrite (dim1_app x2 Hne). unfold dim0. rewrite length_app.
    apply is_shape3_app; [exact H1|]. rewrite <- Hd. exact H2.
Qed.

Lemma attention_images_are_independent_witness :
  let W :=
    {| w_query_proj := {| kernel := [[1; 0]; [0; 1]]; bias := [0; 0] |};
       w_key_proj := {| kernel := [[1; 0]; [0; 1]]; bias := [0; 0] |};
       w_value_proj := {| kernel := [[1; 0]; [0; 1]]; bias := [0; 0] |};
       w_out_proj := {| kernel := [[1; 0]; [0; 1]]; bias := [0; 0] |} |}%R in
  let x1 := [[[1; 2]; [3; 4]]]%R in
  let x2 := [[[5; 6]; [7; 8]]; [[9; 10]; [11; 12]]]%R in
  exists L o1 p1 o2 p2,
    Gemma3VisionAttention_init 2 2 0 DNone "multi_head_attention" = Ok L /\
    Gemma3VisionAttention_call L W x1 None false (fun _ _ _ _ => true)
      = Ok (o1, p1) /\
    Gemma3VisionAttention_call L W x2 None false (fun _ _ _ _ => true)
      = Ok (o2, p2) /\
    Gemma3VisionAttention_call L W (x1 ++ x2) None false (fun _ _ _ _ => true)
      = Ok (o1 ++ o2, p1 ++ p2)%list.
Proof.
  intros W x1 x2.
  assert (Hb : exists L,
             Gemma3VisionAttention_init 2 2 0 DNone "multi_head_attention"
             = Ok L) by (eexists; vm_compute; reflexivity).
  destruct Hb as [L HL].
  destruct (@attention_images_are_independent 2 2 0 DNone
              "multi_head_attention" L W x1 x2 (fun _ _ _ _ => true) HL)
    as (o1 & p1 & o2 & p2 & H1 & H2 & H12).
  - lia.
  - lia.
  - discriminate.
  - reflexivity.
  - reflexivity.
  - reflexivity.
  - exists L, o1, p1, o2, p2. repeat split; assumption.
Defined.

(** X12.  The attention layer of an encoder layer is created with the
    default dropout rate zero, so an encoder layer never drops
    anything: for a built layer, a well-shaped input and a mask that
    fits, [call] returns the same tensor for every training flag and
    every outcome of the dropout draws. *)
Theorem encoder_layer_ignores_training
    (global : string) (L0 L : Gemma3VisionEncoderLayer) (hidden_dim : Z)
    (W : EncoderLayerW) (x : Tensor3) (mask : option Tensor4)
    (training training' : bool) (keep keep' : KeepMask) :
  Gemma3VisionEncoderLayer_build global L0 [None; None; Some hidden_dim] = Ok L ->
  (0 < el_num_heads L0)%Z -> (0 < hidden_dim)%Z ->
  is_shape3 (dim0 x) (dim1 x) (Z.to_nat hidden_dim) x = true ->
  match mask with
  | None => True
  | Some m =>
      mask_fits (dim0 x) (Z.to_nat (el_num_heads L0)) (dim1 x) (dim1 x) m
      = true
  end ->
  exists y,
    Gemma3VisionEncoderLayer_call L W x mask training keep = Ok y /\
    Gemma3VisionEncoderLayer_call L W x mask training' keep' = Ok y.
Proof.
  intros Hbuild Hheads Hhidden Hx Hmask.
  destruct (@encoder_layer_call_spec global L0 L hidden_dim W Hbuild Hheads
              Hhidden x Hx mask training keep Hmask) as (sub & Hsub & Hc).
  destruct (@encoder_layer_call_spec global L0 L hidden_dim W Hbuild Hheads
              Hhidden x Hx mask training' keep' Hmask) as (sub' & Hsub' & Hc').
  rewrite Hsub in Hsub'. inversion Hsub'; subst sub'. clear Hsub'.
  destruct (@built_sublayers global L0 L hidden_dim Hbuild)
    as (sub'' & Hsub'' & Hattn & _).
  rewrite Hsub in Hsub''. inversion Hsub''; subst sub''. clear Hsub''.
  destruct (attention_init_inv _ _ _ _ _ Hattn)
    as (_ & _ & _ & _ & _ & _ & Hdr & _).
  eexists. split; [exact Hc|]. rewrite Hc'. f_equal.
  unfold spec_encoder_layer.
  rewrite (@spec_attention_zero_rate (el_attn sub) (w_attn W) _ mask
             training' training keep' keep); [reflexivity|].
  rewrite Hdr. cbn. apply Qle_refl.
Qed.

Lemma encoder_layer_ignores_training_witness :
  let dense2 := {| kernel := [[1; 0]; [0; 1]]; bias := [0; 0] |}%R in
  let norm := {| gamma := [1; 1]; beta := [0; 0] |}%R in
  let W :=
    {| w_attn :=
         {| w_query_proj := dense2; w_key_proj := dense2;
            w_value_proj := dense2; w_out_proj := dense2 |};
       w_layer_norm_1 := norm;
       w_mlp_dense_1 :=
         {| kernel := [[1; 0; 1]; [0; 1; 1]]; bias := [0; 0; 0] |}%R;
       w_mlp_dense_2 :=
         {| kernel := [[1; 0]; [0; 1]; [1; 1]]; bias := [0; 0] |}%R;
       w_layer_norm_2 := norm |} in
  let x := [[[1; 2]; [3; 4]]]%R in
  let L0 :=
    Gemma3VisionEncoderLayer_init 2 3 default_layer_norm_epsilon DNone
      "encoder_block_0" in
  exists L y,
    Gemma3VisionEncoderLayer_build "float32" L0 [None; None; Some 2%Z] = Ok L /\
    Gemma3VisionEncoderLayer_call L W x None true (fun _ _ _ _ => false)
      = Ok y /\
    Gemma3VisionEncoderLayer_call L W x None false (fun _ _ _ _ => true)
      = Ok y.
Proof.
  intros dense2 norm W x L0.
  assert (Hb : exists L,
             Gemma3VisionEncoderLayer_build "float32" L0 [None; None; Some 2%Z]
             = Ok L) by (eexists; vm_compute; reflexivity).
  destruct Hb as [L HL].
  destruct (@encoder_layer_ignores_training "float32" L0 L 2 W x None
              true false (fun _ _ _ _ => false) (fun _ _ _ _ => true) HL)
    as (y & H1 & H2).
  - reflexivity.
  - lia.
  - reflexivity.
  - exact I.
  - exists L, y. repeat split; assumption.
Defined.

(* ================================================================== *)
(** * Reshaping in general *)
(* ================================================================== *)

Section ReshapeFacts.

Lemma unflatten3_shape (n a d : nat) (data : list R) :
  List.length data = (n * (a * d))%nat ->
  is_shape3 n a d (unflatten3 n a d data) = true.
Proof.
  intros Hlen. apply is_shape3_spec. unfold unflatten3.
  rewrite length_map, chunks_length. split; [reflexivity|].
  apply Forall_map.
  eapply Forall_impl; [|apply chunks_Forall_length, Hlen].
  intros block Hb. cbv beta in *. apply is_shape2_spec.
  rewrite chunks_length. split; [reflexivity|].
  apply chunks_Forall_length, Hb.
Qed.

Lemma unflatten4_shape (n a b d : nat) (data : list R) :
  List.length data = (n * (a * (b * d)))%nat ->
  is_shape4 n a b d (unflatten4 n a b d data) = true.
Proof.
  intros Hlen. apply is_shape4_spec. unfold unflatten4.
  rewrite length_map, chunks_length. split; [reflexivity|].
  apply Forall_map.
  eapply Forall_impl; [|apply chunks_Forall_length, Hlen].
  intros block Hb. cbv beta in *. apply unflatten3_shape, Hb.
Qed.

Lemma flatten4_length (n a b d : nat) (t : Tensor4) :
  is_shape4 n a b d t = true ->
  List.length (flatten4 t) = (n * (a * (b * d)))%nat.
Proof.
  intros H. apply is_shape4_spec in H. destruct H as [<- H].
  unfold flatten4.
  rewrite (@length_concat_uniform _ (a * (b * d))%nat), length_map;
    [reflexivity|].
  apply Forall_map. eapply Forall_impl; [|exact H].
  intros m Hm. apply flatten3_length, Hm.
Qed.

(** A rank-4 tensor can be regrouped into any rank-3 shape with the
    same number of entries. *)
Lemma reshape_4_to_3_shape (n a b c m d : nat) (t : Tensor4) :
  is_shape4 n a b c t = true -> (a * (b * c) = m * d)%nat ->
  exists y, reshape_4_to_3 t n m d = Ok y /\ is_shape3 n m d y = true.
Proof.
  intros Ht Heq. unfold reshape_4_to_3.
  rewrite (flatten4_length _ _ _ _ _ Ht), Heq, Nat.eqb_refl.
  eexists. split; [reflexivity|].
  apply unflatten3_shape. rewrite (flatten4_length _ _ _ _ _ Ht), Heq.
  reflexivity.
Qed.

Lemma reshape_3_to_4_shape (n s d a b c : nat) (t : Tensor3) :
  is_shape3 n s d t = true -> (s * d = a * (b * c))%nat ->
  exists y, reshape_3_to_4 t n a b c = Ok y /\ is_shape4 n a b c y = true /\
            flatten4 y = flatten3 t.
Proof.
  intros Ht Heq. unfold reshape_3_to_4.
  rewrite (flatten3_length _ _ _ _ Ht), Heq, Nat.eqb_refl.
  eexists. split; [reflexivity|]. split.
  - apply unflatten4_shape. rewrite (flatten3_length _ _ _ _ Ht), Heq.
    reflexivity.
  - assert (Hlen : List.length (flatten3 t) = (n * (a * (b * c)))%nat)
      by (rewrite (flatten3_length _ _ _ _ Ht), Heq; reflexivity).
    generalize dependent (flatten3 t). intros data Hlen.
    unfold flatten4, unflatten4. rewrite map_map.
    transitivity (List.concat (chunks n (a * (b * c)) data));
      [|apply concat_chunks, Hlen].
    f_equal. rewrite <- (map_id (chunks n (a * (b * c)) data)) at 2.
    apply map_ext_in. intros blk Hblk.
    pose proof (chunks_Forall_length n (a * (b * c)) data Hlen) as Hall.
    rewrite Forall_forall in Hall. specialize (Hall blk Hblk).
    unfold flatten3, unflatten3. rewrite map_map.
    transitivity (List.concat (chunks a (b * c) blk));
      [|apply concat_chunks, Hall].
    f_equal. rewrite <- (map_id (chunks a (b * c) blk)) at 2.
    apply map_ext_in. intros row Hrow.
    pose proof (chunks_Forall_length a (b * c) blk Hall) as Hall2.
    rewrite Forall_forall in Hall2. specialize (Hall2 row Hrow).
    unfold flatten2. apply concat_chunks, Hall2.
Qed.

Lemma is_shape5_spec (n a b c d : nat) (t : Tensor5) :
  is_shape5 n a b c d t = true <->
  List.length t = n /\ Forall (fun m => is_shape4 a b c d m = true) t.
Proof.
  unfold is_shape5. rewrite andb_true_iff, Nat.eqb_eq, forallb_forall,
    Forall_forall. reflexivity.
Qed.

Lemma unflatten_flatten4 (n a b d : nat) (t : Tensor4) :
  is_shape4 n a b d t = true -> unflatten4 n a b d (flatten4 t) = t.
Proof.
  intros H. apply is_shape4_spec in H. destruct H as [<- H].
  unfold unflatten4, flatten4.
  rewrite <- (length_map flatten3 t), chunks_concat.
  - rewrite map_map. rewrite <- (map_id t) at 2.
    apply map_ext_in. intros m Hm. apply unflatten_flatten3.
    rewrite Forall_forall in H. apply H, Hm.
  - apply Forall_map. eapply Forall_impl; [|exact H].
    intros m Hm. apply flatten3_length, Hm.
Qed.

Lemma concat_concat_map {A : Type} (l : list (list (list A))) :
  List.concat (List.concat l) = List.concat (map (@List.concat A) l).
Proof.
  induction l as [|x l IH]; simpl.
  - reflexivity.
  - rewrite concat_app, IH. reflexivity.
Qed.

Lemma concat_shape4 (B T a b c : nat) (t : Tensor5) :
  is_shape5 B T a b c t = true ->
  is_shape4 (B * T) a b c (List.concat t) = true.
Proof.
  intros H. apply is_shape5_spec in H. destruct H as [<- H].
  apply is_shape4_spec. split.
  - apply length_concat_uniform. eapply Forall_impl; [|exact H].
    intros m Hm. apply is_shape4_spec in Hm. apply Hm.
  - apply Forall_concat. eapply Forall_impl; [|exact H].
    intros m Hm. apply is_shape4_spec in Hm. apply Hm.
Qed.

(** Collapsing the two leading axes of a rank-5 tensor puts the
    images of all examples one after the other. *)
Lemma reshape_5_to_4_collapse (B T a b c : nat) (t : Tensor5) :
  is_shape5 B T a b c t = true ->
  reshape_5_to_4 t (B * T) a b c = Ok (List.concat t).
Proof.
  intros H. pose proof (concat_shape4 _ _ _ _ _ _ H) as Hc.
  assert (Hflat : flatten5 t = flatten4 (List.concat t)).
  { unfold flatten5. unfold flatten4 at 2.
    rewrite concat_map, concat_concat_map, map_map. reflexivity. }
  unfold reshape_5_to_4. rewrite Hflat.
  rewrite (flatten4_length _ _ _ _ _ Hc), Nat.eqb_refl.
  f_equal. apply unflatten_flatten4, Hc.
Qed.

End ReshapeFacts.

(* ================================================================== *)
(** * Patch and position embedding *)
(* ================================================================== *)

Section EmbeddingFacts.

Local Open Scope R_scope.

Lemma dims_of_shape4 (n a b c : nat) (x : Tensor4) :
  is_shape4 n a b c x = true -> (0 < n)%nat -> (0 < a)%nat -> (0 < b)%nat ->
  dim0 x = n /\ dim1 x = a /\ dim2 x = b /\ dim3 x = c.
Proof.
  intros H Hn Ha Hb. apply is_shape4_spec in H. destruct H as [H0 H].
  destruct x as [|m x]; [simpl in H0; lia|].
  inversion H as [|? ? Hm _]; subst.
  apply is_shape3_spec in Hm. destruct Hm as [H1 Hm].
  destruct m as [|r m]; [simpl in H1; lia|].
  inversion Hm as [|? ? Hr _]; subst.
  apply is_shape2_spec in Hr. destruct Hr as [H2 Hr].
  destruct r as [|v r]; [simpl in H2; lia|].
  inversion Hr as [|? ? Hv _]; subst.
  unfold dim0, dim3, dim2, dim1. simpl. repeat split; reflexivity.
Qed.

Lemma dims_of_shape3 (n a b : nat) (x : Tensor3) :
  is_shape3 n a b x = true -> (0 < n)%nat -> (0 < a)%nat ->
  dim0 x = n /\ dim1 x = a /\ dim2 x = b.
Proof.
  intros H Hn Ha. apply is_shape3_spec in H. destruct H as [H0 H].
  destruct x as [|m x]; [simpl in H0; lia|].
  inversion H as [|? ? Hm _]; subst.
  apply is_shape2_spec in Hm. destruct Hm as [H1 Hm].
  destruct m as [|r m]; [simpl in H1; lia|].
  inversion Hm as [|? ? Hr _]; subst.
  unfold dim0, dim2, dim1. simpl. repeat split; reflexivity.
Qed.

(** With the stride equal to the window, the windows tile the side. *)
Lemma windows_tiling (size k : nat) :
  (0 < k)%nat -> (k <= size)%nat -> windows size k k = (size / k)%nat.
Proof.
  intros Hk Hle. unfold windows.
  replace size with (1 * k + (size - k))%nat at 2 by lia.
  rewrite Nat.div_add_l by lia. lia.
Qed.

Lemma Conv2D_call_image_shape (l : Conv2D) (w : Conv2DW)
    (oh ow c : nat) (img : Tensor3) :
  is_shape3 oh ow (Z.to_nat (conv_filters l))
    (Conv2D_call_image l w oh ow c img) = true.
Proof.
  unfold Conv2D_call_image. apply is_shape3_spec.
  rewrite length_map, length_seq. split; [reflexivity|].
  apply Forall_map, Forall_forall. intros i _.
  apply is_shape2_spec. rewrite length_map, length_seq.
  split; [reflexivity|].
  apply Forall_map, Forall_forall. intros j _.
  rewrite length_map, length_seq. reflexivity.
Qed.

(** The convolution yields one feature vector per window. *)
Lemma Conv2D_call_shape (l : Conv2D) (w : Conv2DW)
    (n h wd c : nat) (x : Tensor4) :
  let k := Z.to_nat (conv_kernel_size l) in
  let s := Z.to_nat (conv_strides l) in
  is_shape4 n h wd c x = true -> (0 < n)%nat ->
  (0 < k)%nat -> (0 < s)%nat -> (k <= h)%nat -> (k <= wd)%nat ->
  dim2 (conv_kernel w) = c ->
  exists y,
    Conv2D_call l w x = Ok y /\
    is_shape4 n (windows h k s) (windows wd k s)
      (Z.to_nat (conv_filters l)) y = true.
Proof.
  intros k s Hx Hn Hk Hs Hh Hw Hc.
  destruct (@dims_of_shape4 _ _ _ _ _ Hx) as (H0 & H1 & H2 & H3);
    [lia | lia | lia |].
  unfold Conv2D_call. fold k s. rewrite H1, H2, H3, Hc, Nat.eqb_refl.
  replace (Nat.eqb k 0) with false by (symmetry; apply Nat.eqb_neq; lia).
  replace (Nat.eqb s 0) with false by (symmetry; apply Nat.eqb_neq; lia).
  replace (Nat.ltb h k) with false by (symmetry; apply Nat.ltb_ge; lia).
  replace (Nat.ltb wd k) with false by (symmetry; apply Nat.ltb_ge; lia).
  cbn [orb negb]. eexists. split; [reflexivity|].
  apply is_shape4_spec. rewrite length_map. split.
  - apply is_shape4_spec in Hx. apply Hx.
  - apply Forall_map, Forall_forall. intros img _.
    apply Conv2D_call_image_shape.
Qed.

Lemma add2_shape (s d : nat) (a b : Tensor2) :
  is_shape2 s d a = true -> is_shape2 s d b = true ->
  is_shape2 s d (map2 (map2 Rplus) a b) = true.
Proof.
  intros Ha Hb. apply is_shape2_spec in Ha, Hb.
  destruct Ha as [Hsa Ha], Hb as [Hsb Hb].
  apply is_shape2_spec. rewrite map2_length, Hsa, Hsb.
  split; [apply Nat.min_id|].
  eapply Forall_map2; [|exact Ha|exact Hb]. cbv beta. intros u v Hu Hv.
  rewrite map2_length, Hu, Hv. apply Nat.min_id.
Qed.

(** Looking up the positions [0 .. n-1] returns the whole table. *)
Lemma Embedding_call_range (table : Tensor2) (n : Z) :
  List.length table = Z.to_nat n ->
  Embedding_call table [Py.range n] = [table].
Proof.
  intros Hlen. unfold Embedding_call, Py.range. cbn [map].
  rewrite map_map. f_equal.
  transitivity (map (fun i => nth i table []) (seq 0 (Z.to_nat n))).
  - apply map_ext. intros i. rewrite Nat2Z.id. reflexivity.
  - apply map_nth_seq. exact Hlen.
Qed.

Lemma embedding_init_inv image_size patch_size hidden_dim dtype name L :
  Gemma3VisionEmbedding_init image_size patch_size hidden_dim dtype name
  = Ok L ->
  patch_size <> 0%Z /\
  ve_hidden_dim L = hidden_dim /\ ve_image_size L = image_size /\
  ve_patch_size L = patch_size /\ ve_num_channels L = 3%Z /\
  ve_num_patches L = Py.sq (image_size / patch_size) /\
  ve_num_positions L = Py.sq (image_size / patch_size) /\
  conv_kernel_size (ve_patch_embedding L) = patch_size /\
  conv_strides (ve_patch_embedding L) = patch_size /\
  conv_filters (ve_patch_embedding L) = hidden_dim /\
  ve_position_ids L = [Py.range (Py.sq (image_size / patch_size))].
Proof.
  unfold Gemma3VisionEmbedding_init. intros H.
  destruct (Py.floordiv image_size patch_size) as [w|] eqn:Ew;
    cbn [Py.bind] in H; [|discriminate].
  apply floordiv_inv in Ew. destruct Ew as [Hp ->].
  inversion H; subst; clear H. cbn. repeat split; assumption.
Qed.

Lemma to_nat_sq_quotient (image_size patch_size : Z) :
  (0 < patch_size <= image_size)%Z ->
  Z.to_nat (Py.sq (image_size / patch_size)) =
  (Z.to_nat image_size / Z.to_nat patch_size *
   (Z.to_nat image_size / Z.to_nat patch_size))%nat.
Proof.
  intros Hp. unfold Py.sq. rewrite Z.pow_2_r.
  assert (0 <= image_size / patch_size)%Z by (apply Z.div_pos; lia).
  rewrite Z2Nat.inj_mul by assumption.
  rewrite Z2Nat.inj_div by lia. reflexivity.
Qed.

End EmbeddingFacts.

(* ================================================================== *)
(** * The stack of transformer layers *)
(* ================================================================== *)

Section StackFacts.

Local Open Scope R_scope.

(** One built layer keeps the shape of a non-empty batch. *)
Lemma encoder_layer_call_shape
    (global : string) (L0 L : Gemma3VisionEncoderLayer) (hidden_dim : Z)
    (W : EncoderLayerW) (n s : nat) (x : Tensor3) (mask : option Tensor4)
    (training : bool) (keep : KeepMask) :
  Gemma3VisionEncoderLayer_build global L0 [None; None; Some hidden_dim]
  = Ok L ->
  (0 < el_num_heads L0)%Z -> (0 < hidden_dim)%Z ->
  (0 < n)%nat -> (0 < s)%nat ->
  is_shape3 n s (Z.to_nat hidden_dim) x = true ->
  match mask with
  | None => True
  | Some m => mask_fits n (Z.to_nat (el_num_heads L0)) s s m = true
  end ->
  exists y,
    Gemma3VisionEncoderLayer_call L W x mask training keep = Ok y /\
    is_shape3 n s (Z.to_nat hidden_dim) y = true.
Proof.
  intros Hbuild Hheads Hhidden Hn Hs Hx Hmask.
  destruct (@dims_of_shape3 _ _ _ _ Hx Hn Hs) as (H0 & H1 & _).
  assert (Hx' : is_shape3 (dim0 x) (dim1 x) (Z.to_nat hidden_dim) x = true)
    by (rewrite H0, H1; exact Hx).
  assert (Hmask' :
            match mask with
            | None => True
            | Some m =>
                mask_fits (dim0 x) (Z.to_nat (el_num_heads L0)) (dim1 x)
                  (dim1 x) m = true
            end)
    by (rewrite H0, H1; exact Hmask).
  destruct (@encoder_layer_call_spec global L0 L hidden_dim W Hbuild Hheads
              Hhidden x Hx' mask training keep Hmask') as (sub & Hsub & Hcall).
  eexists. split; [exact Hcall|].
  rewrite <- H0 at 1. rewrite <- H1 at 1.
  eapply spec_encoder_layer_shape; eassumption.
Qed.

(** The loop over the layers keeps the shape, however many layers
    there are. *)
Lemma resblocks_call_shape
    (global : string) (hidden_dim num_heads : Z) (n s : nat)
    (mask : option Tensor4) (training : bool) (keep : KeepMask) :
  (0 < num_heads)%Z -> (0 < hidden_dim)%Z -> (0 < n)%nat -> (0 < s)%nat ->
  match mask with
  | None => True
  | Some m => mask_fits n (Z.to_nat num_heads) s s m = true
  end ->
  forall (blocks : list Gemma3VisionEncoderLayer) (ws : list EncoderLayerW)
         (x : Tensor3),
  Forall (fun L => exists L0,
            el_num_heads L0 = num_heads /\
            Gemma3VisionEncoderLayer_build global L0
              [None; None; Some hidden_dim] = Ok L) blocks ->
  List.length ws = List.length blocks ->
  is_shape3 n s (Z.to_nat hidden_dim) x = true ->
  exists y,
    resblocks_call blocks ws x mask training keep = Ok y /\
    is_shape3 n s (Z.to_nat hidden_dim) y = true.
Proof.
  intros Hheads Hhidden Hn Hs Hmask blocks.
  induction blocks as [|L blocks IH]; intros ws x Hall Hlen Hx.
  - destruct ws; [|discriminate]. exists x. split; [reflexivity|exact Hx].
  - destruct ws as [|W ws]; [discriminate|].
    inversion Hall as [|? ? (L0 & Hnum & Hbuild) Hrest]; subst.
    destruct (@encoder_layer_call_shape global L0 L hidden_dim W n s x mask
                training keep Hbuild Hheads Hhidden Hn Hs Hx Hmask)
      as (y & Hy & Hshape).
    cbn [resblocks_call]. rewrite Hy. cbn [Py.bind].
    apply IH; [exact Hrest | simpl in Hlen; lia | exact Hshape].
Qed.

(** The layers of a constructed encoder are built for its width and
    its number of heads. *)
Lemma encoder_resblocks_built
    global image_size patch_size num_heads hidden_dim num_layers
    intermediate_dim output_dim pool_size layer_norm_epsilon dtype name e :
  Gemma3VisionEncoder_init global image_size patch_size num_heads hidden_dim
    num_layers intermediate_dim output_dim pool_size layer_norm_epsilon
    dtype name = Ok e ->
  Forall (fun L => exists L0,
            el_num_heads L0 = num_heads /\
            Gemma3VisionEncoderLayer_build global L0
              [None; None; Some hidden_dim] = Ok L)
    (eb_resblocks (enc_image_encoder e)).
Proof.
  intros H. destruct (encoder_init_structure _ _ _ _ _ _ _ _ _ _ _ _ H)
    as (Hall & _).
  revert Hall. generalize (Py.range num_layers).
  generalize (eb_resblocks (enc_image_encoder e)).
  intros blocks idxs Hall. induction Hall as [|i L idxs blocks Hb _ IH].
  - constructor.
  - constructor; [|exact IH]. eexists. split; [|exact Hb]. reflexivity.
Qed.

(** X13.  The loop over the transformer layers of a constructed
    encoder, whatever their number, turns a non-empty batch of shape
    [(n, s, hidden_dim)] into one of the same shape, with or without a
    mask that fits. *)
Theorem encoder_stack_preserves_shape
    (global : string)
    (image_size patch_size num_heads hidden_dim num_layers intermediate_dim
       output_dim pool_size : Z)
    (layer_norm_epsilon : Q) (dtype : Dtype) (name : string)
    (e : Gemma3VisionEncoder) (ws : list EncoderLayerW)
    (n s : nat) (x : Tensor3) (mask : option Tensor4)
    (training : bool) (keep : KeepMask) :
  Gemma3VisionEncoder_init global image_size patch_size num_heads hidden_dim
    num_layers intermediate_dim output_dim pool_size layer_norm_epsilon
    dtype name = Ok e ->
  (0 < num_heads)%Z -> (0 < hidden_dim)%Z -> (0 < n)%nat -> (0 < s)%nat ->
  List.length ws = List.length (eb_resblocks (enc_image_encoder e)) ->
  is_shape3 n s (Z.to_nat hidden_dim) x = true ->
  match mask with
  | None => True
  | Some m => mask_fits n (Z.to_nat num_heads) s s m = true
  end ->
  List.length (eb_resblocks (enc_image_encoder e)) = Z.to_nat num_layers /\
  exists y,
    resblocks_call (eb_resblocks (enc_image_encoder e)) ws x mask training keep
    = Ok y /\
    is_shape3 n s (Z.to_nat hidden_dim) y = true.
Proof.
  intros Hinit Hheads Hhidden Hn Hs Hlen Hx Hmask. split.
  - destruct (encoder_init_structure _ _ _ _ _ _ _ _ _ _ _ _ Hinit)
      as (Hall & _).
    apply Forall2_length in Hall. rewrite <- Hall. apply range_length.
  - apply (@resblocks_call_shape global hidden_dim num_heads n s mask
             training keep Hheads Hhidden Hn Hs Hmask); [|exact Hlen|exact Hx].
    eapply encoder_resblocks_built. exact Hinit.
Qed.

Lemma encoder_stack_preserves_shape_witness :
  let dense2 := {| kernel := [[1; 0]; [0; 1]]; bias := [0; 0] |}%R in
  let norm := {| gamma := [1; 1]; beta := [0; 0] |}%R in
  let W :=
    {| w_attn :=
         {| w_query_proj := dense2; w_key_proj := dense2;
            w_value_proj := dense2; w_out_proj := dense2 |};
       w_layer_norm_1 := norm;
       w_mlp_dense_1 :=
         {| kernel := [[1; 0; 1]; [0; 1; 1]]; bias := [0; 0; 0] |}%R;
       w_mlp_dense_2 :=
         {| kernel := [[1; 0]; [0; 1]; [1; 1]]; bias := [0; 0] |}%R;
       w_layer_norm_2 := norm |} in
  let x := [[[1; 2]; [3; 4]; [5; 6]]; [[7; 8]; [9; 10]; [11; 12]]]%R in
  exists e y,
    Gemma3VisionEncoder_init "float32" 4 2 2 2 3 3 5 2
      default_layer_norm_epsilon DNone "vit" = Ok e /\
    List.length (eb_resblocks (enc_image_encoder e)) = 3%nat /\
    resblocks_call (eb_resblocks (enc_image_encoder e)) [W; W; W] x None true
      (fun _ _ _ _ => true) = Ok y /\
    is_shape3 2 3 2 y = true.
Proof.
  intros dense2 norm W x.
  assert (Hb : exists e,
             Gemma3VisionEncoder_init "float32" 4 2 2 2 3 3 5 2
               default_layer_norm_epsilon DNone "vit" = Ok e /\
             List.length [W; W; W] =
             List.length (eb_resblocks (enc_image_encoder e)))
    by (eexists; split; vm_compute; reflexivity).
  destruct Hb as (e & He & Hlen).
  destruct (@encoder_stack_preserves_shape "float32" 4 2 2 2 3 3 5 2
              default_layer_norm_epsilon DNone "vit" e [W; W; W] 2 3 x None
              true (fun _ _ _ _ => true) He)
    as (Hl & y & Hcall & Hshape).
  - lia.
  - lia.
  - lia.
  - lia.
  - exact Hlen.
  - reflexivity.
  - exact I.
  - exists e, y. repeat split; assumption.
Defined.

End StackFacts.

(* ================================================================== *)
(** * [Gemma3VisionEmbedding.call] *)
(* ================================================================== *)

Section EmbeddingCall.

Local Open Scope R_scope.

Lemma add3_broadcast_one (x : Tensor3) (t : Tensor2) :
  add3_broadcast x [t] = map (fun img => map2 (map2 Rplus) img t) x.
Proof.
  unfold add3_broadcast. apply mapi_eq_map. intros i a _. reflexivity.
Qed.

(** The patches of a batch of images after the convolution and the
    reshape that lines them up. *)
Lemma embedding_patches
    image_size patch_size hidden_dim dtype name L W
    (N h w c : nat) (x : Tensor4) :
  Gemma3VisionEmbedding_init image_size patch_size hidden_dim dtype name
  = Ok L ->
  (0 < patch_size)%Z ->
  (Z.to_nat patch_size <= h)%nat -> (Z.to_nat patch_size <= w)%nat ->
  (0 < N)%nat -> (0 < c)%nat ->
  embedding_weights_fit L c W ->
  is_shape4 N h w c x = true ->
  is_shape4 (dim0 x) (dim1 x) (dim2 x) (dim3 x) x = true /\
  exists y,
    Conv2D_call (ve_patch_embedding L) (w_patch_embedding W) x = Ok y /\
    dim0 y = N /\
    is_shape4 N (h / Z.to_nat patch_size) (w / Z.to_nat patch_size)
      (Z.to_nat hidden_dim) y = true.
Proof.
  intros Hinit Hp Hh Hw HN Hc [Hk _] Hx.
  destruct (embedding_init_inv _ _ _ _ _ Hinit)
    as (_ & Hhid & _ & Hps & _ & _ & _ & Hks & Hst & Hfl & _).
  rewrite Hps, Hhid in Hk.
  assert (Hpn : (0 < Z.to_nat patch_size)%nat) by lia.
  destruct (@dims_of_shape4 _ _ _ _ _ Hx) as (H0 & H1 & H2 & H3);
    [lia | lia | lia |].
  split; [rewrite H0, H1, H2, H3; exact Hx|].
  destruct (@dims_of_shape4 _ _ _ _ _ Hk) as (_ & _ & Hkc & _);
    [lia | lia | lia |].
  destruct (@Conv2D_call_shape (ve_patch_embedding L) (w_patch_embedding W)
              N h w c x Hx HN) as (y & Hy & Hshape);
    try (rewrite ?Hks, ?Hst; first [exact Hpn | exact Hh | exact Hw]).
  { exact Hkc. }
  rewrite Hks, Hst, Hfl in Hshape.
  rewrite !windows_tiling in Hshape by lia.
  exists y. split; [exact Hy|]. split; [|exact Hshape].
  apply is_shape4_spec in Hshape. apply Hshape.
Qed.

(** The embedding of a batch of images that cut into [num_patches]
    patches each. *)
Lemma embedding_call_ok
    image_size patch_size hidden_dim dtype name L W
    (N h w c : nat) (x : Tensor4) :
  Gemma3VisionEmbedding_init image_size patch_size hidden_dim dtype name
  = Ok L ->
  (0 < patch_size <= image_size)%Z ->
  (Z.to_nat patch_size <= h)%nat -> (Z.to_nat patch_size <= w)%nat ->
  (h / Z.to_nat patch_size * (w / Z.to_nat patch_size) =
   Z.to_nat (ve_num_patches L))%nat ->
  (0 < N)%nat -> (0 < c)%nat ->
  embedding_weights_fit L c W ->
  is_shape4 N h w c x = true ->
  exists y,
    Gemma3VisionEmbedding_call L W x = Ok y /\
    is_shape3 N (Z.to_nat (ve_num_patches L)) (Z.to_nat hidden_dim) y = true.
Proof.
  intros Hinit Hp Hh Hw Hcount HN Hc Hfit Hx.
  destruct (@embedding_patches image_size patch_size hidden_dim dtype name L W
              N h w c x Hinit) as (Hrect & y & Hy & Hy0 & Hshape);
    try assumption; [lia|].
  destruct (embedding_init_inv _ _ _ _ _ Hinit)
    as (_ & Hhid & _ & _ & _ & Hnp & Hpos & _ & _ & _ & Hids).
  destruct Hfit as [_ Htab]. rewrite Hpos, <- Hnp, Hhid in Htab.
  unfold Gemma3VisionEmbedding_call. rewrite Hrect. cbn [negb].
  rewrite Hy. cbn [Py.bind]. rewrite Hy0, Hhid.
  destruct (@reshape_4_to_3_shape N (h / Z.to_nat patch_size)
              (w / Z.to_nat patch_size) (Z.to_nat hidden_dim)
              (Z.to_nat (ve_num_patches L)) (Z.to_nat hidden_dim) y Hshape)
    as (z & Hz & Hzshape).
  { rewrite <- Hcount. lia. }
  rewrite Hz. cbn [Py.bind]. eexists. split; [reflexivity|].
  rewrite Hids, <- Hnp, Embedding_call_range, add3_broadcast_one.
  - apply is_shape3_spec in Hzshape. destruct Hzshape as [Hzl Hzs].
    apply is_shape3_spec. rewrite length_map. split; [exact Hzl|].
    apply Forall_map. eapply Forall_impl; [|exact Hzs].
    intros img Himg. apply add2_shape; [exact Himg|exact Htab].
  - apply is_shape2_spec in Htab. apply Htab.
Qed.

(** X14.  [Gemma3VisionEmbedding.call] on a non-empty batch of square
    images of side [image_size] returns one row of [hidden_dim] entries
    for each of the [(image_size // patch_size) ** 2] patches of every
    image, which is the shape that [compute_output_shape] announces. *)
Theorem embedding_call_shape
    (image_size patch_size hidden_dim : Z) (dtype : Dtype) (name : string)
    (L : Gemma3VisionEmbedding) (W : VisionEmbeddingW)
    (N c : nat) (x : Tensor4) :
  Gemma3VisionEmbedding_init image_size patch_size hidden_dim dtype name
  = Ok L ->
  (0 < patch_size <= image_size)%Z ->
  (0 < N)%nat -> (0 < c)%nat ->
  embedding_weights_fit L c W ->
  is_shape4 N (Z.to_nat image_size) (Z.to_nat image_size) c x = true ->
  exists y,
    Gemma3VisionEmbedding_call L W x = Ok y /\
    is_shape3 N (Z.to_nat ((image_size / patch_size) ^ 2))
      (Z.to_nat hidden_dim) y = true /\
    Gemma3VisionEmbedding_compute_output_shape L
      [Some (Z.of_nat N); Some image_size; Some image_size;
       Some (Z.of_nat c)] =
    Ok [Some (Z.of_nat N); Some ((image_size / patch_size) ^ 2)%Z;
        Some hidden_dim].
Proof.
  intros Hinit Hp HN Hc Hfit Hx.
  destruct (embedding_init_inv _ _ _ _ _ Hinit)
    as (_ & Hhid & _ & _ & _ & Hnp & _).
  destruct (@embedding_call_ok image_size patch_size hidden_dim dtype name L W
              N (Z.to_nat image_size) (Z.to_nat image_size) c x Hinit Hp)
    as (y & Hy & Hshape); try assumption; try lia.
  { rewrite Hnp. symmetry. apply to_nat_sq_quotient. exact Hp. }
  exists y. split; [exact Hy|]. split.
  - rewrite Hnp in Hshape. exact Hshape.
  - unfold Gemma3VisionEmbedding_compute_output_shape.
    rewrite Hnp, Hhid. reflexivity.
Qed.

Lemma embedding_call_shape_witness :
  let W :=
    {| w_patch_embedding :=
         {| conv_kernel := [[[[1; 0]]; [[0; 1]]]; [[[1; 1]]; [[0; 0]]]];
            conv_bias := [0; 0] |};
       w_position_embedding := [[1; 2]; [3; 4]; [5; 6]; [7; 8]] |}%R in
  let x := [[[[1]; [2]; [3]; [4]]; [[5]; [6]; [7]; [8]];
             [[1]; [2]; [3]; [4]]; [[5]; [6]; [7]; [8]]]]%R in
  exists L y,
    Gemma3VisionEmbedding_init 4 2 2 DNone "encoder_embeddings" = Ok L /\
    Gemma3VisionEmbedding_call L W x = Ok y /\
    is_shape3 1 4 2 y = true.
Proof.
  intros W x.
  assert (Hb : exists L,
             Gemma3VisionEmbedding_init 4 2 2 DNone "encoder_embeddings"
             = Ok L /\ embedding_weights_fit L 1 W)
    by (eexists; split; [vm_compute; reflexivity|split; reflexivity]).
  destruct Hb as (L & HL & Hfit).
  destruct (@embedding_call_shape 4 2 2 DNone "encoder_embeddings" L W 1 1 x
              HL) as (y & Hcall & Hshape & _).
  - lia.
  - lia.
  - lia.
  - exact Hfit.
  - reflexivity.
  - exists L, y. repeat split; assumption.
Defined.

(** X15.  [Gemma3VisionEmbedding.call] refuses a non-empty batch of
    images that do not cut into [num_patches] patches: the reshape to
    [(batch, num_patches, hidden_dim)] fails. *)
Theorem embedding_call_wrong_patch_count
    (image_size patch_size hidden_dim : Z) (dtype : Dtype) (name : string)
    (L : Gemma3VisionEmbedding) (W : VisionEmbeddingW)
    (N h w c : nat) (x : Tensor4) :
  Gemma3VisionEmbedding_init image_size patch_size hidden_dim dtype name
  = Ok L ->
  (0 < patch_size)%Z -> (0 < hidden_dim)%Z ->
  (Z.to_nat patch_size <= h)%nat -> (Z.to_nat patch_size <= w)%nat ->
  (h / Z.to_nat patch_size * (w / Z.to_nat patch_size) <>
   Z.to_nat ((image_size / patch_size) ^ 2))%nat ->
  (0 < N)%nat -> (0 < c)%nat ->
  embedding_weights_fit L c W ->
  is_shape4 N h w c x = true ->
  Gemma3VisionEmbedding_call L W x = Raise ShapeError.
Proof.
  intros Hinit Hp Hhidden Hh Hw Hcount HN Hc Hfit Hx.
  destruct (@embedding_patches image_size patch_size hidden_dim dtype name L W
              N h w c x Hinit) as (Hrect & y & Hy & Hy0 & Hshape);
    try assumption.
  destruct (embedding_init_inv _ _ _ _ _ Hinit)
    as (_ & Hhid & _ & _ & _ & Hnp & _).
  unfold Gemma3VisionEmbedding_call. rewrite Hrect. cbn [negb].
  rewrite Hy. cbn [Py.bind]. rewrite Hy0, Hhid, Hnp.
  unfold reshape_4_to_3.
  rewrite (flatten4_length _ _ _ _ _ Hshape).
  change (Py.sq (image_size / patch_size))
    with ((image_size / patch_size) ^ 2)%Z.
  replace (Nat.eqb _ _) with false; [reflexivity|].
  symmetry. apply Nat.eqb_neq. intros Heq.
  apply Nat.mul_cancel_l in Heq; [|lia].
  rewrite Nat.mul_assoc in Heq.
  apply Nat.mul_cancel_r in Heq; [|lia]. contradiction.
Qed.

Lemma embedding_call_wrong_patch_count_witness :
  let W :=
    {| w_patch_embedding :=
         {| conv_kernel := [[[[1; 0]]; [[0; 1]]]; [[[1; 1]]; [[0; 0]]]];
            conv_bias := [0; 0] |};
       w_position_embedding := [[1; 2]; [3; 4]; [5; 6]; [7; 8]] |}%R in
  let x := [[[[1]; [2]]; [[5]; [6]]]]%R in
  exists L,
    Gemma3VisionEmbedding_init 4 2 2 DNone "encoder_embeddings" = Ok L /\
    Gemma3VisionEmbedding_call L W x = Raise ShapeError.
Proof.
  intros W x.
  assert (Hb : exists L,
             Gemma3VisionEmbedding_init 4 2 2 DNone "encoder_embeddings"
             = Ok L /\ embedding_weights_fit L 1 W)
    by (eexists; split; [vm_compute; reflexivity|split; reflexivity]).
  destruct Hb as (L & HL & Hfit).
  exists L. split; [exact HL|].
  apply (@embedding_call_wrong_patch_count 4 2 2 DNone "encoder_embeddings"
           L W 1 2 2 1 x HL).
  - lia.
  - lia.
  - simpl. lia.
  - simpl. lia.
  - vm_compute. lia.
  - lia.
  - lia.
  - exact Hfit.
  - reflexivity.
Defined.

End EmbeddingCall.

(* ================================================================== *)
(** * [Gemma3VisionEncoderBlock.call] *)
(* ================================================================== *)

Section BlockCall.

Local Open Scope R_scope.

Lemma dims_of_shape5 (n a b c d : nat) (x : Tensor5) :
  is_shape5 n a b c d x = true ->
  (0 < n)%nat -> (0 < a)%nat -> (0 < b)%nat -> (0 < c)%nat ->
  dim0 x = n /\ dim1 x = a /\ dim2 x = b /\ dim3 x = c /\ dim4 x = d.
Proof.
  intros H Hn Ha Hb Hc. apply is_shape5_spec in H. destruct H as [H0 H].
  destruct x as [|m x]; [simpl in H0; lia|].
  inversion H as [|? ? Hm _]; subst.
  destruct (@dims_of_shape4 _ _ _ _ _ Hm Ha Hb Hc) as (H1 & H2 & H3 & H4).
  unfold dim4. cbn [hd]. repeat split; assumption.
Qed.

Lemma sq_quotient_pos (image_size patch_size : Z) :
  (0 < patch_size <= image_size)%Z ->
  (0 < Z.to_nat ((image_size / patch_size) ^ 2))%nat.
Proof.
  intros Hp.
  assert (1 <= image_size / patch_size)%Z.
  { apply Z.div_le_lower_bound; lia. }
  assert (0 < (image_size / patch_size) ^ 2)%Z by nia. lia.
Qed.

(** The image encoder of a constructed encoder on a batch of groups
    of images. *)
Lemma block_call_ok
    global image_size patch_size num_heads hidden_dim num_layers
    intermediate_dim output_dim pool_size layer_norm_epsilon dtype name e
    (W : EncoderBlockW) (B T : nat) (inputs : Tensor5)
    (mask : option Tensor4) (training : bool) (keep : KeepMask) :
  Gemma3VisionEncoder_init global image_size patch_size num_heads hidden_dim
    num_layers intermediate_dim output_dim pool_size layer_norm_epsilon
    dtype name = Ok e ->
  (0 < patch_size <= image_size)%Z ->
  (0 < num_heads)%Z -> (0 < hidden_dim)%Z ->
  (0 < B)%nat -> (0 < T)%nat ->
  embedding_weights_fit (eb_vision_embeddings (enc_image_encoder e)) 3
    (w_vision_embeddings W) ->
  List.length (w_resblocks W) =
  List.length (eb_resblocks (enc_image_encoder e)) ->
  is_shape5 B T (Z.to_nat image_size) (Z.to_nat image_size) 3 inputs = true ->
  match mask with
  | None => True
  | Some m =>
      mask_fits (B * T) (Z.to_nat num_heads)
        (Z.to_nat ((image_size / patch_size) ^ 2))
        (Z.to_nat ((image_size / patch_size) ^ 2)) m = true
  end ->
  exists y,
    Gemma3VisionEncoderBlock_call (enc_image_encoder e) W inputs mask
      training keep = Ok y /\
    is_shape3 (B * T) (Z.to_nat ((image_size / patch_size) ^ 2))
      (Z.to_nat hidden_dim) y = true.
Proof.
  intros Hinit Hp Hheads Hhidden HB HT Hfit Hlen Hx Hmask.
  destruct (encoder_init_structure _ _ _ _ _ _ _ _ _ _ _ _ Hinit)
    as (_ & _ & _ & Hemb & _).
  pose proof (encoder_resblocks_built _ _ _ _ _ _ _ _ _ _ _ _ Hinit) as Hblocks.
  destruct (embedding_init_inv _ _ _ _ _ Hemb)
    as (_ & _ & _ & _ & _ & Hnp & _).
  assert (HI : (0 < Z.to_nat image_size)%nat) by lia.
  destruct (@dims_of_shape5 _ _ _ _ _ _ Hx HB HT HI HI)
    as (H0 & H1 & H2 & H3 & H4).
  unfold Gemma3VisionEncoderBlock_call. cbv zeta.
  rewrite H0, H1, H2, H3, H4, Hx. cbn [negb].
  rewrite (reshape_5_to_4_collapse _ _ _ _ _ _ Hx). cbn [Py.bind].
  destruct (@embedding_call_ok image_size patch_size hidden_dim
              (override_dtype dtype) "encoder_embeddings"
              (eb_vision_embeddings (enc_image_encoder e))
              (w_vision_embeddings W) (B * T) (Z.to_nat image_size)
              (Z.to_nat image_size) 3 (List.concat inputs) Hemb Hp)
    as (y & Hy & Hshape); try assumption; try lia.
  { rewrite Hnp. symmetry. apply to_nat_sq_quotient. exact Hp. }
  { apply concat_shape4. exact Hx. }
  rewrite Hy. cbn [Py.bind]. rewrite Hnp in Hshape.
  change (Py.sq (image_size / patch_size))
    with ((image_size / patch_size) ^ 2)%Z in Hshape.
  destruct (@resblocks_call_shape global hidden_dim num_heads (B * T)
              (Z.to_nat ((image_size / patch_size) ^ 2)) mask training keep
              Hheads Hhidden) with (blocks := eb_resblocks (enc_image_encoder e))
              (ws := w_resblocks W) (x := y)
    as (z & Hz & Hzshape); try assumption; try lia.
  { apply sq_quotient_pos. exact Hp. }
  rewrite Hz. cbn [Py.bind]. eexists. split; [reflexivity|].
  apply LayerNormalization_call_shape. exact Hzshape.
Qed.

(** X16.  [Gemma3VisionEncoderBlock.call] on [B] groups of [T] images
    of side [image_size] with three channels treats them as [B * T]
    images and returns, for each, one normalized row of [hidden_dim]
    entries per patch.  [compute_output_shape] announces the same
    number of patches and the same width, and leaves the batch extent
    open. *)
Theorem encoder_block_call_shape
    (global : string)
    (image_size patch_size num_heads hidden_dim num_layers intermediate_dim
       output_dim pool_size : Z)
    (layer_norm_epsilon : Q) (dtype : Dtype) (name : string)
    (e : Gemma3VisionEncoder) (W : EncoderBlockW) (B T : nat)
    (inputs : Tensor5) (training : bool) (keep : KeepMask) :
  Gemma3VisionEncoder_init global image_size patch_size num_heads hidden_dim
    num_layers intermediate_dim output_dim pool_size layer_norm_epsilon
    dtype name = Ok e ->
  (0 < patch_size <= image_size)%Z ->
  (0 < num_heads)%Z -> (0 < hidden_dim)%Z ->
  (0 < B)%nat -> (0 < T)%nat ->
  embedding_weights_fit (eb_vision_embeddings (enc_image_encoder e)) 3
    (w_vision_embeddings W) ->
  List.length (w_resblocks W) =
  List.length (eb_resblocks (enc_image_encoder e)) ->
  is_shape5 B T (Z.to_nat image_size) (Z.to_nat image_size) 3 inputs = true ->
  exists y,
    Gemma3VisionEncoderBlock_call (enc_image_encoder e) W inputs None
      training keep = Ok y /\
    is_shape3 (B * T) (Z.to_nat ((image_size / patch_size) ^ 2))
      (Z.to_nat hidden_dim) y = true /\
    Gemma3VisionEncoderBlock_compute_output_shape (enc_image_encoder e)
      [Some (Z.of_nat B); Some (Z.of_nat T); Some image_size;
       Some image_size; Some 3%Z] =
    Ok [None; Some ((image_size / patch_size) ^ 2)%Z; Some hidden_dim].
Proof.
  intros Hinit Hp Hheads Hhidden HB HT Hfit Hlen Hx.
  destruct (@block_call_ok global image_size patch_size num_heads hidden_dim
              num_layers intermediate_dim output_dim pool_size
              layer_norm_epsilon dtype name e W B T inputs None training keep
              Hinit Hp Hheads Hhidden HB HT Hfit Hlen Hx I)
    as (y & Hy & Hshape).
  exists y. split; [exact Hy|]. split; [exact Hshape|].
  destruct (encoder_init_structure _ _ _ _ _ _ _ _ _ _ _ _ Hinit)
    as (_ & _ & (Hhid & Hps & _) & _).
  unfold Gemma3VisionEncoderBlock_compute_output_shape.
  rewrite Hhid, Hps.
  change (Py.index
            [Some (Z.of_nat B); Some (Z.of_nat T); Some image_size;
             Some image_size; Some 3%Z] 2)
    with (Ok (A:=option Z) (Some image_size)).
  cbn [Py.bind Py.as_int].
  rewrite floordiv_ok by lia. reflexivity.
Qed.

Lemma encoder_block_call_shape_witness :
  let dense2 := {| kernel := [[1; 0]; [0; 1]]; bias := [0; 0] |}%R in
  let norm := {| gamma := [1; 1]; beta := [0; 0] |}%R in
  let Wl :=
    {| w_attn :=
         {| w_query_proj := dense2; w_key_proj := dense2;
            w_value_proj := dense2; w_out_proj := dense2 |};
       w_layer_norm_1 := norm;
       w_mlp_dense_1 :=
         {| kernel := [[1; 0; 1]; [0; 1; 1]]; bias := [0; 0; 0] |}%R;
       w_mlp_dense_2 :=
         {| kernel := [[1; 0]; [0; 1]; [1; 1]]; bias := [0; 0] |}%R;
       w_layer_norm_2 := norm |} in
  let W :=
    {| w_vision_embeddings :=
         {| w_patch_embedding :=
              {| conv_kernel := [[[[1; 0]; [0; 1]; [1; 1]]]];
                 conv_bias := [0; 0] |};
            w_position_embedding := [[1; 2]; [3; 4]; [5; 6]; [7; 8]] |};
       w_resblocks := [Wl];
       w_encoder_layer_norm := norm |}%R in
  let img := [[[1; 2; 3]; [4; 5; 6]]; [[7; 8; 9]; [1; 2; 3]]]%R in
  exists e y,
    Gemma3VisionEncoder_init "float32" 2 1 2 2 1 3 5 2
      default_layer_norm_epsilon DNone "vit" = Ok e /\
    Gemma3VisionEncoderBlock_call (enc_image_encoder e) W
      [[img; img]; [img; img]; [img; img]] None false (fun _ _ _ _ => true)
    = Ok y /\
    is_shape3 6 4 2 y = true.
Proof.
  intros dense2 norm Wl W img.
  assert (Hb : exists e,
             Gemma3VisionEncoder_init "float32" 2 1 2 2 1 3 5 2
               default_layer_norm_epsilon DNone "vit" = Ok e /\
             embedding_weights_fit
               (eb_vision_embeddings (enc_image_encoder e)) 3
               (w_vision_embeddings W) /\
             List.length (w_resblocks W) =
             List.length (eb_resblocks (enc_image_encoder e)))
    by (eexists; split; [vm_compute; reflexivity|];
        split; [split; reflexivity | reflexivity]).
  destruct Hb as (e & He & Hfit & Hlen).
  destruct (@encoder_block_call_shape "float32" 2 1 2 2 1 3 5 2
              default_layer_norm_epsilon DNone "vit" e W 3 2
              [[img; img]; [img; img]; [img; img]] false
              (fun _ _ _ _ => true) He)
    as (y & Hcall & Hshape & _).
  - lia.
  - lia.
  - lia.
  - lia.
  - lia.
  - exact Hfit.
  - exact Hlen.
  - reflexivity.
  - exists e, y. repeat split; assumption.
Defined.

End BlockCall.

(* ================================================================== *)
(** * [Gemma3VisionAveragePooling.call] *)
(* ================================================================== *)

Section PoolingCall.

Local Open Scope R_scope.

Lemma pooling_init_inv image_size patch_size pool_size dtype name L :
  Gemma3VisionAveragePooling_init image_size patch_size pool_size dtype name
  = Ok L ->
  patch_size <> 0%Z /\ pool_size <> 0%Z /\
  pl_width L = (image_size / patch_size)%Z /\
  pl_reduced_width L = (image_size / patch_size / pool_size)%Z /\
  pl_pool_size L = pool_size /\ pl_average_pooling L = None.
Proof.
  unfold Gemma3VisionAveragePooling_init. intros H.
  destruct (Py.floordiv image_size patch_size) as [w|] eqn:Ew;
    cbn [Py.bind] in H; [|discriminate].
  apply floordiv_inv in Ew. destruct Ew as [Hp ->].
  destruct (Py.floordiv (image_size / patch_size) pool_size) as [r|] eqn:Er;
    cbn [Py.bind] in H; [|discriminate].
  apply floordiv_inv in Er. destruct Er as [Hq ->].
  inversion H; subst; clear H. cbn. repeat split; assumption.
Qed.

(** Pooling yields one vector of unchanged width per window. *)
Lemma AveragePooling2D_call_shape (l : AveragePooling2D)
    (n h w c : nat) (x : Tensor4) :
  let p := Z.to_nat (ap_pool_size l) in
  let s := Z.to_nat (ap_strides l) in
  is_shape4 n h w c x = true -> (0 < n)%nat ->
  (0 < p)%nat -> (0 < s)%nat -> (p <= h)%nat -> (p <= w)%nat ->
  exists y,
    AveragePooling2D_call l x = Ok y /\
    is_shape4 n (windows h p s) (windows w p s) c y = true.
Proof.
  intros p s Hx Hn Hp Hs Hh Hw.
  destruct (@dims_of_shape4 _ _ _ _ _ Hx) as (H0 & H1 & H2 & H3);
    [lia | lia | lia |].
  unfold AveragePooling2D_call. fold p s. rewrite H1, H2, H3.
  replace (Nat.eqb p 0) with false by (symmetry; apply Nat.eqb_neq; lia).
  replace (Nat.eqb s 0) with false by (symmetry; apply Nat.eqb_neq; lia).
  replace (Nat.ltb h p) with false by (symmetry; apply Nat.ltb_ge; lia).
  replace (Nat.ltb w p) with false by (symmetry; apply Nat.ltb_ge; lia).
  cbn [orb]. eexists. split; [reflexivity|].
  apply is_shape4_spec. rewrite length_map. split.
  - apply is_shape4_spec in Hx. apply Hx.
  - apply Forall_map, Forall_forall. intros img _.
    apply is_shape3_spec. rewrite length_map, length_seq.
    split; [reflexivity|].
    apply Forall_map, Forall_forall. intros i _.
    apply is_shape2_spec. rewrite length_map, length_seq.
    split; [reflexivity|].
    apply Forall_map, Forall_forall. intros j _.
    rewrite length_map, length_seq. reflexivity.
Qed.

(** Reading every entry of an image gives the image back. *)
Lemma pixels_of_image (h w c : nat) (img : Tensor3) :
  is_shape3 h w c img = true ->
  map (fun i => map (fun j => map (fun ch => pixel img i j ch) (seq 0 c))
                  (seq 0 w)) (seq 0 h) = img.
Proof.
  intros H. apply is_shape3_spec in H. destruct H as [Hh Hrows].
  etransitivity; [|exact (map_nth_seq [] img Hh)].
  apply map_ext_in. intros i Hi. apply in_seq in Hi.
  assert (Hrow : is_shape2 w c (nth i img []) = true).
  { rewrite Forall_forall in Hrows. apply Hrows, nth_In. lia. }
  apply is_shape2_spec in Hrow. destruct Hrow as [Hw Hcols].
  etransitivity; [|exact (map_nth_seq [] (nth i img []) Hw)].
  apply map_ext_in. intros j Hj. apply in_seq in Hj.
  assert (Hv : List.length (nth j (nth i img []) []) = c).
  { rewrite Forall_forall in Hcols. apply Hcols, nth_In. lia. }
  etransitivity; [|exact (map_nth_seq 0 (nth j (nth i img []) []) Hv)].
  reflexivity.
Qed.

(** A window of one entry at stride one leaves the tensor as it is. *)
Lemma AveragePooling2D_call_unit (l : AveragePooling2D)
    (n h w c : nat) (x : Tensor4) :
  ap_pool_size l = 1%Z -> ap_strides l = 1%Z ->
  is_shape4 n h w c x = true ->
  (0 < n)%nat -> (0 < h)%nat -> (0 < w)%nat ->
  AveragePooling2D_call l x = Ok x.
Proof.
  intros Hp Hs Hx Hn Hh Hw.
  destruct (@dims_of_shape4 _ _ _ _ _ Hx) as (H0 & H1 & H2 & H3);
    [lia | lia | lia |].
  unfold AveragePooling2D_call. rewrite Hp, Hs, H1, H2, H3.
  change (Z.to_nat 1) with 1%nat.
  replace (Nat.ltb h 1) with false by (symmetry; apply Nat.ltb_ge; lia).
  replace (Nat.ltb w 1) with false by (symmetry; apply Nat.ltb_ge; lia).
  cbn [Nat.eqb orb]. f_equal.
  etransitivity; [|exact (map_id x)]. apply map_ext_in. intros img Himg.
  assert (Hshape : is_shape3 h w c img = true).
  { apply is_shape4_spec in Hx. destruct Hx as [_ Hx].
    rewrite Forall_forall in Hx. apply Hx, Himg. }
  etransitivity; [|exact (@pixels_of_image h w c img Hshape)].
  unfold windows. rewrite !Nat.div_1_r.
  replace (h - 1 + 1)%nat with h by lia.
  replace (w - 1 + 1)%nat with w by lia.
  apply map_ext. intros i. apply map_ext. intros j. apply map_ext. intros ch.
  cbn [seq map sum fold_right Nat.mul Nat.add INR].
  rewrite !Nat.mul_1_r, !Nat.add_0_r. field.
Qed.

(** The pooling layer on a grid of [width * width] patches. *)
Lemma pooling_call_ok
    global image_size patch_size pool_size dtype name L0
    (n d : nat) (x : Tensor3) :
  Gemma3VisionAveragePooling_init image_size patch_size pool_size dtype name
  = Ok L0 ->
  (0 < patch_size)%Z -> (0 < pool_size <= image_size / patch_size)%Z ->
  (0 < n)%nat ->
  is_shape3 n (Z.to_nat (image_size / patch_size) *
               Z.to_nat (image_size / patch_size)) d x = true ->
  exists y,
    Gemma3VisionAveragePooling_call
      (Gemma3VisionAveragePooling_build global L0) x = Ok y /\
    is_shape3 n (Z.to_nat (image_size / patch_size / pool_size) *
                 Z.to_nat (image_size / patch_size / pool_size)) d y = true.
Proof.
  intros Hinit Hp Hq Hn Hx.
  destruct (pooling_init_inv _ _ _ _ _ Hinit)
    as (_ & _ & Hw & Hrw & Hps & _).
  set (w := Z.to_nat (image_size / patch_size)) in *.
  set (p := Z.to_nat pool_size).
  assert (Hpw : (0 < p <= w)%nat) by (unfold p, w; lia).
  destruct (@dims_of_shape3 _ _ _ _ Hx Hn) as (H0 & H1 & H2); [nia|].
  unfold Gemma3VisionAveragePooling_call, Gemma3VisionAveragePooling_build.
  cbn [pl_average_pooling pl_width pl_reduced_width]. cbv zeta.
  rewrite H0, H1, H2, Hx, Hw, Hrw, Hps. cbn [negb]. fold w.
  destruct (@reshape_3_to_4_shape n (w * w) d w w d x Hx)
    as (x4 & Hx4 & Hshape4 & _); [lia|].
  rewrite Hx4. cbn [Py.bind].
  match goal with
  | |- context [AveragePooling2D_call ?l x4] =>
      destruct (@AveragePooling2D_call_shape l n w w d x4 Hshape4 Hn)
        as (y4 & Hy4 & Hyshape)
  end; cbn [ap_pool_size ap_strides]; fold p; try lia.
  cbn [ap_pool_size ap_strides] in Hyshape. fold p in Hyshape.
  rewrite !windows_tiling in Hyshape by lia.
  rewrite Hy4. cbn [Py.bind].
  assert (Hrw' : Z.to_nat (image_size / patch_size / pool_size) = (w / p)%nat).
  { unfold w, p. apply Z2Nat.inj_div; lia. }
  rewrite Hrw'.
  destruct (@reshape_4_to_3_shape n (w / p) (w / p) d (w / p * (w / p)) d y4
              Hyshape) as (y & Hy & Hyshape3); [lia|].
  exists y. split; assumption.
Qed.

(** X17.  [Gemma3VisionAveragePooling.call] turns a non-empty batch
    of [width * width] patch rows into [reduced_width * reduced_width]
    rows of the same width, where [width = image_size // patch_size]
    and [reduced_width = width // pool_size]: rows and columns of the
    grid beyond a multiple of [pool_size] are dropped.  This is the
    shape that [compute_output_shape] announces. *)
Theorem pooling_call_shape
    (global : string) (image_size patch_size pool_size : Z) (dtype : Dtype)
    (name : string) (L0 : Gemma3VisionAveragePooling)
    (n d : nat) (x : Tensor3) :
  Gemma3VisionAveragePooling_init image_size patch_size pool_size dtype name
  = Ok L0 ->
  (0 < patch_size)%Z -> (0 < pool_size <= image_size / patch_size)%Z ->
  (0 < n)%nat ->
  is_shape3 n (Z.to_nat (image_size / patch_size) *
               Z.to_nat (image_size / patch_size)) d x = true ->
  let L := Gemma3VisionAveragePooling_build global L0 in
  let reduced_width := (image_size / patch_size / pool_size)%Z in
  exists y,
    Gemma3VisionAveragePooling_call L x = Ok y /\
    is_shape3 n (Z.to_nat reduced_width * Z.to_nat reduced_width) d y
    = true /\
    Gemma3VisionAveragePooling_compute_output_shape L
      [Some (Z.of_nat n);
       Some (image_size / patch_size * (image_size / patch_size))%Z;
       Some (Z.of_nat d)] =
    Ok [Some (Z.of_nat n); Some (reduced_width * reduced_width)%Z;
        Some (Z.of_nat d)].
Proof.
  intros Hinit Hp Hq Hn Hx L reduced_width.
  destruct (@pooling_call_ok global image_size patch_size pool_size dtype name
              L0 n d x Hinit Hp Hq Hn Hx) as (y & Hy & Hshape).
  exists y. split; [exact Hy|]. split; [exact Hshape|].
  destruct (pooling_init_inv _ _ _ _ _ Hinit) as (_ & _ & _ & Hrw & _).
  unfold Gemma3VisionAveragePooling_compute_output_shape, L,
    Gemma3VisionAveragePooling_build.
  cbn [pl_reduced_width]. rewrite Hrw. reflexivity.
Qed.

Lemma pooling_call_shape_witness :
  let x := [[[1; 2]; [3; 4]; [5; 6]; [7; 8]; [9; 10]; [11; 12]; [13; 14];
             [15; 16]; [17; 18]]]%R in
  exists L0 y,
    Gemma3VisionAveragePooling_init 6 2 2 DNone "pooling" = Ok L0 /\
    Gemma3VisionAveragePooling_call
      (Gemma3VisionAveragePooling_build "float32" L0) x = Ok y /\
    is_shape3 1 1 2 y = true.
Proof.
  intros x.
  assert (Hb : exists L0,
             Gemma3VisionAveragePooling_init 6 2 2 DNone "pooling" = Ok L0)
    by (eexists; vm_compute; reflexivity).
  destruct Hb as (L0 & HL).
  destruct (@pooling_call_shape "float32" 6 2 2 DNone "pooling" L0 1 2 x HL)
    as (y & Hcall & Hshape & _).
  - lia.
  - vm_compute. split; [reflexivity | discriminate].
  - lia.
  - reflexivity.
  - exists L0, y. repeat split; assumption.
Defined.

(** X18.  [Gemma3VisionAveragePooling.call] refuses a non-empty batch
    whose number of rows per image is not [width * width]: the reshape
    to the square grid fails. *)
Theorem pooling_call_wrong_length
    (global : string) (image_size patch_size pool_size : Z) (dtype : Dtype)
    (name : string) (L0 : Gemma3VisionAveragePooling)
    (n s d : nat) (x : Tensor3) :
  Gemma3VisionAveragePooling_init image_size patch_size pool_size dtype name
  = Ok L0 ->
  (0 < n)%nat -> (0 < s)%nat -> (0 < d)%nat ->
  s <> (Z.to_nat (image_size / patch_size) *
        Z.to_nat (image_size / patch_size))%nat ->
  is_shape3 n s d x = true ->
  Gemma3VisionAveragePooling_call
    (Gemma3VisionAveragePooling_build global L0) x = Raise ShapeError.
Proof.
  intros Hinit Hn Hs Hd Hneq Hx.
  destruct (pooling_init_inv _ _ _ _ _ Hinit) as (_ & _ & Hw & _).
  destruct (@dims_of_shape3 _ _ _ _ Hx Hn Hs) as (H0 & H1 & H2).
  unfold Gemma3VisionAveragePooling_call, Gemma3VisionAveragePooling_build.
  cbn [pl_average_pooling pl_width pl_reduced_width]. cbv zeta.
  rewrite H0, H1, H2, Hx, Hw. cbn [negb].
  unfold reshape_3_to_4. rewrite (flatten3_length _ _ _ _ Hx).
  replace (Nat.eqb _ _) with false; [reflexivity|].
  symmetry. apply Nat.eqb_neq. intros Heq.
  apply Nat.mul_cancel_l in Heq; [|lia].
  rewrite Nat.mul_assoc in Heq.
  apply Nat.mul_cancel_r in Heq; [|lia]. contradiction.
Qed.

Lemma pooling_call_wrong_length_witness :
  exists L0,
    Gemma3VisionAveragePooling_init 4 2 2 DNone "pooling" = Ok L0 /\
    Gemma3VisionAveragePooling_call
      (Gemma3VisionAveragePooling_build "float32" L0)
      [[[1; 2]; [3; 4]; [5; 6]]]%R = Raise ShapeError.
Proof.
  assert (Hb : exists L0,
             Gemma3VisionAveragePooling_init 4 2 2 DNone "pooling" = Ok L0)
    by (eexists; vm_compute; reflexivity).
  destruct Hb as (L0 & HL). exists L0. split; [exact HL|].
  apply (@pooling_call_wrong_length "float32" 4 2 2 DNone "pooling" L0
           1 3 2 _ HL).
  - lia.
  - lia.
  - lia.
  - vm_compute. lia.
  - reflexivity.
Defined.

(** X19.  With [pool_size = 1] the pooling layer returns its input:
    a non-empty batch of [width * width] rows passes through
    unchanged. *)
Theorem pooling_by_one_is_identity
    (global : string) (image_size patch_size : Z) (dtype : Dtype)
    (name : string) (L0 : Gemma3VisionAveragePooling)
    (n d : nat) (x : Tensor3) :
  Gemma3VisionAveragePooling_init image_size patch_size 1 dtype name
  = Ok L0 ->
  (0 < patch_size <= image_size)%Z -> (0 < n)%nat ->
  is_shape3 n (Z.to_nat (image_size / patch_size) *
               Z.to_nat (image_size / patch_size)) d x = true ->
  Gemma3VisionAveragePooling_call
    (Gemma3VisionAveragePooling_build global L0) x = Ok x.
Proof.
  intros Hinit Hp Hn Hx.
  destruct (pooling_init_inv _ _ _ _ _ Hinit)
    as (_ & _ & Hw & Hrw & Hps & _).
  rewrite Z.div_1_r in Hrw.
  assert (Hq : (1 <= image_size / patch_size)%Z)
    by (apply Z.div_le_lower_bound; lia).
  set (w := Z.to_nat (image_size / patch_size)) in *.
  assert (Hwpos : (0 < w)%nat) by (unfold w; lia).
  destruct (@dims_of_shape3 _ _ _ _ Hx Hn) as (H0 & H1 & H2); [nia|].
  unfold Gemma3VisionAveragePooling_call, Gemma3VisionAveragePooling_build.
  cbn [pl_average_pooling pl_width pl_reduced_width]. cbv zeta.
  rewrite H0, H1, H2, Hx, Hw, Hrw, Hps. cbn [negb]. fold w.
  destruct (@reshape_3_to_4_shape n (w * w) d w w d x Hx)
    as (x4 & Hx4 & Hshape4 & Hflat); [lia|].
  rewrite Hx4. cbn [Py.bind].
  rewrite (@AveragePooling2D_call_unit _ n w w d x4) by
    (first [reflexivity | assumption]).
  cbn [Py.bind]. unfold reshape_4_to_3.
  rewrite Hflat, (flatten3_length _ _ _ _ Hx), Nat.eqb_refl.
  f_equal. apply unflatten_flatten3. exact Hx.
Qed.

Lemma pooling_by_one_is_identity_witness :
  let x := [[[1; 2]; [3; 4]; [5; 6]; [7; 8]]]%R in
  exists L0,
    Gemma3VisionAveragePooling_init 4 2 1 DNone "pooling" = Ok L0 /\
    Gemma3VisionAveragePooling_call
      (Gemma3VisionAveragePooling_build "float32" L0) x = Ok x.
Proof.
  intros x.
  assert (Hb : exists L0,
             Gemma3VisionAveragePooling_init 4 2 1 DNone "pooling" = Ok L0)
    by (eexists; vm_compute; reflexivity).
  destruct Hb as (L0 & HL). exists L0. split; [exact HL|].
  apply (@pooling_by_one_is_identity "float32" 4 2 DNone "pooling" L0 1 2 x
           HL).
  - lia.
  - lia.
  - reflexivity.
Defined.

End PoolingCall.

(* ================================================================== *)
(** * [Gemma3VisionOutput.call] and the whole encoder *)
(* ================================================================== *)

Section OutputCall.

Local Open Scope R_scope.

(** The normalization in front of the projection; it is only assumed
    to return as many entries as it receives. *)
Variable RMSNormalization_call : RMSNormalization -> Vec -> Vec -> Vec.

Hypothesis RMSNormalization_call_length :
  forall l w v,
    List.length (RMSNormalization_call l w v) = List.length v.

Lemma output_call_ok
    global output_dim layer_norm_epsilon kernel_initializer dtype name
    (W : OutputW) (n s : nat) (x : Tensor3) :
  (0 < n)%nat -> (0 < s)%nat ->
  is_shape3 n s (List.length (kernel (w_vision_input_projection W))) x
  = true ->
  exists y,
    Gemma3VisionOutput_call RMSNormalization_call
      (Gemma3VisionOutput_build global
         (Gemma3VisionOutput_init output_dim layer_norm_epsilon
            kernel_initializer dtype name)) W x = Ok y /\
    is_shape3 n s (Z.to_nat output_dim) y = true.
Proof.
  intros Hn Hs Hx.
  unfold Gemma3VisionOutput_call, Gemma3VisionOutput_build,
    Gemma3VisionOutput_init.
  cbn [vo_built vo_vision_soft_embedding_norm vo_vision_input_projection
       vo_output_dim vo_layer_norm_epsilon vo_dtype vo_kernel_initializer].
  cbv zeta.
  match goal with
  | |- context [Dense_call ?dl _ (map (map ?g) x)] =>
      set (d := dl);
      assert (Hnorm : is_shape3 n s
                        (List.length (kernel (w_vision_input_projection W)))
                        (map (map g) x) = true)
        by (apply map_map_shape_dep with
              (d := List.length (kernel (w_vision_input_projection W)));
            [intros v Hv; rewrite RMSNormalization_call_length; exact Hv
            |exact Hx]);
      set (normed := map (map g) x) in *
  end.
  destruct (@dims_of_shape3 _ _ _ _ Hnorm Hn Hs) as (H0 & H1 & _).
  rewrite H0, H1, Hnorm. cbn [negb].
  eexists. split; [reflexivity|].
  change (Z.to_nat output_dim) with (Z.to_nat (dense_units d)).
  eapply Dense_call_shape. exact Hnorm.
Qed.

(** X20.  [Gemma3VisionOutput.call] on a built layer maps a non-empty
    batch of rows as wide as the projection kernel has rows to rows of
    [output_dim] entries, keeping the number of images and of rows per
    image; this is the shape that [compute_output_shape] announces. *)
Theorem output_call_shape
    (global : string) (output_dim : Z) (layer_norm_epsilon : Q)
    (kernel_initializer : Initializer) (dtype : Dtype) (name : string)
    (W : OutputW) (n s : nat) (x : Tensor3) :
  (0 < n)%nat -> (0 < s)%nat ->
  is_shape3 n s (List.length (kernel (w_vision_input_projection W))) x
  = true ->
  let L :=
    Gemma3VisionOutput_build global
      (Gemma3VisionOutput_init output_dim layer_norm_epsilon
         kernel_initializer dtype name) in
  exists y,
    Gemma3VisionOutput_call RMSNormalization_call L W x = Ok y /\
    is_shape3 n s (Z.to_nat output_dim) y = true /\
    Gemma3VisionOutput_compute_output_shape L
      [Some (Z.of_nat n); Some (Z.of_nat s);
       Some (Z.of_nat (List.length (kernel (w_vision_input_projection W))))]
    = [Some (Z.of_nat n); Some (Z.of_nat s); Some output_dim].
Proof.
  intros Hn Hs Hx L.
  destruct (@output_call_ok global output_dim layer_norm_epsilon
              kernel_initializer dtype name W n s x Hn Hs Hx)
    as (y & Hy & Hshape).
  exists y. split; [exact Hy|]. split; [exact Hshape|]. reflexivity.
Qed.

(** X22.  Calling a constructed encoder on [B] groups of [T] images
    of side [image_size] with three channels returns, for each of the
    [B * T] images, [reduced_width * reduced_width] rows of
    [output_dim] entries, where
    [reduced_width = (image_size // patch_size) // pool_size].  The
    shape that the constructor derives for the model's output has the
    same two trailing extents. *)
Theorem encoder_call_shape
    (global : string)
    (image_size patch_size num_heads hidden_dim num_layers intermediate_dim
       output_dim pool_size : Z)
    (layer_norm_epsilon : Q) (dtype : Dtype) (name : string)
    (e : Gemma3VisionEncoder) (W : EncoderW) (B T : nat)
    (images : Tensor5) (training : bool) (keep : KeepMask) :
  Gemma3VisionEncoder_init global image_size patch_size num_heads hidden_dim
    num_layers intermediate_dim output_dim pool_size layer_norm_epsilon
    dtype name = Ok e ->
  (0 < patch_size)%Z -> (0 < pool_size <= image_size / patch_size)%Z ->
  (0 < num_heads)%Z -> (0 < hidden_dim)%Z ->
  (0 < B)%nat -> (0 < T)%nat ->
  embedding_weights_fit (eb_vision_embeddings (enc_image_encoder e)) 3
    (w_vision_embeddings (w_image_encoder W)) ->
  List.length (w_resblocks (w_image_encoder W)) =
  List.length (eb_resblocks (enc_image_encoder e)) ->
  List.length (kernel (w_vision_input_projection (w_vision_output_encoder W)))
  = Z.to_nat hidden_dim ->
  is_shape5 B T (Z.to_nat image_size) (Z.to_nat image_size) 3 images = true ->
  let reduced_width := (image_size / patch_size / pool_size)%Z in
  exists y,
    Gemma3VisionEncoder_call RMSNormalization_call e W images training keep
    = Ok y /\
    is_shape3 (B * T) (Z.to_nat reduced_width * Z.to_nat reduced_width)
      (Z.to_nat output_dim) y = true /\
    enc_output_shape e =
    [None; Some (reduced_width * reduced_width)%Z; Some output_dim].
Proof.
  intros Hinit Hp Hq Hheads Hhidden HB HT Hfit Hlen Hproj Hx reduced_width.
  assert (Hpi : (0 < patch_size <= image_size)%Z).
  { split; [exact Hp|].
    destruct (Z_lt_le_dec image_size patch_size) as [Hlt|Hle]; [|exact Hle].
    destruct (Z_lt_le_dec image_size 0) as [Hneg|Hnn].
    - assert (image_size / patch_size < 0)%Z
        by (apply Z.div_lt_upper_bound; lia). lia.
    - rewrite Z.div_small in Hq by lia. lia. }
  destruct (encoder_init_structure _ _ _ _ _ _ _ _ _ _ _ _ Hinit)
    as (_ & _ & _ & _ & (pooling & Hpool & Hpooling) & Hout & (Himg & _)).
  destruct (encoder_init_inv _ _ _ _ _ _ _ _ _ _ _ _ Hinit)
    as (_ & _ & _ & _ & _ & _ & Hshape & _).
  assert (HI : (0 < Z.to_nat image_size)%nat) by lia.
  destruct (@dims_of_shape5 _ _ _ _ _ _ Hx HB HT HI HI) as (H0 & H1 & _).
  unfold Gemma3VisionEncoder_call. cbv zeta.
  rewrite Himg, H0, H1, Hx. cbn [negb].
  destruct (@block_call_ok global image_size patch_size num_heads hidden_dim
              num_layers intermediate_dim output_dim pool_size
              layer_norm_epsilon dtype name e (w_image_encoder W) B T images
              None training keep Hinit Hpi Hheads Hhidden HB HT Hfit Hlen Hx I)
    as (y1 & Hy1 & Hshape1).
  rewrite Hy1. cbn [Py.bind].
  assert (Hsq : Z.to_nat ((image_size / patch_size) ^ 2) =
                (Z.to_nat (image_size / patch_size) *
                 Z.to_nat (image_size / patch_size))%nat).
  { rewrite Z.pow_2_r. apply Z2Nat.inj_mul; lia. }
  rewrite Hsq in Hshape1.
  assert (HBT : (0 < B * T)%nat) by nia.
  destruct (@pooling_call_ok global image_size patch_size pool_size
              (override_dtype dtype) "pooling" pooling (B * T)
              (Z.to_nat hidden_dim) y1 Hpool Hp Hq HBT Hshape1)
    as (y2 & Hy2 & Hshape2).
  rewrite Hpooling, Hy2. cbn [Py.bind]. rewrite Hout.
  rewrite <- Hproj in Hshape2.
  assert (Hrw : (0 < Z.to_nat reduced_width * Z.to_nat reduced_width)%nat).
  { assert (1 <= reduced_width)%Z
      by (apply Z.div_le_lower_bound; lia). nia. }
  destruct (@output_call_ok global output_dim layer_norm_epsilon
              (RandomNormal 0 (1 # 100)) (override_dtype dtype)
              "vision_output_encoder" (w_vision_output_encoder W) (B * T)
              (Z.to_nat reduced_width * Z.to_nat reduced_width) y2 HBT Hrw
              Hshape2) as (y & Hy & Hyshape).
  exists y. split; [exact Hy|]. split; [exact Hyshape|]. exact Hshape.
Qed.

End OutputCall.

Lemma output_call_shape_witness :
  let W :=
    {| w_vision_soft_embedding_norm := [0; 0];
       w_vision_input_projection :=
         {| kernel := [[1; 0; 1]; [0; 1; 1]]; bias := [] |} |}%R in
  let x := [[[1; 2]; [3; 4]]]%R in
  exists y,
    Gemma3VisionOutput_call (fun _ _ v => v)
      (Gemma3VisionOutput_build "float32"
         (Gemma3VisionOutput_init 3 default_layer_norm_epsilon GlorotUniform
            DNone "vision_output_encoder")) W x = Ok y /\
    is_shape3 1 2 3 y = true.
Proof.
  intros W x.
  destruct (@output_call_shape (fun _ _ v => v) (fun _ _ _ => eq_refl)
              "float32" 3 default_layer_norm_epsilon GlorotUniform DNone
              "vision_output_encoder" W 1 2 x)
    as (y & Hcall & Hshape & _).
  - lia.
  - lia.
  - reflexivity.
  - exists y. split; assumption.
Defined.

Lemma encoder_call_shape_witness :
  let dense2 := {| kernel := [[1; 0]; [0; 1]]; bias := [0; 0] |}%R in
  let norm := {| gamma := [1; 1]; beta := [0; 0] |}%R in
  let Wl :=
    {| w_attn :=
         {| w_query_proj := dense2; w_key_proj := dense2;
            w_value_proj := dense2; w_out_proj := dense2 |};
       w_layer_norm_1 := norm;
       w_mlp_dense_1 :=
         {| kernel := [[1; 0; 1]; [0; 1; 1]]; bias := [0; 0; 0] |}%R;
       w_mlp_dense_2 :=
         {| kernel := [[1; 0]; [0; 1]; [1; 1]]; bias := [0; 0] |}%R;
       w_layer_norm_2 := norm |} in
  let W :=
    {| w_image_encoder :=
         {| w_vision_embeddings :=
              {| w_patch_embedding :=
                   {| conv_kernel := [[[[1; 0]; [0; 1]; [1; 1]]]];
                      conv_bias := [0; 0] |};
                 w_position_embedding :=
                   [[1; 2]; [3; 4]; [5; 6]; [7; 8]; [9; 10]; [11; 12];
                    [13; 14]; [15; 16]; [17; 18]] |};
            w_resblocks := [Wl];
            w_encoder_layer_norm := norm |};
       w_vision_output_encoder :=
         {| w_vision_soft_embedding_norm := [0; 0];
            w_vision_input_projection :=
              {| kernel := [[1; 0; 1; 0; 1]; [0; 1; 1; 0; 0]];
                 bias := [] |} |} |}%R in
  let row := [[1; 2; 3]; [4; 5; 6]; [7; 8; 9]]%R in
  let img := [row; row; row] in
  exists e y,
    Gemma3VisionEncoder_init "float32" 3 1 2 2 1 3 5 2
      default_layer_norm_epsilon DNone "vit" = Ok e /\
    Gemma3VisionEncoder_call (fun _ _ v => v) e W [[img; img]] false
      (fun _ _ _ _ => true) = Ok y /\
    is_shape3 2 1 5 y = true /\
    enc_output_shape e = [None; Some 1%Z; Some 5%Z] /\
    enc_num_vision_tokens_per_image e = 2%Z.
Proof.
  intros dense2 norm Wl W row img.
  assert (Hb : exists e,
             Gemma3VisionEncoder_init "float32" 3 1 2 2 1 3 5 2
               default_layer_norm_epsilon DNone "vit" = Ok e /\
             embedding_weights_fit
               (eb_vision_embeddings (enc_image_encoder e)) 3
               (w_vision_embeddings (w_image_encoder W)) /\
             List.length (w_resblocks (w_image_encoder W)) =
             List.length (eb_resblocks (enc_image_encoder e)) /\
             enc_num_vision_tokens_per_image e = 2%Z)
    by (eexists; split; [vm_compute; reflexivity|];
        split; [split; reflexivity | split; reflexivity]).
  destruct Hb as (e & He & Hfit & Hlen & Htokens).
  destruct (@encoder_call_shape (fun _ _ v => v) (fun _ _ _ => eq_refl)
              "float32" 3 1 2 2 1 3 5 2
              default_layer_norm_epsilon DNone "vit" e W 1 2
              [[img; img]] false (fun _ _ _ _ => true) He)
    as (y & Hcall & Hshape & Hout).
  - lia.
  - vm_compute. split; [reflexivity | discriminate].
  - lia.
  - lia.
  - lia.
  - lia.
  - exact Hfit.
  - exact Hlen.
  - reflexivity.
  - reflexivity.
  - exists e, y. repeat split; assumption.
Defined.

(* ================================================================== *)
(** * The training flag, and the grouping of the images *)
(* ================================================================== *)

Section TrainingFlag.

Local Open Scope R_scope.

(** A built layer returns one tensor for all training flags and
    dropout draws. *)
Lemma encoder_layer_call_fixed
    (global : string) (L0 L : Gemma3VisionEncoderLayer) (hidden_dim : Z)
    (W : EncoderLayerW) (n s : nat) (x : Tensor3) (mask : option Tensor4)
    (training training' : bool) (keep keep' : KeepMask) :
  Gemma3VisionEncoderLayer_build global L0 [None; None; Some hidden_dim]
  = Ok L ->
  (0 < el_num_heads L0)%Z -> (0 < hidden_dim)%Z ->
  (0 < n)%nat -> (0 < s)%nat ->
  is_shape3 n s (Z.to_nat hidden_dim) x = true ->
  match mask with
  | None => True
  | Some m => mask_fits n (Z.to_nat (el_num_heads L0)) s s m = true
  end ->
  exists y,
    Gemma3VisionEncoderLayer_call L W x mask training keep = Ok y /\
    Gemma3VisionEncoderLayer_call L W x mask training' keep' = Ok y /\
    is_shape3 n s (Z.to_nat hidden_dim) y = true.
Proof.
  intros Hbuild Hheads Hhidden Hn Hs Hx Hmask.
  destruct (@dims_of_shape3 _ _ _ _ Hx Hn Hs) as (H0 & H1 & _).
  assert (Hx' : is_shape3 (dim0 x) (dim1 x) (Z.to_nat hidden_dim) x = true)
    by (rewrite H0, H1; exact Hx).
  assert (Hmask' :
            match mask with
            | None => True
            | Some m =>
                mask_fits (dim0 x) (Z.to_nat (el_num_heads L0)) (dim1 x)
                  (dim1 x) m = true
            end)
    by (rewrite H0, H1; exact Hmask).
  destruct (@encoder_layer_call_spec global L0 L hidden_dim W Hbuild Hheads
              Hhidden x Hx' mask training keep Hmask') as (sub & Hsub & Hc).
  destruct (@encoder_layer_call_spec global L0 L hidden_dim W Hbuild Hheads
              Hhidden x Hx' mask training' keep' Hmask')
    as (sub' & Hsub' & Hc').
  rewrite Hsub in Hsub'. inversion Hsub'; subst sub'. clear Hsub'.
  destruct (@built_sublayers global L0 L hidden_dim Hbuild)
    as (sub'' & Hsub'' & Hattn & _).
  rewrite Hsub in Hsub''. inversion Hsub''; subst sub''. clear Hsub''.
  destruct (attention_init_inv _ _ _ _ _ Hattn)
    as (_ & _ & _ & _ & _ & _ & Hdr & _).
  eexists. split; [exact Hc|]. split.
  - rewrite Hc'. f_equal. unfold spec_encoder_layer.
    rewrite (@spec_attention_zero_rate (el_attn sub) (w_attn W) _ mask
               training' training keep' keep); [reflexivity|].
    rewrite Hdr. cbn. apply Qle_refl.
  - rewrite <- H0 at 1. rewrite <- H1 at 1.
    eapply spec_encoder_layer_shape; eassumption.
Qed.

Lemma resblocks_call_fixed
    (global : string) (hidden_dim num_heads : Z) (n s : nat)
    (mask : option Tensor4) (training training' : bool)
    (keep keep' : KeepMask) :
  (0 < num_heads)%Z -> (0 < hidden_dim)%Z -> (0 < n)%nat -> (0 < s)%nat ->
  match mask with
  | None => True
  | Some m => mask_fits n (Z.to_nat num_heads) s s m = true
  end ->
  forall (blocks : list Gemma3VisionEncoderLayer) (ws : list EncoderLayerW)
         (x : Tensor3),
  Forall (fun L => exists L0,
            el_num_heads L0 = num_heads /\
            Gemma3VisionEncoderLayer_build global L0
              [None; None; Some hidden_dim] = Ok L) blocks ->
  is_shape3 n s (Z.to_nat hidden_dim) x = true ->
  resblocks_call blocks ws x mask training keep =
  resblocks_call blocks ws x mask training' keep'.
Proof.
  intros Hheads Hhidden Hn Hs Hmask blocks.
  induction blocks as [|L blocks IH]; intros ws x Hall Hx.
  - destruct ws; reflexivity.
  - destruct ws as [|W ws]; [reflexivity|].
    inversion Hall as [|? ? (L0 & Hnum & Hbuild) Hrest]; subst.
    destruct (@encoder_layer_call_fixed global L0 L hidden_dim W n s x mask
                training training' keep keep' Hbuild Hheads Hhidden Hn Hs Hx
                Hmask) as (y & Hy & Hy' & Hshape).
    cbn [resblocks_call]. rewrite Hy, Hy'. cbn [Py.bind].
    apply IH; [exact Hrest | exact Hshape].
Qed.

End TrainingFlag.

(** X23.  The whole encoder does the same in training and in
    inference: for a constructed encoder and a non-empty batch of
    images of the encoder's size, the call returns the same result for
    every training flag and every outcome of the dropout draws. *)
Theorem encoder_call_ignores_training
    (RMSNormalization_call : RMSNormalization -> list R -> list R -> list R)
    (global : string)
    (image_size patch_size num_heads hidden_dim num_layers intermediate_dim
       output_dim pool_size : Z)
    (layer_norm_epsilon : Q) (dtype : Dtype) (name : string)
    (e : Gemma3VisionEncoder) (W : EncoderW) (B T : nat)
    (images : Tensor5) (training training' : bool) (keep keep' : KeepMask) :
  Gemma3VisionEncoder_init global image_size patch_size num_heads hidden_dim
    num_layers intermediate_dim output_dim pool_size layer_norm_epsilon
    dtype name = Ok e ->
  (0 < patch_size <= image_size)%Z ->
  (0 < num_heads)%Z -> (0 < hidden_dim)%Z ->
  (0 < B)%nat -> (0 < T)%nat ->
  embedding_weights_fit (eb_vision_embeddings (enc_image_encoder e)) 3
    (w_vision_embeddings (w_image_encoder W)) ->
  is_shape5 B T (Z.to_nat image_size) (Z.to_nat image_size) 3 images = true ->
  Gemma3VisionEncoder_call RMSNormalization_call e W images training keep =
  Gemma3VisionEncoder_call RMSNormalization_call e W images training' keep'.
Proof.
  intros Hinit Hp Hheads Hhidden HB HT Hfit Hx.
  destruct (encoder_init_structure _ _ _ _ _ _ _ _ _ _ _ _ Hinit)
    as (_ & _ & _ & Hemb & _).
  pose proof (encoder_resblocks_built _ _ _ _ _ _ _ _ _ _ _ _ Hinit) as Hblocks.
  destruct (embedding_init_inv _ _ _ _ _ Hemb)
    as (_ & _ & _ & _ & _ & Hnp & _).
  assert (Hblock :
            Gemma3VisionEncoderBlock_call (enc_image_encoder e)
              (w_image_encoder W) images None training keep =
            Gemma3VisionEncoderBlock_call (enc_image_encoder e)
              (w_image_encoder W) images None training' keep').
  { unfold Gemma3VisionEncoderBlock_call. cbv zeta.
    destruct (negb _); [reflexivity|].
    assert (HI : (0 < Z.to_nat image_size)%nat) by lia.
    destruct (@dims_of_shape5 _ _ _ _ _ _ Hx HB HT HI HI)
      as (H0 & H1 & H2 & H3 & H4).
    rewrite H0, H1, H2, H3, H4.
    rewrite (reshape_5_to_4_collapse _ _ _ _ _ _ Hx). cbn [Py.bind].
    destruct (@embedding_call_ok image_size patch_size hidden_dim
                (override_dtype dtype) "encoder_embeddings"
                (eb_vision_embeddings (enc_image_encoder e))
                (w_vision_embeddings (w_image_encoder W)) (B * T)
                (Z.to_nat image_size) (Z.to_nat image_size) 3
                (List.concat images) Hemb Hp)
      as (y & Hy & Hshape); try assumption; try lia.
    { rewrite Hnp. symmetry. apply to_nat_sq_quotient. exact Hp. }
    { apply concat_shape4. exact Hx. }
    rewrite Hy. cbn [Py.bind]. rewrite Hnp in Hshape.
    change (Py.sq (image_size / patch_size))
      with ((image_size / patch_size) ^ 2)%Z in Hshape.
    rewrite (@resblocks_call_fixed global hidden_dim num_heads (B * T)
               (Z.to_nat ((image_size / patch_size) ^ 2)) None
               training training' keep keep' Hheads Hhidden)
      with (blocks := eb_resblocks (enc_image_encoder e));
      try assumption; try lia; try exact I; [reflexivity|].
    apply sq_quotient_pos. exact Hp. }
  unfold Gemma3VisionEncoder_call. cbv zeta. rewrite Hblock. reflexivity.
Qed.

Lemma encoder_call_ignores_training_witness :
  let dense2 := {| kernel := [[1; 0]; [0; 1]]; bias := [0; 0] |}%R in
  let norm := {| gamma := [1; 1]; beta := [0; 0] |}%R in
  let Wl :=
    {| w_attn :=
         {| w_query_proj := dense2; w_key_proj := dense2;
            w_value_proj := dense2; w_out_proj := dense2 |};
       w_layer_norm_1 := norm;
       w_mlp_dense_1 :=
         {| kernel := [[1; 0; 1]; [0; 1; 1]]; bias := [0; 0; 0] |}%R;
       w_mlp_dense_2 :=
         {| kernel := [[1; 0]; [0; 1]; [1; 1]]; bias := [0; 0] |}%R;
       w_layer_norm_2 := norm |} in
  let W :=
    {| w_image_encoder :=
         {| w_vision_embeddings :=
              {| w_patch_embedding :=
                   {| conv_kernel := [[[[1; 0]; [0; 1]; [1; 1]]]];
                      conv_bias := [0; 0] |};
                 w_position_embedding := [[1; 2]; [3; 4]; [5; 6]; [7; 8]] |};
            w_resblocks := [Wl];
            w_encoder_layer_norm := norm |};
       w_vision_output_encoder :=
         {| w_vision_soft_embedding_norm := [0; 0];
            w_vision_input_projection :=
              {| kernel := [[1; 0; 1; 0; 1]; [0; 1; 1; 0; 0]];
                 bias := [] |} |} |}%R in
  let img := [[[1; 2; 3]; [4; 5; 6]]; [[7; 8; 9]; [1; 2; 3]]]%R in
  exists e,
    Gemma3VisionEncoder_init "float32" 2 1 2 2 1 3 5 2
      default_layer_norm_epsilon DNone "vit" = Ok e /\
    Gemma3VisionEncoder_call (fun _ _ v => v) e W [[img]] true
      (fun _ _ _ _ => false) =
    Gemma3VisionEncoder_call (fun _ _ v => v) e W [[img]] false
      (fun _ _ _ _ => true).
Proof.
  intros dense2 norm Wl W img.
  assert (Hb : exists e,
             Gemma3VisionEncoder_init "float32" 2 1 2 2 1 3 5 2
               default_layer_norm_epsilon DNone "vit" = Ok e /\
             embedding_weights_fit
               (eb_vision_embeddings (enc_image_encoder e)) 3
               (w_vision_embeddings (w_image_encoder W)))
    by (eexists; split; [vm_compute; reflexivity|split; reflexivity]).
  destruct Hb as (e & He & Hfit).
  exists e. split; [exact He|].
  apply (@encoder_call_ignores_training (fun _ _ v => v)
           "float32" 2 1 2 2 1 3 5 2 default_layer_norm_epsilon DNone "vit"
           e W 1 1 [[img]] true false (fun _ _ _ _ => false)
           (fun _ _ _ _ => true) He).
  - lia.
  - lia.
  - lia.
  - lia.
  - lia.
  - exact Hfit.
  - reflexivity.
Defined.

(** X24.  [Gemma3VisionEncoderBlock.call] does not care how the
    images are grouped: on [B] groups of [T] images it returns what it
    returns on one group holding the same [B * T] images in order. *)
Theorem block_call_ignores_grouping
    (L : Gemma3VisionEncoderBlock) (W : EncoderBlockW)
    (B T a b c : nat) (inputs : Tensor5) (mask : option Tensor4)
    (training : bool) (keep : KeepMask) :
  (0 < B)%nat -> (0 < T)%nat -> (0 < a)%nat -> (0 < b)%nat ->
  is_shape5 B T a b c inputs = true ->
  Gemma3VisionEncoderBlock_call L W inputs mask training keep =
  Gemma3VisionEncoderBlock_call L W [List.concat inputs] mask training keep.
Proof.
  intros HB HT Ha Hb Hx.
  assert (Hx1 : is_shape5 1 (B * T) a b c [List.concat inputs] = true).
  { apply is_shape5_spec. split; [reflexivity|].
    constructor; [|constructor]. apply concat_shape4. exact Hx. }
  assert (HBT : (0 < B * T)%nat) by nia.
  destruct (@dims_of_shape5 _ _ _ _ _ _ Hx HB HT Ha Hb)
    as (H0 & H1 & H2 & H3 & H4).
  destruct (@dims_of_shape5 _ _ _ _ _ _ Hx1 Nat.lt_0_1 HBT Ha Hb)
    as (G0 & G1 & G2 & G3 & G4).
  unfold Gemma3VisionEncoderBlock_call. cbv zeta.
  rewrite H0, H1, H2, H3, H4, G0, G1, G2, G3, G4, Hx, Hx1. cbn [negb].
  rewrite (reshape_5_to_4_collapse _ _ _ _ _ _ Hx).
  rewrite (reshape_5_to_4_collapse _ _ _ _ _ _ Hx1).
  cbn [List.concat]. rewrite app_nil_r. reflexivity.
Qed.

Lemma block_call_ignores_grouping_witness :
  let dense2 := {| kernel := [[1; 0]; [0; 1]]; bias := [0; 0] |}%R in
  let norm := {| gamma := [1; 1]; beta := [0; 0] |}%R in
  let Wl :=
    {| w_attn :=
         {| w_query_proj := dense2; w_key_proj := dense2;
            w_value_proj := dense2; w_out_proj := dense2 |};
       w_layer_norm_1 := norm;
       w_mlp_dense_1 :=
         {| kernel := [[1; 0; 1]; [0; 1; 1]]; bias := [0; 0; 0] |}%R;
       w_mlp_dense_2 :=
         {| kernel := [[1; 0]; [0; 1]; [1; 1]]; bias := [0; 0] |}%R;
       w_layer_norm_2 := norm |} in
  let W :=
    {| w_vision_embeddings :=
         {| w_patch_embedding :=
              {| conv_kernel := [[[[1; 0]; [0; 1]; [1; 1]]]];
                 conv_bias := [0; 0] |};
            w_position_embedding := [[1; 2]; [3; 4]; [5; 6]; [7; 8]] |};
       w_resblocks := [Wl];
       w_encoder_layer_norm := norm |}%R in
  let img := [[[1; 2; 3]; [4; 5; 6]]; [[7; 8; 9]; [1; 2; 3]]]%R in
  exists e,
    Gemma3VisionEncoder_init "float32" 2 1 2 2 1 3 5 2
      default_layer_norm_epsilon DNone "vit" = Ok e /\
    Gemma3VisionEncoderBlock_call (enc_image_encoder e) W
      [[img; img]; [img; img]] None false (fun _ _ _ _ => true) =
    Gemma3VisionEncoderBlock_call (enc_image_encoder e) W
      [[img; img; img; img]] None false (fun _ _ _ _ => true).
Proof.
  intros dense2 norm Wl W img.
  assert (Hb : exists e,
             Gemma3VisionEncoder_init "float32" 2 1 2 2 1 3 5 2
               default_layer_norm_epsilon DNone "vit" = Ok e)
    by (eexists; vm_compute; reflexivity).
  destruct Hb as (e & He). exists e. split; [exact He|].
  apply (@block_call_ignores_grouping (enc_image_encoder e) W 2 2 2 2 3
           [[img; img]; [img; img]] None false (fun _ _ _ _ => true)).
  - lia.
  - lia.
  - lia.
  - lia.
  - reflexivity.
Defined.
